(** * News-Column-Generator: topic extraction and report synthesis pipeline

    A shallow embedding of the pipeline of the repository
    (src/analyzers, src/reporting) and the properties of its specification.

    Conventions of the embedding.
    - A Python [str] is a list of Unicode code points ([pystr]); [str.split],
      [str.strip] and [str.isspace] follow CPython's whitespace table.
    - Python [int] is [Z]; Python [float] quantities (probabilities, source
      weights, weighted counts) are exact rationals [Q].
    - A [dict] used as a map is a [gmap]; a value decoded from JSON or carried
      in an untyped dict is a [pyval].
    - Calls to the generative backend are answered by an oracle indexed by the
      number of calls already made; code that can raise returns an [outcome]. *)

From Stdlib Require Import ZArith QArith Lia List String Ascii Bool Sorted.
From stdpp Require Import gmap list strings pretty.

Local Open Scope Z_scope.

(** ** Python strings *)

Module PyStr.

(** A code point. *)
Abbreviation char := N (only parsing).

(** A Python [str]: its code points. *)
Abbreviation pystr := (list N) (only parsing).

(** An ASCII literal of the source as a [pystr]. *)
Definition py (s : string) : pystr :=
  List.map N_of_ascii (list_ascii_of_string s).

(** [len(l)] of a string or a list. *)
Definition len {A : Type} (l : list A) : Z := Z.of_nat (length l).

Definition in_range (lo hi c : N) : bool := (N.leb lo c && N.leb c hi)%bool.

(** [c.isspace()] for a single character: CPython's [Py_UNICODE_ISSPACE]. *)
Definition isspace (c : char) : bool :=
  (in_range 0x09 0x0d c || in_range 0x1c 0x20 c || N.eqb c 0x85
   || N.eqb c 0xa0 || N.eqb c 0x1680 || in_range 0x2000 0x200a c
   || N.eqb c 0x2028 || N.eqb c 0x2029 || N.eqb c 0x202f
   || N.eqb c 0x205f || N.eqb c 0x3000)%bool.

(** [s.lstrip()]. *)
Fixpoint lstrip (s : pystr) : pystr :=
  match s with
  | [] => []
  | c :: s' => if isspace c then lstrip s' else s
  end.

(** [s.rstrip()]. *)
Fixpoint rstrip (s : pystr) : pystr :=
  match s with
  | [] => []
  | c :: s' =>
      match rstrip s' with
      | [] => if isspace c then [] else [c]
      | r => c :: r
      end
  end.

(** [s.strip()]. *)
Definition strip (s : pystr) : pystr := rstrip (lstrip s).

(** [s.split()]: the maximal runs of non-whitespace characters; [cur] holds
    the run being read, reversed. *)
Fixpoint split_ws_from (cur : pystr) (s : pystr) : list pystr :=
  match s with
  | [] => match cur with [] => [] | _ => [rev cur] end
  | c :: s' =>
      if isspace c
      then match cur with
           | [] => split_ws_from [] s'
           | _ => rev cur :: split_ws_from [] s'
           end
      else split_ws_from (c :: cur) s'
  end.

Definition split_ws (s : pystr) : list pystr := split_ws_from [] s.

(** Truth value of a [str]: non-empty. *)
Definition nonempty (s : pystr) : bool :=
  match s with [] => false | _ => true end.

(** [sum(1 for c in s if p(c))]. *)
Definition count_if (p : char -> bool) (s : pystr) : Z :=
  len (List.filter p s).

(** [s.startswith(p)]. *)
Fixpoint startswith (s p : pystr) : bool :=
  match p, s with
  | [], _ => true
  | a :: p', b :: s' => (N.eqb a b && startswith s' p')%bool
  | _ :: _, [] => false
  end.

(** [s.endswith(p)]. *)
Definition endswith (s p : pystr) : bool := startswith (rev s) (rev p).

(** [s.split(sep)] for a separator of one character. *)
Fixpoint split_char_from (sep : char) (cur : pystr) (s : pystr)
  : list pystr :=
  match s with
  | [] => [rev cur]
  | c :: s' =>
      if N.eqb c sep then rev cur :: split_char_from sep [] s'
      else split_char_from sep (c :: cur) s'
  end.

Definition split_char (sep : char) (s : pystr) : list pystr :=
  split_char_from sep [] s.

(** [s.split(sub, 1)] when [sub] occurs in [s]: the text before and after
    its first occurrence; [None] when it does not occur. *)
Fixpoint split_once_from (sub pre s : pystr) : option (pystr * pystr) :=
  if startswith s sub then Some (rev pre, skipn (length sub) s)
  else match s with
       | [] => None
       | c :: s' => split_once_from sub (c :: pre) s'
       end.

Definition split_once (sub s : pystr) : option (pystr * pystr) :=
  split_once_from sub [] s.

(** [sub in s]. *)
Definition contains (s sub : pystr) : bool :=
  match split_once sub s with Some _ => true | None => false end.

(** [s.replace(old, new, 1)]. *)
Definition replace_first (old new s : pystr) : pystr :=
  match split_once old s with
  | Some (a, b) => a ++ new ++ b
  | None => s
  end.

(** [s.strip(c)] for a set of one character. *)
Fixpoint lstrip_char (c : char) (s : pystr) : pystr :=
  match s with
  | [] => []
  | x :: s' => if N.eqb x c then lstrip_char c s' else s
  end.

Definition strip_char (c : char) (s : pystr) : pystr :=
  rev (lstrip_char c (rev (lstrip_char c s))).

(** [sep.join(l)]. *)
Fixpoint join (sep : pystr) (l : list pystr) : pystr :=
  match l with
  | [] => []
  | [x] => x
  | x :: l' => x ++ sep ++ join sep l'
  end.

(** [s.find(c)] for one character: the first index, if any. *)
Fixpoint find_char (c : char) (s : pystr) : option nat :=
  match s with
  | [] => None
  | x :: s' =>
      if N.eqb x c then Some O
      else match find_char c s' with
           | Some i => Some (S i)
           | None => None
           end
  end.

(** [s.rfind(c)] for one character: the last index, if any. *)
Fixpoint rfind_char (c : char) (s : pystr) : option nat :=
  match s with
  | [] => None
  | x :: s' =>
      match rfind_char c s' with
      | Some i => Some (S i)
      | None => if N.eqb x c then Some O else None
      end
  end.

(** [s[a:b]] for [0 <= a <= b]. *)
Definition slice (a b : nat) (s : pystr) : pystr := firstn (b - a) (skipn a s).

(** [str(z)] for an [int]. *)
Definition str_of_Z (z : Z) : pystr := py (pretty z).

(** Equality of strings, as [==]. *)
Definition str_eqb (s t : pystr) : bool := bool_decide (s = t).

(** *** Facts on prefixes and suffixes *)

Lemma startswith_app (p s : pystr) : startswith (p ++ s) p = true.
Proof.
  induction p as [|a p IH]; simpl.
  - destruct s; reflexivity.
  - rewrite N.eqb_refl. exact IH.
Qed.

Lemma endswith_app (s p : pystr) : endswith (s ++ p) p = true.
Proof.
  unfold endswith. rewrite rev_app_distr. apply startswith_app.
Qed.

(** *** Facts on stripping and splitting *)

Definition all_space (s : pystr) : Prop := Forall (fun c => isspace c = true) s.

Lemma lstrip_decomposes (s : pystr) :
  exists sp, s = sp ++ lstrip s /\ all_space sp.
Proof.
  induction s as [|c s IH]; simpl.
  - exists []. split; [reflexivity | constructor].
  - destruct (isspace c) eqn:Hc.
    + destruct IH as (sp & Heq & Hsp). exists (c :: sp). split.
      * simpl. f_equal. exact Heq.
      * constructor; assumption.
    + exists []. split; [reflexivity | constructor].
Qed.

Lemma rstrip_decomposes (s : pystr) :
  exists sp, s = rstrip s ++ sp /\ all_space sp.
Proof.
  induction s as [|c s IH]; simpl.
  - exists []. split; [reflexivity | constructor].
  - destruct IH as (sp & Heq & Hsp).
    destruct (rstrip s) as [|r rs] eqn:Hr.
    + destruct (isspace c) eqn:Hc.
      * exists (c :: sp). simpl in Heq. subst s. split; [reflexivity|].
        constructor; assumption.
      * exists sp. simpl in *. subst s. split; [reflexivity | assumption].
    + exists sp. split; [|assumption]. simpl. f_equal. exact Heq.
Qed.

Lemma strip_decomposes (s : pystr) :
  exists sp1 sp2, s = sp1 ++ strip s ++ sp2 /\ all_space sp1 /\ all_space sp2.
Proof.
  destruct (lstrip_decomposes s) as (sp1 & H1 & Hs1).
  destruct (rstrip_decomposes (lstrip s)) as (sp2 & H2 & Hs2).
  exists sp1, sp2. unfold strip. rewrite <- H2. auto.
Qed.

Lemma split_ws_from_space_suffix (sp : pystr) :
  all_space sp -> forall s cur,
  split_ws_from cur (s ++ sp) = split_ws_from cur s.
Proof.
  intros Hsp s. induction s as [|c s IH]; intros cur.
  - simpl. revert cur. induction Hsp as [|c sp Hc _ IH]; intros cur.
    + reflexivity.
    + simpl. rewrite Hc. destruct cur; rewrite IH; reflexivity.
  - simpl. destruct (isspace c); [destruct cur|]; rewrite IH; reflexivity.
Qed.

Lemma split_ws_space_prefix (sp s : pystr) :
  all_space sp -> split_ws (sp ++ s) = split_ws s.
Proof.
  unfold split_ws. induction 1 as [|c sp Hc _ IH]; simpl.
  - reflexivity.
  - rewrite Hc. exact IH.
Qed.

Lemma split_ws_padded (sp1 s sp2 : pystr) :
  all_space sp1 -> all_space sp2 -> split_ws (sp1 ++ s ++ sp2) = split_ws s.
Proof.
  intros H1 H2. rewrite split_ws_space_prefix by assumption.
  apply split_ws_from_space_suffix. assumption.
Qed.

Lemma split_ws_strip (s : pystr) : split_ws (strip s) = split_ws s.
Proof.
  destruct (strip_decomposes s) as (sp1 & sp2 & Heq & H1 & H2).
  rewrite Heq at 2. symmetry. apply split_ws_padded; assumption.
Qed.

Lemma count_if_app (p : char -> bool) (s t : pystr) :
  count_if p (s ++ t) = count_if p s + count_if p t.
Proof.
  unfold count_if, len. rewrite List.filter_app, length_app. lia.
Qed.

Lemma count_if_none (p : char -> bool) (s : pystr) :
  Forall (fun c => p c = false) s -> count_if p s = 0.
Proof.
  unfold count_if, len. induction 1 as [|c s Hc _ IH]; simpl.
  - reflexivity.
  - rewrite Hc. exact IH.
Qed.

End PyStr.

Import PyStr.

(** ** Report validator: word counting (src/reporting/validators.py) *)

Module Validator.

(** [ReportValidator._is_chinese_char]. *)
Definition _is_chinese_char (c : char) : bool :=
  if in_range 0x4e00 0x9fff c then true
  else if in_range 0x3400 0x4dbf c then true
  else false.

(** The characters of [punctuation_chars]: the two adjacent string literals
    of the source, concatenated. *)
Definition punctuation_chars : pystr :=
  [0xff0c; 0x3002; 0xff1f; 0xff01; 0x3001; 0xff1b; 0xff1a; 0x22; 0x22;
   0xff08; 0xff09; 0x3010; 0x3011; 0x300a; 0x300b; 0x3008; 0x3009;
   0x300e; 0x300f; 0x300c; 0x300d; 0xfe41; 0xfe42; 0x2026; 0x2014;
   0xff0d; 0xff5e; 0xb7; 0x2e; 0x2c; 0x3a; 0x3b; 0x21; 0x3f; 0x5b; 0x5d;
   0x28; 0x29; 0x7b; 0x7d; 0x22; 0x27; 0x2b; 0x2d; 0x2a; 0x2f; 0x3d;
   0x5f]%N.

(** [ReportValidator._is_punctuation]. *)
Definition _is_punctuation (c : char) : bool :=
  (existsb (N.eqb c) punctuation_chars || isspace c)%bool.

(** The character written into [non_chinese_text] for [c]. *)
Definition mask_char (c : char) : char :=
  if (_is_chinese_char c || isspace c || _is_punctuation c)%bool
  then 0x20%N else c.

(** [non_chinese_text]. *)
Definition non_chinese_text (text : pystr) : pystr := List.map mask_char text.

(** [non_chinese_words]. *)
Definition non_chinese_words (text : pystr) : Z :=
  len (List.filter nonempty (split_ws (non_chinese_text text))).

(** [ReportValidator._count_words_multilingual].  The test
    [chinese_char_count > len(text) * 0.3] is made on integers: the float
    product is the integer [3 * len(text) / 10] when that is an integer and
    is far from any integer otherwise, so the two tests agree. *)
Definition _count_words_multilingual (text : pystr) : Z :=
  if negb (nonempty text) then 0
  else
    let text := strip text in
    let chinese_char_count := count_if _is_chinese_char text in
    let space_separated_words := len (split_ws text) in
    if 3 * len text <? 10 * chinese_char_count
    then chinese_char_count + non_chinese_words text
    else space_separated_words.

(** [ReportValidator.validate_word_count]: the verdict and the count (the
    message is a function of both and is not kept). *)
Definition validate_word_count (content : pystr) (min_words max_words : Z)
  : bool * Z :=
  let word_count := _count_words_multilingual content in
  if word_count <? min_words then (false, word_count)
  else if max_words <? word_count then (false, word_count)
  else (true, word_count).

(** The counting rule in the words of the specification: the share of
    logographic characters is taken over the total character count of the
    string as given. *)
Definition word_count_spec (s : pystr) : Z :=
  if 3 * len s <? 10 * count_if _is_chinese_char s
  then count_if _is_chinese_char s + non_chinese_words s
  else len (split_ws s).

(** *** The counting rule *)

Lemma space_not_chinese (c : char) :
  isspace c = true -> _is_chinese_char c = false.
Proof.
  unfold isspace, _is_chinese_char, in_range. intros H.
  rewrite !orb_true_iff, !andb_true_iff, !N.leb_le, !N.eqb_eq in H.
  destruct (N.leb_spec 0x4e00 c), (N.leb_spec c 0x9fff),
    (N.leb_spec 0x3400 c), (N.leb_spec c 0x4dbf); simpl; try reflexivity; lia.
Qed.

Lemma mask_char_space (c : char) : isspace c = true -> mask_char c = 0x20%N.
Proof.
  intros H. unfold mask_char. rewrite H, orb_true_r. reflexivity.
Qed.

Lemma non_chinese_text_space (sp : pystr) :
  all_space sp -> all_space (non_chinese_text sp).
Proof.
  induction 1 as [|c sp Hc _ IH]; simpl; constructor.
  - rewrite mask_char_space by assumption. reflexivity.
  - exact IH.
Qed.

Lemma chinese_count_padded (sp1 s sp2 : pystr) :
  all_space sp1 -> all_space sp2 ->
  count_if _is_chinese_char (sp1 ++ s ++ sp2) = count_if _is_chinese_char s.
Proof.
  intros H1 H2. rewrite !count_if_app.
  rewrite (count_if_none _ sp1), (count_if_none _ sp2); [lia | |].
  - eapply List.Forall_impl; [|exact H2]. apply space_not_chinese.
  - eapply List.Forall_impl; [|exact H1]. apply space_not_chinese.
Qed.

Lemma non_chinese_words_padded (sp1 s sp2 : pystr) :
  all_space sp1 -> all_space sp2 ->
  non_chinese_words (sp1 ++ s ++ sp2) = non_chinese_words s.
Proof.
  intros H1 H2. unfold non_chinese_words, non_chinese_text.
  rewrite !List.map_app.
  rewrite split_ws_padded by (apply non_chinese_text_space; assumption).
  reflexivity.
Qed.

Lemma chinese_count_strip (s : pystr) :
  count_if _is_chinese_char (strip s) = count_if _is_chinese_char s.
Proof.
  destruct (strip_decomposes s) as (sp1 & sp2 & Heq & H1 & H2).
  rewrite Heq at 2. symmetry. apply chinese_count_padded; assumption.
Qed.

Lemma non_chinese_words_strip (s : pystr) :
  non_chinese_words (strip s) = non_chinese_words s.
Proof.
  destruct (strip_decomposes s) as (sp1 & sp2 & Heq & H1 & H2).
  rewrite Heq at 2. symmetry. apply non_chinese_words_padded; assumption.
Qed.

(** A string of 600 logographic characters, no spaces. *)
Definition cjk600 : pystr := List.repeat 0x4e2d%N 600.

(** 600 single-character ASCII tokens separated by single spaces. *)
Definition ascii600 : pystr :=
  0x61%N :: List.concat (List.repeat [0x20%N; 0x61%N] 599).

(** Three logographic characters followed by eight spaces. *)
Definition cjk_padded : pystr := List.repeat 0x4e2d%N 3 ++ List.repeat 0x20%N 8.

Lemma count_words_multilingual_eq (s : pystr) :
  _count_words_multilingual s =
    if 3 * len (strip s) <? 10 * count_if _is_chinese_char s
    then count_if _is_chinese_char s + non_chinese_words s
    else len (split_ws s).
Proof.
  unfold _count_words_multilingual.
  destruct s as [|c s]; [reflexivity|].
  cbv beta iota zeta delta [nonempty negb].
  rewrite chinese_count_strip, non_chinese_words_strip, split_ws_strip.
  reflexivity.
Qed.

(** C9, as amended.  For every string [s], the multilingual word count is
    the number of logographic characters plus the number of
    whitespace-delimited words left once logographic characters and
    punctuation are blanked, when the logographic characters exceed 30% of
    the length of [s] stripped of leading and trailing whitespace; it is the
    whitespace-delimited word count otherwise.  600 logographic characters
    count as 600, and 600 space-separated one-character ASCII tokens count
    as 600. *)
Theorem count_words_multilingual_rule :
  (forall s : pystr,
     _count_words_multilingual s =
       if 3 * len (strip s) <? 10 * count_if _is_chinese_char s
       then count_if _is_chinese_char s + non_chinese_words s
       else len (split_ws s))
  /\ _count_words_multilingual cjk600 = 600
  /\ _count_words_multilingual ascii600 = 600.
Proof.
  split; [exact count_words_multilingual_eq|].
  split; vm_compute; reflexivity.
Qed.

(** On a string with no leading or trailing whitespace the rule reads as
    the specification words it. *)
Lemma count_words_multilingual_stripped (s : pystr) :
  strip s = s -> _count_words_multilingual s = word_count_spec s.
Proof.
  intros Hs. rewrite count_words_multilingual_eq, Hs. reflexivity.
Qed.

(** C9 as stated fails on a string with trailing whitespace: the share is
    taken over the stripped length, 3 of 3 characters here and not 3 of 11,
    so the count is 3 where the stated rule gives one word. *)
Lemma count_words_multilingual_not_spec :
  _count_words_multilingual cjk_padded = 3
  /\ word_count_spec cjk_padded = 1
  /\ _count_words_multilingual cjk_padded <> word_count_spec cjk_padded.
Proof.
  split; [|split]; vm_compute; congruence.
Qed.

End Validator.

Import Validator.

(** ** Topic count selection (src/analyzers/topic_modeler.py) *)

Module TopicCount.

(** [int(math.log(article_count / 100, 2) * 3)], read over the real numbers:
    the largest [j] with [2^j <= (article_count / 100)^3], which is the
    binary logarithm of the integer part of [article_count^3 / 100^3]
    ([log_growth_term_floor] below).  The source evaluates the expression in
    double precision. *)
Definition log_growth_term (article_count : Z) : Z :=
  Z.log2 (article_count ^ 3 / 100 ^ 3).

(** [TopicModeler._adjust_num_topics]. *)
Definition _adjust_num_topics (article_count min_topics max_topics : Z) : Z :=
  if article_count <=? 100 then min_topics
  else if article_count <=? 500 then
    Z.min max_topics (min_topics + (article_count - 100) / 50)
  else
    let log_growth := min_topics + log_growth_term article_count in
    Z.min max_topics log_growth.

(** The three growth regimes of the article count. *)
Inductive regime := Small | Linear | Logarithmic.

Definition regime_of (n : Z) : regime :=
  if n <=? 100 then Small else if n <=? 500 then Linear else Logarithmic.

(** [j] is the floor of [3 * log2 (n / 100)]: [2^j <= (n/100)^3 < 2^(j+1)],
    with the denominators cleared. *)
Definition is_floor_3log2 (n j : Z) : Prop :=
  0 <= j /\ 2 ^ j * 100 ^ 3 <= n ^ 3 < 2 ^ (j + 1) * 100 ^ 3.

Lemma log_growth_term_floor (n : Z) :
  100 <= n -> is_floor_3log2 n (log_growth_term n).
Proof.
  intros Hn. unfold is_floor_3log2, log_growth_term.
  assert (Hcube : 100 ^ 3 <= n ^ 3) by (apply Z.pow_le_mono_l; lia).
  assert (Hq : 0 < n ^ 3 / 100 ^ 3).
  { apply Z.div_str_pos. lia. }
  pose proof (Z.log2_spec _ Hq) as [Hlo Hhi].
  pose proof (Z.log2_nonneg (n ^ 3 / 100 ^ 3)) as Hnn.
  set (j := Z.log2 (n ^ 3 / 100 ^ 3)) in *.
  replace (Z.succ j) with (j + 1) in Hhi by lia.
  pose proof (Z.mul_div_le (n ^ 3) (100 ^ 3) ltac:(lia)) as Hfloor.
  pose proof (Z.mod_pos_bound (n ^ 3) (100 ^ 3) ltac:(lia)) as Hmod.
  pose proof (Z.div_mod (n ^ 3) (100 ^ 3) ltac:(lia)) as Hdm.
  split; [exact Hnn|]. split; nia.
Qed.

Lemma is_floor_3log2_unique (n j j' : Z) :
  is_floor_3log2 n j -> is_floor_3log2 n j' -> j = j'.
Proof.
  intros (Hj & Hlo & Hhi) (Hj' & Hlo' & Hhi').
  destruct (Z.lt_trichotomy j j') as [Hlt | [Heq | Hgt]]; [|exact Heq|].
  - exfalso.
    assert (2 ^ (j + 1) <= 2 ^ j') by (apply Z.pow_le_mono_r; lia).
    nia.
  - exfalso.
    assert (2 ^ (j' + 1) <= 2 ^ j) by (apply Z.pow_le_mono_r; lia).
    nia.
Qed.

Lemma log_growth_term_mono (n n' : Z) :
  0 <= n <= n' -> log_growth_term n <= log_growth_term n'.
Proof.
  intros Hn. unfold log_growth_term. apply Z.log2_le_mono.
  apply Z.div_le_mono; [lia|]. apply Z.pow_le_mono_l. lia.
Qed.

Lemma adjust_num_topics_bounds (n min_k max_k : Z) :
  min_k <= max_k ->
  min_k <= _adjust_num_topics n min_k max_k <= max_k.
Proof.
  intros Hk. unfold _adjust_num_topics.
  destruct (Z.leb_spec n 100); [lia|].
  destruct (Z.leb_spec n 500).
  - assert (0 <= (n - 100) / 50) by (apply Z.div_pos; lia). lia.
  - pose proof (Z.log2_nonneg (n ^ 3 / 100 ^ 3)).
    unfold log_growth_term. lia.
Qed.

Lemma adjust_num_topics_mono (n n' min_k max_k : Z) :
  n <= n' -> regime_of n = regime_of n' ->
  _adjust_num_topics n min_k max_k <= _adjust_num_topics n' min_k max_k.
Proof.
  intros Hle. unfold regime_of, _adjust_num_topics.
  destruct (Z.leb_spec n 100) as [Ha | Ha], (Z.leb_spec n' 100) as [Hb | Hb].
  - intros _. lia.
  - destruct (n' <=? 500); discriminate.
  - lia.
  - destruct (Z.leb_spec n 500) as [Hc | Hc],
      (Z.leb_spec n' 500) as [Hd | Hd]; try discriminate; intros _.
    + assert ((n - 100) / 50 <= (n' - 100) / 50)
        by (apply Z.div_le_mono; lia).
      lia.
    + pose proof (log_growth_term_mono n n' ltac:(lia)). lia.
Qed.

(** C2.  With [min_k <= max_k], the topic count chosen for [n] articles lies
    in [[min_k, max_k]]; it is [min_k] for [n <= 100],
    [min(max_k, min_k + (n - 100) // 50)] for [100 < n <= 500] and
    [min(max_k, min_k + floor(3 * log2(n / 100)))] for [n > 500]; and it is
    non-decreasing in [n] within each of the three regimes. *)
Theorem adjust_num_topics_spec (n min_k max_k : Z) :
  min_k <= max_k ->
  let k := _adjust_num_topics n min_k max_k in
  min_k <= k <= max_k
  /\ (n <= 100 -> k = min_k)
  /\ (100 < n <= 500 -> k = Z.min max_k (min_k + (n - 100) / 50))
  /\ (500 < n ->
      exists j, is_floor_3log2 n j /\ k = Z.min max_k (min_k + j))
  /\ (forall n', n <= n' -> regime_of n = regime_of n' ->
      k <= _adjust_num_topics n' min_k max_k).
Proof.
  intros Hk k. split; [apply adjust_num_topics_bounds; exact Hk|].
  subst k. unfold _adjust_num_topics at 1 2 3.
  repeat split.
  - intros Hn. destruct (Z.leb_spec n 100); [reflexivity | lia].
  - intros Hn. destruct (Z.leb_spec n 100); [lia|].
    destruct (Z.leb_spec n 500); [reflexivity | lia].
  - intros Hn. exists (log_growth_term n). split.
    + apply log_growth_term_floor. lia.
    + destruct (Z.leb_spec n 100); [lia|].
      destruct (Z.leb_spec n 500); [lia | reflexivity].
  - intros n' Hle Hreg. apply adjust_num_topics_mono; assumption.
Qed.

Lemma adjust_num_topics_spec_witness :
  5 <= 20 /\ _adjust_num_topics 800 5 20 = 14.
Proof.
  split; [lia|].
  destruct (adjust_num_topics_spec 800 5 20 ltac:(lia)) as (_ & _ & _ & H & _).
  destruct (H ltac:(lia)) as (j & Hj & Hk).
  rewrite Hk.
  rewrite (is_floor_3log2_unique 800 j 9 Hj).
  - reflexivity.
  - unfold is_floor_3log2. lia.
Defined.

End TopicCount.

(** ** Python values, exceptions and the backend *)

Module Effects.

#[local] Set Warnings "-register-all".

(** A value decoded from JSON or held in an untyped dict. *)
Inductive pyval :=
| PyNone
| PyBool (b : bool)
| PyInt (z : Z)
| PyFloat (q : Q)
| PyStr (s : pystr)
| PyList (l : list pyval)
| PyDict (d : list (pystr * pyval)).

(** Truth value of a Python value. *)
Definition truthy (v : pyval) : bool :=
  match v with
  | PyNone => false
  | PyBool b => b
  | PyInt z => negb (z =? 0)
  | PyFloat q => negb (Qeq_bool q 0)
  | PyStr s => nonempty s
  | PyList l => match l with [] => false | _ => true end
  | PyDict d => match d with [] => false | _ => true end
  end.

(** [d.get(k)] on the items of a dict (its keys are distinct). *)
Fixpoint dict_get (d : list (pystr * pyval)) (k : pystr) : option pyval :=
  match d with
  | [] => None
  | (k', v) :: d' => if str_eqb k' k then Some v else dict_get d' k
  end.

(** [d.get(k, default)]. *)
Definition dict_get_default (d : list (pystr * pyval)) (k : pystr)
  (default : pyval) : pyval :=
  match dict_get d k with Some v => v | None => default end.

(** Exceptions the modelled code raises or lets through. *)
Inductive exn :=
| BackendError (msg : pystr)      (* raised by the generative backend *)
| PromptError (msg : pystr)       (* unknown template or placeholder *)
| AttributeError                  (* a method missing on the value *)
| KeyError (k : pystr)            (* subscript of an absent key *)
| TypeError                       (* an operation on the wrong type *)
| GenerationFailed.               (* "Failed to generate valid report after 3 attempts" *)

Inductive outcome (A : Type) :=
| Returns (a : A)
| Raises (e : exn).
Arguments Returns {A} a.
Arguments Raises {A} e.

Inductive PromptCategory :=
| NEWS_FILTERING | REPORT_GENERATION | VALIDATION | TOPIC_SELECTION.

(** The patterns the filter's last parsing strategy searches for. *)
Inductive pattern :=
| PatIdColon     (* ID:\s*(\d+) *)
| PatHash        (* #(\d+) *)
| PatNumbered    (* ^(\d+)[.,)] *)
| PatCodeBlock.  (* a Markdown code block, its body captured *)

(** What the pipeline takes from outside the repository.  [backend n] is the
    outcome of the [n]-th call of [LLMService.chat] made by a task, after
    the service's own retries; the other fields are library functions. *)
Record externals := {
  backend : nat -> pystr -> pystr -> outcome pystr;
  get_prompt : PromptCategory -> pystr -> list (pystr * pyval) -> outcome pystr;
  json_loads : pystr -> option pyval;       (* [None]: JSONDecodeError *)
  json_dumps : pyval -> pystr;
  str_lower : pystr -> pystr;               (* str.lower *)
  re_findall : pattern -> pystr -> list pystr;
  py_repr : pyval -> pystr;                 (* str() of a value that is not a str *)
  isoformat : Z -> pystr;                   (* datetime.isoformat *)
  now_utc : pystr                           (* the formatted current time *)
}.

(** A computation that calls the backend: from the number of calls made so
    far to an outcome and the number of calls made after it. *)
Definition comp (A : Type) : Type := nat -> outcome A * nat.

Definition ret {A} (a : A) : comp A := fun n => (Returns a, n).

Definition raise {A} (e : exn) : comp A := fun n => (Raises e, n).

Definition bind {A B} (c : comp A) (k : A -> comp B) : comp B :=
  fun n =>
    match c n with
    | (Returns a, n') => k a n'
    | (Raises e, n') => (Raises e, n')
    end.

(** [try: c  except Exception as e: h(e)]. *)
Definition try_except {A} (c : comp A) (h : exn -> comp A) : comp A :=
  fun n =>
    match c n with
    | (Returns a, n') => (Returns a, n')
    | (Raises e, n') => h e n'
    end.

(** A pure step that may raise. *)
Definition lift {A} (o : outcome A) : comp A := fun n => (o, n).

(** [await self.llm_service.chat(system_prompt, user_prompt)]. *)
Definition chat (E : externals) (system_prompt user_prompt : pystr)
  : comp pystr :=
  fun n => (backend E n system_prompt user_prompt, S n).

(** [str(v)]. *)
Definition py_str (E : externals) (v : pyval) : pystr :=
  match v with
  | PyStr s => s
  | _ => py_repr E v
  end.

Declare Scope comp_scope.
Delimit Scope comp_scope with comp.
Notation "x <- c ;; k" := (bind c (fun x => k))
  (at level 100, c at next level, right associativity) : comp_scope.

(** What a loop body asks for: [return a] from the function, or carry on
    with the next iteration. *)
Inductive step (A : Type) :=
| Return (a : A)
| Continue.
Arguments Return {A} a.
Arguments Continue {A}.

End Effects.

Import Effects.
Local Open Scope comp_scope.

(** ** Data model (src/models) *)

Module Models.

(** [NewsArticle.published_at]: absent, a parsed datetime (seconds since the
    epoch) or the raw string that did not parse. *)
Inductive pubdate :=
| NoDate
| DateTime (epoch : Z)
| RawDate (raw : pystr).

Record NewsArticle := {
  id : option pystr;
  title : pystr;
  summary : pystr;
  url : pystr;
  source : pystr;
  category : pystr;
  published_at : pubdate;
  topics : list pyval
}.

Record Topic := {
  topic_id : Z;
  content : pystr;
  count : Z;
  weighted_count : Q;
  keywords : list pystr;
  article_ids : list (option pystr);
  selection_reason : pystr
}.

Record reference := {
  ref_title : pystr;
  ref_url : pystr;
  ref_source : pystr
}.

Record Report := {
  r_topic_id : Z;
  r_topic_content : pystr;
  r_published_at : pystr;
  r_title : pyval;
  r_content : pystr;
  r_reference_news : list reference
}.

(** [str(news.id)]. *)
Definition str_of_id (i : option pystr) : pystr :=
  match i with
  | Some s => s
  | None => py "None"
  end.

End Models.

Import Models.

(** ** Sample collaborators

    Concrete library functions and backends on which the statements below
    are run. *)

Module Samples.

(** [str.lower] on ASCII text. *)
Definition ascii_lower (s : pystr) : pystr :=
  List.map (fun c => if in_range 0x41 0x5a c then (c + 32)%N else c) s.

(** Collaborators with a scripted backend: no template is missing, no
    response holds JSON and no pattern matches. *)
Definition scripted (script : nat -> outcome pystr) : externals := {|
  backend := fun n _ _ => script n;
  get_prompt := fun _ name _ => Returns name;
  json_loads := fun _ => None;
  json_dumps := fun _ => [];
  str_lower := ascii_lower;
  re_findall := fun _ _ => [];
  py_repr := fun _ => [];
  isoformat := fun _ => [];
  now_utc := py "2025-01-01 00:00:00 UTC"
|}.

Definition topic0 : Topic := {|
  topic_id := 0;
  content := py "market + rates";
  count := 2;
  weighted_count := 2;
  keywords := [py "market"; py "rates"];
  article_ids := [Some (py "a1"); Some (py "a2")];
  selection_reason := []
|}.

(** Two responses that yield no title, then a short titled report. *)
Definition script_short_third (n : nat) : outcome pystr :=
  match n with
  | 0%nat => Returns (py "oops")
  | 1%nat => Returns []
  | 2%nat => Returns (py "Title: T" ++ [0x0a%N] ++ py "Content: short body")
  | _ => Raises (BackendError (py "no more responses"))
  end.

End Samples.

Import Samples.

(** ** Report validator: format and extraction (src/reporting/validators.py) *)

Module ReportFormat.

Definition k_title : pystr := Eval cbv in py "title".
Definition k_content : pystr := Eval cbv in py "content".

(** The dict [{'title': t, 'content': c}]. *)
Definition title_content (t c : pyval) : pyval :=
  PyDict [(k_title, t); (k_content, c)].

(** [ReportValidator.validate_report_format]. *)
Definition validate_report_format (report_content : pyval) : bool :=
  match report_content with
  | PyDict d =>
      match dict_get d k_title, dict_get d k_content with
      | Some t, Some c => (truthy t && truthy c)%bool
      | _, _ => false
      end
  | _ => false
  end.

(** [ReportValidator.validate_word_count] on the value found under
    ['content']: a false value counts zero words, a [str] is counted, and
    any other value has no [strip] method. *)
Definition validate_word_count_of (content : pyval) (min_words max_words : Z)
  : outcome (bool * Z) :=
  match content with
  | PyStr s => Returns (validate_word_count s min_words max_words)
  | v => if truthy v then Raises AttributeError
         else Returns (validate_word_count [] min_words max_words)
  end.

(** Index of the first line satisfying [p]. *)
Fixpoint find_line (p : pystr -> bool) (lines : list pystr) : option nat :=
  match lines with
  | [] => None
  | l :: rest =>
      if p l then Some O
      else match find_line p rest with
           | Some i => Some (S i)
           | None => None
           end
  end.

Section Extract.

Context (E : externals).

(** The JSON branch of [extract_title_content]: the result it returns, if
    any. *)
Definition extract_json (text : pystr) : option pyval :=
  if (startswith (strip text) (py "{") && endswith (strip text) (py "}"))%bool
  then
    match json_loads E text with
    | Some (PyDict data) =>
        match dict_get data k_title, dict_get data k_content with
        | Some t, Some c => Some (title_content t c)
        | _, _ => None
        end
    | _ => None
    end
  else None.

(** [ReportValidator.extract_title_content]. *)
Definition extract_title_content (text : pystr) : pyval :=
  match extract_json text with
  | Some result => result
  | None =>
      let lines := split_char 0x0a%N (strip text) in
      let title_line :=
        find_line (fun line => startswith (str_lower E line) (py "title:"))
          lines in
      let content_line :=
        find_line (fun line => startswith (str_lower E line) (py "content:"))
          lines in
      match title_line, content_line with
      | Some title_line, Some content_line =>
          let title :=
            strip (replace_first (py "Title:") [] (nth title_line lines []))
          in
          let content :=
            strip (join [0x0a%N] (skipn (S content_line) lines)) in
          let content :=
            if (negb (nonempty content) && (0 <? content_line)%nat)%bool
            then strip (replace_first (py "Content:") []
                          (nth content_line lines []))
            else content in
          title_content (PyStr title) (PyStr content)
      | _, _ =>
          if (1 <? length lines)%nat
          then
            let title := strip (nth 0 lines []) in
            let content := strip (join [0x0a%N] (skipn 1 lines)) in
            title_content (PyStr title) (PyStr content)
          else title_content (PyStr []) (PyStr text)
      end
  end.

End Extract.

End ReportFormat.

Import ReportFormat.

(** ** Content synthesizer (src/analyzers/content_analyzer.py) *)

Module ContentAnalyzer.

Section Generate.

Context (E : externals).

(** The language of the region, from its configuration. *)
Context (source_lang : pystr).

(** [x == topic_id] for a value [x] taken from a dict. *)
Definition eq_int (v : pyval) (z : Z) : bool :=
  match v with
  | PyInt z' => z' =? z
  | PyFloat q => Qeq_bool q (inject_Z z)
  | PyBool b => (if b then 1 else 0) =? z
  | _ => false
  end.

(** Whether the article is tagged with the topic. *)
Definition is_relevant (news : NewsArticle) (tid : Z) : bool :=
  existsb
    (fun news_topic =>
       match news_topic with
       | PyDict d =>
           match dict_get d (py "topic_id") with
           | Some v => eq_int v tid
           | None => false
           end
       | _ => false
       end)
    (topics news).

(** [news_summaries]: tagged articles are inserted at the front, the others
    appended. *)
Definition news_summaries (tid : Z) (filtered_news : list NewsArticle)
  : list pystr :=
  fold_left
    (fun acc news =>
       let summary :=
         if nonempty (summary news) then summary news else title news in
       if is_relevant news tid then summary :: acc else acc ++ [summary])
    filtered_news [].

(** One pass of the body of [for attempt in range(3)]. *)
Definition attempt_body (system_prompt user_prompt : pystr) (attempt : Z)
  : comp (step pyval) :=
  try_except
    (response <- chat E system_prompt user_prompt ;;
     let result := extract_title_content E response in
     if negb (validate_report_format result) then ret Continue
     else
       match result with
       | PyDict d =>
           r <- lift (validate_word_count_of
                        (dict_get_default d k_content (PyStr [])) 500 2000) ;;
           let '(is_valid, word_count) := r in
           if negb is_valid then
             if attempt =? 2 then ret (Return result) else ret Continue
           else ret (Return result)
       | _ => raise AttributeError
       end)
    (fun e => if attempt =? 2 then raise e else ret Continue).

(** The [for] loop over the attempts left, and the [raise] after it. *)
Fixpoint attempts (system_prompt user_prompt : pystr) (todo : list Z)
  : comp pyval :=
  match todo with
  | [] => raise GenerationFailed
  | attempt :: rest =>
      r <- attempt_body system_prompt user_prompt attempt ;;
      match r with
      | Return result => ret result
      | Continue => attempts system_prompt user_prompt rest
      end
  end.

(** [ContentAnalyzer.generate_report_content]; the outer handler logs and
    re-raises. *)
Definition generate_report_content (topic : Topic)
  (filtered_news : list NewsArticle) : comp pyval :=
  try_except
    (let summaries := news_summaries (topic_id topic) filtered_news in
     system_prompt <- lift (get_prompt E REPORT_GENERATION (py "system") []) ;;
     user_prompt <-
       lift (get_prompt E REPORT_GENERATION (py "user")
               [(py "news_summaries", PyStr (join [0x0a; 0x0a]%N summaries));
                (py "target_lang", PyStr source_lang)]) ;;
     attempts system_prompt user_prompt [0; 1; 2])
    (fun e => raise e).

(** The third pass is reached from call [n] at call [n2]: the first two
    passes ask for another try. *)
Definition third_attempt_reached (system_prompt user_prompt : pystr)
  (n n2 : nat) : Prop :=
  exists n1,
    attempt_body system_prompt user_prompt 0 n = (Returns Continue, n1)
    /\ attempt_body system_prompt user_prompt 1 n1 = (Returns Continue, n2).

(** The prompts of the generation request are available. *)
Definition prompts_are (topic : Topic) (filtered_news : list NewsArticle)
  (system_prompt user_prompt : pystr) : Prop :=
  get_prompt E REPORT_GENERATION (py "system") [] = Returns system_prompt
  /\ get_prompt E REPORT_GENERATION (py "user")
       [(py "news_summaries",
         PyStr (join [0x0a; 0x0a]%N
                  (news_summaries (topic_id topic) filtered_news)));
        (py "target_lang", PyStr source_lang)] = Returns user_prompt.

(** *** Retry discipline *)

Ltac comp_unfold :=
  unfold bind, try_except, chat, lift, ret, raise in *.

Lemma attempt_body_one_call (sp up : pystr) (a : Z) (n : nat) :
  snd (attempt_body sp up a n) = S n.
Proof.
  unfold attempt_body. comp_unfold.
  destruct (backend E n sp up) as [response | e]; simpl.
  - destruct (validate_report_format (extract_title_content E response));
      simpl; [|reflexivity].
    destruct (extract_title_content E response) as [| | | | | |d]; simpl;
      try (destruct (a =? 2); reflexivity).
    destruct (validate_word_count_of _ 500 2000) as [[[|] wc] | e]; simpl;
      try reflexivity; destruct (a =? 2); reflexivity.
  - destruct (a =? 2); reflexivity.
Qed.

Lemma attempts_calls (sp up : pystr) (todo : list Z) (n : nat) :
  (snd (attempts sp up todo n) <= n + length todo)%nat.
Proof.
  revert n. induction todo as [|a rest IH]; intros n; simpl.
  - lia.
  - unfold bind. pose proof (attempt_body_one_call sp up a n) as Hone.
    destruct (attempt_body sp up a n) as [[[result|]|e] n1]; simpl in *;
      subst n1.
    + lia.
    + specialize (IH (S n)). lia.
    + lia.
Qed.

Lemma generate_calls (topic : Topic) (filtered_news : list NewsArticle)
  (n : nat) :
  (snd (generate_report_content topic filtered_news n) <= n + 3)%nat.
Proof.
  unfold generate_report_content, try_except, bind, lift, raise.
  destruct (get_prompt E REPORT_GENERATION (py "system") []) as [sp|e];
    cbv beta iota; [|simpl; lia].
  destruct (get_prompt E REPORT_GENERATION (py "user") _) as [up|e];
    cbv beta iota; [|simpl; lia].
  pose proof (attempts_calls sp up [0; 1; 2] n) as H.
  destruct (attempts sp up [0; 1; 2] n) as [[r|e] n']; simpl in *; lia.
Qed.

Lemma generate_at_third (topic : Topic) (filtered_news : list NewsArticle)
  (sp up : pystr) (n n2 : nat) :
  prompts_are topic filtered_news sp up ->
  third_attempt_reached sp up n n2 ->
  generate_report_content topic filtered_news n =
    match attempt_body sp up 2 n2 with
    | (Returns (Return result), n3) => (Returns result, n3)
    | (Returns Continue, n3) => (Raises GenerationFailed, n3)
    | (Raises e, n3) => (Raises e, n3)
    end.
Proof.
  intros [Hsp Hup] (n1 & H0 & H1).
  unfold generate_report_content.
  unfold try_except at 1. unfold bind at 1. unfold lift at 1. rewrite Hsp.
  unfold bind at 1. unfold lift at 1. rewrite Hup.
  simpl attempts. unfold bind at 1. rewrite H0.
  unfold bind at 1. rewrite H1.
  unfold bind at 1.
  destruct (attempt_body sp up 2 n2) as [[[result|]|e] n3]; reflexivity.
Qed.

Lemma third_attempt_tolerates_length (sp up : pystr) (n2 : nat)
  (response : pystr) (d : list (pystr * pyval)) (wc : Z) :
  backend E n2 sp up = Returns response ->
  extract_title_content E response = PyDict d ->
  validate_report_format (PyDict d) = true ->
  validate_word_count_of (dict_get_default d k_content (PyStr [])) 500 2000
    = Returns (false, wc) ->
  attempt_body sp up 2 n2 = (Returns (Return (PyDict d)), S n2).
Proof.
  intros Hb Hx Hf Hw. unfold attempt_body. comp_unfold.
  rewrite Hb, Hx, Hf. simpl. rewrite Hw. reflexivity.
Qed.

Lemma third_attempt_returns_valid_format (sp up : pystr) (n2 : nat)
  (response : pystr) (d : list (pystr * pyval)) (c : pystr) :
  backend E n2 sp up = Returns response ->
  extract_title_content E response = PyDict d ->
  validate_report_format (PyDict d) = true ->
  dict_get d k_content = Some (PyStr c) ->
  attempt_body sp up 2 n2 = (Returns (Return (PyDict d)), S n2).
Proof.
  intros Hb Hx Hf Hc. unfold attempt_body. comp_unfold.
  rewrite Hb, Hx, Hf. simpl. unfold dict_get_default. rewrite Hc. simpl.
  destruct (validate_word_count c 500 2000) as [[|] wc]; reflexivity.
Qed.

Lemma third_attempt_error_propagates (sp up : pystr) (n2 : nat) (e : exn) :
  backend E n2 sp up = Raises e ->
  attempt_body sp up 2 n2 = (Raises e, S n2).
Proof.
  intros Hb. unfold attempt_body. comp_unfold. rewrite Hb. reflexivity.
Qed.

Lemma invalid_format_continues (sp up : pystr) (a : Z) (n : nat)
  (response : pystr) :
  backend E n sp up = Returns response ->
  validate_report_format (extract_title_content E response) = false ->
  attempt_body sp up a n = (Returns Continue, S n).
Proof.
  intros Hb Hf. unfold attempt_body. comp_unfold. rewrite Hb, Hf.
  reflexivity.
Qed.

(** C4.  Content synthesis calls the backend at most 3 times.  When the
    third attempt is reached, a result that passes the format check and
    fails only the word-count range check is returned; in particular, when
    the first two responses fail structural validation and the third
    extracts to a title and a text body, that result is returned whatever
    its word count; and a backend error raised on the third attempt
    propagates to the caller. *)
Theorem generate_report_content_retries (topic : Topic)
  (filtered_news : list NewsArticle) (sp up : pystr) (n : nat) :
  prompts_are topic filtered_news sp up ->
  (snd (generate_report_content topic filtered_news n) <= n + 3)%nat
  /\ (forall n2 response d wc,
        third_attempt_reached sp up n n2 ->
        backend E n2 sp up = Returns response ->
        extract_title_content E response = PyDict d ->
        validate_report_format (PyDict d) = true ->
        validate_word_count_of (dict_get_default d k_content (PyStr []))
          500 2000 = Returns (false, wc) ->
        generate_report_content topic filtered_news n
          = (Returns (PyDict d), S n2))
  /\ (forall r1 r2 r3 d c,
        backend E n sp up = Returns r1 ->
        validate_report_format (extract_title_content E r1) = false ->
        backend E (S n) sp up = Returns r2 ->
        validate_report_format (extract_title_content E r2) = false ->
        backend E (S (S n)) sp up = Returns r3 ->
        extract_title_content E r3 = PyDict d ->
        validate_report_format (PyDict d) = true ->
        dict_get d k_content = Some (PyStr c) ->
        generate_report_content topic filtered_news n
          = (Returns (PyDict d), S (S (S n))))
  /\ (forall n2 e,
        third_attempt_reached sp up n n2 ->
        backend E n2 sp up = Raises e ->
        generate_report_content topic filtered_news n = (Raises e, S n2)).
Proof.
  intros Hp. split; [apply generate_calls|]. split; [|split].
  - intros n2 response d wc Hreach Hb Hx Hf Hw.
    rewrite (generate_at_third _ _ sp up n n2 Hp Hreach).
    rewrite (third_attempt_tolerates_length sp up n2 response d wc Hb Hx Hf Hw).
    reflexivity.
  - intros r1 r2 r3 d c Hb1 Hf1 Hb2 Hf2 Hb3 Hx Hf Hc.
    assert (Hreach : third_attempt_reached sp up n (S (S n))).
    { exists (S n). split; eapply invalid_format_continues; eassumption. }
    rewrite (generate_at_third _ _ sp up n _ Hp Hreach).
    rewrite (third_attempt_returns_valid_format sp up _ r3 d c Hb3 Hx Hf Hc).
    reflexivity.
  - intros n2 e Hreach Hb.
    rewrite (generate_at_third _ _ sp up n n2 Hp Hreach).
    rewrite (third_attempt_error_propagates sp up n2 e Hb).
    reflexivity.
Qed.

End Generate.

Lemma generate_report_content_retries_witness :
  generate_report_content (scripted script_short_third)
    (py "eng") topic0 [] 0%nat
  = (Returns (title_content (PyStr (py "T")) (PyStr (py "short body"))),
     3%nat).
Proof.
  destruct (generate_report_content_retries
              (scripted script_short_third) (py "eng") topic0 []
              (py "system") (py "user") 0%nat (conj eq_refl eq_refl))
    as (_ & _ & H & _).
  apply (H (py "oops") [] (py "Title: T" ++ [0x0a%N] ++ py "Content: short body")
           _ (py "short body")); reflexivity.
Defined.

End ContentAnalyzer.

(** ** News relevance filter (src/analyzers/news_filter.py) *)

Module NewsFilter.

Definition k_id : pystr := Eval cbv in py "_id".

(** [[str(news.get('_id', '')) for news in news_list]]. *)
Definition all_ids (E : externals) (news_list : list (list (pystr * pyval)))
  : list pystr :=
  List.map (fun news => py_str E (dict_get_default news k_id (PyStr [])))
    news_list.

(** [filtered_ids.append(id_mapping[article_id])] when the id is mapped. *)
Definition resolve (id_mapping : gmap (list N) (list N)) (article_id : pystr)
  : list pystr :=
  match id_mapping !! article_id with
  | Some news_id => [news_id]
  | None => []
  end.

(** The entries one article adds to [id_mapping]; a ['$oid'] that cannot be
    hashed raises, one that is not a [str] is never looked up. *)
Definition add_id_mapping (E : externals) (news : list (pystr * pyval))
  (id_mapping : gmap (list N) (list N)) : outcome (gmap (list N) (list N)) :=
  let news_id := py_str E (dict_get_default news k_id (PyStr [])) in
  let m1 := <[news_id := news_id]> id_mapping in
  let m2 :=
    match dict_get news k_id with
    | Some (PyDict oid_dict) =>
        match dict_get oid_dict (py "$oid") with
        | Some (PyStr oid) => Returns (<[oid := news_id]> m1)
        | Some (PyList _) | Some (PyDict _) => Raises TypeError
        | _ => Returns m1
        end
    | _ => Returns m1
    end in
  match m2 with
  | Raises e => Raises e
  | Returns m2 =>
      match dict_get news (py "id") with
      | Some v => Returns (<[py_str E v := news_id]> m2)
      | None => Returns m2
      end
  end.

(** The [id_mapping] of [_parse_news_filtering]. *)
Fixpoint build_id_mapping (E : externals)
  (news_list : list (list (pystr * pyval)))
  (id_mapping : gmap (list N) (list N)) : outcome (gmap (list N) (list N)) :=
  match news_list with
  | [] => Returns id_mapping
  | news :: rest =>
      match add_id_mapping E news id_mapping with
      | Returns m => build_id_mapping E rest m
      | Raises e => Raises e
      end
  end.

(** First strategy: the lines holding "Article ID:". *)
Definition explicit_line_ids (id_mapping : gmap (list N) (list N))
  (response : pystr) : list pystr :=
  flat_map
    (fun line =>
       let line := strip line in
       match split_once (py "Article ID:") line with
       | Some (_, rest) =>
           let article_id :=
             strip_char 0x27 (strip_char 0x22 (strip_char 0x3a
               (strip_char 0x2c (strip rest)))) in
           let article_id := hd [] (split_char 0x20 article_id) in
           resolve id_mapping article_id
       | None => []
       end)
    (split_char 0x0a response).

Definition possible_keys : list pystr :=
  [py "selected_articles"; py "filtered_news"; py "relevant_articles";
   py "articles"; py "ids"].

(** Second strategy: a JSON object embedded in the response. *)
Definition embedded_json_ids (E : externals)
  (id_mapping : gmap (list N) (list N)) (response : pystr) : list pystr :=
  match find_char 0x7b response, rfind_char 0x7d response with
  | Some json_start, Some json_end =>
      if (json_start <? json_end)%nat then
        match json_loads E (slice json_start (S json_end) response) with
        | Some (PyDict json_data) =>
            flat_map
              (fun key =>
                 match dict_get json_data key with
                 | Some (PyList items) =>
                     flat_map
                       (fun item =>
                          match item with
                          | PyStr article_id => resolve id_mapping article_id
                          | PyDict d =>
                              match dict_get d k_id with
                              | Some v => resolve id_mapping (py_str E v)
                              | None => []
                              end
                          | _ => []
                          end)
                       items
                 | _ => []
                 end)
              possible_keys
        | _ => []
        end
      else []
  | _, _ => []
  end.

(** Third strategy: numeric identifiers found by the three patterns. *)
Definition numeric_pattern_ids (E : externals)
  (id_mapping : gmap (list N) (list N)) (response : pystr) : list pystr :=
  flat_map
    (fun line =>
       flat_map
         (fun pattern =>
            flat_map (fun m => resolve id_mapping (strip m))
              (re_findall E pattern line))
         [PatIdColon; PatHash; PatNumbered])
    (split_char 0x0a response).

(** [NewsFilterAnalyzer._parse_news_filtering]. *)
Definition _parse_news_filtering (E : externals) (response : pystr)
  (news_list : list (list (pystr * pyval))) : list pystr :=
  match build_id_mapping E news_list empty with
  | Raises _ => all_ids E news_list
  | Returns id_mapping =>
      let filtered_ids := explicit_line_ids id_mapping response in
      let filtered_ids :=
        match filtered_ids with
        | [] => embedded_json_ids E id_mapping response
        | _ => filtered_ids
        end in
      let filtered_ids :=
        match filtered_ids with
        | [] => numeric_pattern_ids E id_mapping response
        | _ => filtered_ids
        end in
      match filtered_ids with
      | [] => all_ids E news_list
      | _ => filtered_ids
      end
  end.

(** Whether [str(news.id)] is one of the topic's article ids. *)
Definition id_in (news_id : pystr) (article_ids : list (option pystr)) : bool :=
  existsb
    (fun a => match a with Some s => str_eqb s news_id | None => false end)
    article_ids.

(** Step 1: the articles of the batch assigned to the topic. *)
Definition topic_related_news (topic : Topic) (news_list : list NewsArticle)
  : list NewsArticle :=
  List.filter (fun news => id_in (str_of_id (id news)) (article_ids topic))
    news_list.

(** The projection of an article sent to the backend. *)
Definition simplify (E : externals) (news : NewsArticle)
  : list (pystr * pyval) :=
  [(k_id, PyStr (str_of_id (id news)));
   (py "title", PyStr (title news));
   (py "published_at",
    match published_at news with
    | DateTime t => PyStr (isoformat E t)
    | RawDate s => PyStr s
    | NoDate => PyNone
    end);
   (py "summary", PyStr (summary news))].

(** [id_lookup]: a later article replaces an earlier one of the same id. *)
Definition id_lookup (related : list NewsArticle)
  : gmap (list N) NewsArticle :=
  fold_left (fun m news => <[str_of_id (id news) := news]> m) related empty.

(** [NewsFilterAnalyzer.filter_related_news]. *)
Definition filter_related_news (E : externals) (topic : Topic)
  (news_list : list NewsArticle) : comp (list NewsArticle) :=
  let related := topic_related_news topic news_list in
  try_except
    (match related with
     | [] => ret []
     | _ =>
         let simplified_news := List.map (simplify E) related in
         system_prompt <-
           lift (get_prompt E NEWS_FILTERING (py "system") []) ;;
         user_prompt <-
           lift (get_prompt E NEWS_FILTERING (py "user")
                   [(py "topic_content", PyStr (content topic));
                    (py "news_list",
                     PyStr (json_dumps E
                              (PyList (List.map PyDict simplified_news))))]) ;;
         response <- chat E system_prompt user_prompt ;;
         let filtered_ids := _parse_news_filtering E response simplified_news in
         ret (flat_map
                (fun article_id =>
                   match id_lookup related !! article_id with
                   | Some news => [news]
                   | None => []
                   end)
                filtered_ids)
     end)
    (fun _ => ret (firstn 10 related)).

(** *** The parsing cascade and its fallbacks *)

(** No strategy resolves a candidate id from the response. *)
Definition no_strategy_resolves (E : externals) (response : pystr)
  (news_list : list (list (pystr * pyval))) : Prop :=
  forall id_mapping,
    build_id_mapping E news_list empty = Returns id_mapping ->
    explicit_line_ids id_mapping response = []
    /\ embedded_json_ids E id_mapping response = []
    /\ numeric_pattern_ids E id_mapping response = [].

Lemma parse_falls_back (E : externals) (response : pystr)
  (news_list : list (list (pystr * pyval))) :
  no_strategy_resolves E response news_list ->
  _parse_news_filtering E response news_list = all_ids E news_list.
Proof.
  intros Hnone. unfold _parse_news_filtering.
  destruct (build_id_mapping E news_list empty) as [m|e] eqn:Hm;
    [|reflexivity].
  destruct (Hnone m Hm) as (Ha & Hb & Hc).
  rewrite Ha, Hb, Hc. reflexivity.
Qed.

Lemma all_ids_simplify (E : externals) (related : list NewsArticle) :
  all_ids E (List.map (simplify E) related)
  = List.map (fun news => str_of_id (id news)) related.
Proof.
  unfold all_ids. rewrite List.map_map. apply List.map_ext.
  intros news. reflexivity.
Qed.

(** C5.  For every non-empty list of step-1 candidates and every backend
    response from which none of the three parsing strategies resolves a
    candidate id, the cascade returns the ids of all the step-1 candidates,
    in order: the result is not empty and has one id per candidate. *)
Theorem parse_news_filtering_returns_all_candidates (E : externals)
  (response : pystr) (related : list NewsArticle) :
  related <> [] ->
  no_strategy_resolves E response (List.map (simplify E) related) ->
  let filtered_ids :=
    _parse_news_filtering E response (List.map (simplify E) related) in
  filtered_ids = List.map (fun news => str_of_id (id news)) related
  /\ filtered_ids <> []
  /\ length filtered_ids = length related.
Proof.
  intros Hne Hnone filtered_ids. subst filtered_ids.
  rewrite (parse_falls_back E response _ Hnone), all_ids_simplify.
  split; [reflexivity|]. split.
  - destruct related; [congruence | discriminate].
  - apply length_map.
Qed.




(** Eleven articles of one topic, the oldest first. *)
Definition article (k : Z) : NewsArticle := {|
  id := Some [N.add 0x40 (Z.to_N k)];
  title := [];
  summary := py "text";
  url := [];
  source := [];
  category := [];
  published_at := DateTime k;
  topics := []
|}.

Definition eleven_articles : list NewsArticle :=
  List.map article [1; 2; 3; 4; 5; 6; 7; 8; 9; 10; 11].

Definition topic_of_eleven : Topic := {|
  topic_id := 0;
  content := py "topic";
  count := 11;
  weighted_count := 11;
  keywords := [];
  article_ids := List.map id eleven_articles;
  selection_reason := []
|}.

Definition failing_backend : externals :=
  scripted (fun _ => Raises (BackendError (py "timeout"))).



(** A response naming an article that is not a candidate. *)
Definition unknown_id_response : pystr :=
  py "Relevant:" ++ [0x0a%N] ++ py "Article ID: Z9, see above".

Lemma parse_news_filtering_returns_all_candidates_witness :
  _parse_news_filtering failing_backend unknown_id_response
    (List.map (simplify failing_backend) eleven_articles)
  = List.map (fun news => str_of_id (id news)) eleven_articles.
Proof.
  apply (parse_news_filtering_returns_all_candidates failing_backend
           unknown_id_response eleven_articles).
  - discriminate.
  - intros m Hm. vm_compute in Hm. injection Hm as Hm. subst m.
    vm_compute. auto.
Defined.

End NewsFilter.


(** ** Report validator: quality check (src/reporting/validators.py) *)

Module QualityCheck.

Section Validate.

Context (E : externals).

(** [ReportValidator._clean_json_response]. *)
Definition _clean_json_response (response : pystr) : pystr :=
  match re_findall E PatCodeBlock response with
  | m :: _ => strip m
  | [] => strip response
  end.

(** [ReportValidator._parse_json_response]; [None] is a JSONDecodeError. *)
Definition _parse_json_response (response : pystr) : option pyval :=
  json_loads E (_clean_json_response response).

(** Whether ["; ".join(issues)] can be evaluated. *)
Definition joinable (issues : pyval) : bool :=
  match issues with
  | PyStr _ | PyDict _ => true
  | PyList l =>
      forallb (fun v => match v with PyStr _ => true | _ => false end) l
  | _ => false
  end.

(** The judgment read from the backend's answer, given that the basic checks
    passed: any failure of the request or of the reading leaves the basic
    verdict [True]. *)
Definition judged (response : pystr) : bool :=
  match _parse_json_response response with
  | None => true
  | Some (PyDict validation_result) =>
      let is_valid :=
        dict_get_default validation_result (py "pass") (PyBool false) in
      let issues :=
        dict_get_default validation_result (py "issues") (PyList []) in
      if truthy is_valid then true
      else if (truthy issues && negb (joinable issues))%bool then true
      else false
  | Some _ => true
  end.

(** [ReportValidator.validate_content]: the verdict and the word count. *)
Definition validate_content (content title : pyval) (min_words max_words : Z)
  : comp (bool * Z) :=
  if negb (validate_report_format (title_content title content))
  then ret (false, 0)
  else
    let min_words := if min_words =? 0 then 500 else min_words in
    let max_words := if max_words =? 0 then 1500 else max_words in
    r <- lift (validate_word_count_of content min_words max_words) ;;
    let '(basic_valid, word_count) := r in
    if negb basic_valid then ret (false, word_count)
    else
      try_except
        (system_prompt <- lift (get_prompt E VALIDATION (py "system") []) ;;
         user_prompt <-
           lift (get_prompt E VALIDATION (py "user")
                   [(py "title", title); (py "content", content)]) ;;
         response <- chat E system_prompt user_prompt ;;
         ret (judged response, word_count))
        (fun _ => ret (basic_valid, word_count)).

End Validate.

End QualityCheck.

(** ** Report orchestrator (src/reporting/generators.py, formatters.py) *)

Module Orchestrator.

Import NewsFilter.

(** The steps of the per-topic state machine. *)
Inductive phase := Filter | Synthesize | Validate | Assemble.

Inductive level := INFO | WARNING | ERROR.

(** What the orchestrator writes to its log. *)
Inductive message :=
| ProcessingTopic
| NoRelatedNews
| GenerationFallback
| ValidationRetry
| RegenerationFallback
| ValidationFailedAfter (retry_count : Z)
| ProceedingDespiteValidation
| TopicProcessed
| ProcessingError (e : exn).

(** The record of one task: the steps entered and the lines logged. *)
Inductive event :=
| Enter (p : phase)
| Log (l : level) (m : message).

(** The region's settings read by the orchestrator. *)
Record region := {
  weighted_sources : gmap (list N) Q;
  source_lang : pystr;
  reference_news_title : pystr
}.

(** The analyzers and the validator a generator holds. *)
Record collaborators := {
  filter_news : Topic -> list NewsArticle -> comp (list NewsArticle);
  generate : Topic -> list NewsArticle -> comp pyval;
  validate : pyval -> pyval -> Z -> Z -> comp (bool * Z)
}.

(** The state of one task: backend calls made, the task's record, and the
    topic object it owns. *)
Record task_state := {
  calls : nat;
  record : list event;
  topic_obj : Topic
}.

Definition orch (A : Type) : Type := task_state -> outcome A * task_state.

Definition oret {A} (a : A) : orch A := fun st => (Returns a, st).

Definition obind {A B} (c : orch A) (k : A -> orch B) : orch B :=
  fun st =>
    match c st with
    | (Returns a, st') => k a st'
    | (Raises e, st') => (Raises e, st')
    end.

Definition otry {A} (c : orch A) (h : exn -> orch A) : orch A :=
  fun st =>
    match c st with
    | (Returns a, st') => (Returns a, st')
    | (Raises e, st') => h e st'
    end.

(** A call to a collaborator: it sees and advances the backend calls only. *)
Definition call {A} (c : comp A) : orch A :=
  fun st =>
    let '(o, n) := c (calls st) in
    (o, {| calls := n; record := record st; topic_obj := topic_obj st |}).

Definition olift {A} (o : outcome A) : orch A := fun st => (o, st).

Definition emit (ev : event) : orch unit :=
  fun st =>
    (Returns tt,
     {| calls := calls st; record := record st ++ [ev];
        topic_obj := topic_obj st |}).

Definition get_topic : orch Topic := fun st => (Returns (topic_obj st), st).

Definition set_topic (t : Topic) : orch unit :=
  fun st =>
    (Returns tt,
     {| calls := calls st; record := record st; topic_obj := t |}).

Declare Scope orch_scope.
Delimit Scope orch_scope with orch.
Notation "x <- c ;; k" := (obind c (fun x => k))
  (at level 100, c at next level, right associativity) : orch_scope.

Section Process.

Context (E : externals) (R : region) (K : collaborators).

Local Open Scope orch_scope.

(** [self.weighted_sources.get(news.source, 1.0)]. *)
Definition source_weight (news : NewsArticle) : Q :=
  match weighted_sources R !! source news with
  | Some w => w
  | None => 1
  end.

(** The topic after "Record used article IDs" and "Update topic counts". *)
Definition refine (topic : Topic) (filtered_news : list NewsArticle) : Topic :=
  {| topic_id := topic_id topic;
     content := content topic;
     count := len filtered_news;
     weighted_count :=
       fold_left Qplus (List.map source_weight filtered_news) 0%Q;
     keywords := keywords topic;
     article_ids := List.map id filtered_news;
     selection_reason := selection_reason topic |}.

(** [getattr(topic, 'title', f"Topic {topic_id}")]: a [Topic] has no
    [title]. *)
Definition fallback_title (topic : Topic) : pyval :=
  PyStr (py "Topic " ++ str_of_Z (topic_id topic)).

(** The body of the placeholder substituted after the first generation. *)
Definition placeholder_body (topic : Topic) : pystr :=
  py "This is a placeholder report for topic " ++ str_of_Z (topic_id topic)
    ++ py ". The original content generation failed. "
    ++ py "This topic is about " ++ content topic ++ py ".".

Definition placeholder (topic : Topic) : pyval :=
  title_content (fallback_title topic) (PyStr (placeholder_body topic)).

(** The body of the placeholder substituted inside the retry loop. *)
Definition placeholder_after_retry_body (topic : Topic) : pystr :=
  py "This is a placeholder report for topic " ++ str_of_Z (topic_id topic)
    ++ py " after failed retry. "
    ++ py "This topic is about " ++ content topic ++ py ".".

Definition placeholder_after_retry (topic : Topic) : pyval :=
  title_content (fallback_title topic)
    (PyStr (placeholder_after_retry_body topic)).

(** [report_content.get(k, default)]; a true value that is not a dict has
    no [get]. *)
Definition content_get (report_content : pyval) (k : pystr) (default : pyval)
  : outcome pyval :=
  match report_content with
  | PyDict d => Returns (dict_get_default d k default)
  | _ => Raises AttributeError
  end.

(** [not report_content or not report_content.get('content')]. *)
Definition lacks_content (report_content : pyval) : outcome bool :=
  if negb (truthy report_content) then Returns true
  else
    match content_get report_content k_content PyNone with
    | Returns c => Returns (negb (truthy c))
    | Raises e => Raises e
    end.

(** [report_content[k]]. *)
Definition subscript (report_content : pyval) (k : pystr) : outcome pyval :=
  match report_content with
  | PyDict d =>
      match dict_get d k with
      | Some v => Returns v
      | None => Raises (KeyError k)
      end
  | _ => Raises TypeError
  end.

(** [ReportFormatter.append_reference_news]; [i] numbers the next entry. *)
Fixpoint reference_lines (i : Z) (filtered_news : list NewsArticle) : pystr :=
  match filtered_news with
  | [] => []
  | news :: rest =>
      str_of_Z i ++ py ". [" ++ title news ++ py "](" ++ url news
        ++ py ")" ++ [0x0a%N] ++ reference_lines (i + 1) rest
  end.

Definition append_reference_news (content : pyval)
  (filtered_news : list NewsArticle) : pystr :=
  py_str E content ++ [0x0a; 0x0a]%N ++ py "### " ++ reference_news_title R
    ++ [0x0a; 0x0a]%N ++ reference_lines 1 filtered_news.

(** [ReportFormatter.compile_report] followed by [Report.from_dict]. *)
Definition compile_report (topic : Topic) (report_content : pyval)
  (filtered_news : list NewsArticle) : outcome Report :=
  match subscript report_content k_content with
  | Raises e => Raises e
  | Returns c =>
      let main_content := append_reference_news c filtered_news in
      match subscript report_content k_title with
      | Raises e => Raises e
      | Returns t =>
          Returns
            {| r_topic_id := topic_id topic;
               r_topic_content := content topic;
               r_published_at := now_utc E;
               r_title := t;
               r_content := main_content;
               r_reference_news :=
                 List.map
                   (fun news =>
                      {| ref_title := title news; ref_url := url news;
                         ref_source := source news |})
                   filtered_news |}
      end
  end.

(** The loop [while not content_valid and retry_count < 3]; [remaining] is
    [3 - retry_count].  The loop leaves [content_valid] as it finds it. *)
Fixpoint regenerate (remaining : nat) (content_valid : bool)
  (retry_count : Z) (filtered_news : list NewsArticle)
  (report_content : pyval) : orch (pyval * Z) :=
  match remaining with
  | O => oret (report_content, retry_count)
  | S remaining' =>
      if content_valid then oret (report_content, retry_count)
      else
        _ <- emit (Log WARNING ValidationRetry) ;;
        let retry_count := retry_count + 1 in
        topic <- get_topic ;;
        _ <- emit (Enter Synthesize) ;;
        report_content <- call (generate K topic filtered_news) ;;
        lacks <- olift (lacks_content report_content) ;;
        report_content <-
          (if lacks then
             _ <- emit (Log WARNING RegenerationFallback) ;;
             if negb (truthy report_content)
             then oret (placeholder_after_retry topic)
             else oret report_content
           else oret report_content) ;;
        regenerate remaining' content_valid retry_count filtered_news
          report_content
  end.

(** The steps of [process_topic] that follow "Update topic counts": from
    "1. Generate report content" to [return report]. *)
Definition synthesize_and_assemble (filtered_news : list NewsArticle)
  : orch (option Report) :=
  topic <- get_topic ;;
  _ <- emit (Enter Synthesize) ;;
  report_content <- call (generate K topic filtered_news) ;;
  lacks <- olift (lacks_content report_content) ;;
  report_content <-
    (if lacks then
       _ <- emit (Log WARNING GenerationFallback) ;;
       oret (placeholder topic)
     else oret report_content) ;;
  _ <- emit (Enter Validate) ;;
  c <- olift (content_get report_content k_content (PyStr [])) ;;
  t <- olift (content_get report_content k_title (PyStr [])) ;;
  r <- call (validate K c t 500 2000) ;;
  let '(content_valid, word_count) := r in
  r <- regenerate 3 content_valid 0 filtered_news report_content ;;
  let '(report_content, retry_count) := r in
  _ <- (if negb content_valid then
          _ <- emit (Log WARNING (ValidationFailedAfter retry_count)) ;;
          emit (Log INFO ProceedingDespiteValidation)
        else oret tt) ;;
  _ <- emit (Enter Assemble) ;;
  report <- olift (compile_report topic report_content filtered_news) ;;
  _ <- emit (Log INFO TopicProcessed) ;;
  oret (Some report).

(** The body of the [try] of [BaseReportGenerator.process_topic]. *)
Definition process_topic_body (news_list : list NewsArticle)
  : orch (option Report) :=
  topic <- get_topic ;;
  _ <- emit (Log INFO ProcessingTopic) ;;
  _ <- emit (Enter Filter) ;;
  filtered_news <- call (filter_news K topic news_list) ;;
  match filtered_news with
  | [] =>
      _ <- emit (Log WARNING NoRelatedNews) ;;
      oret None
  | _ =>
      _ <- set_topic (refine topic filtered_news) ;;
      synthesize_and_assemble filtered_news
  end.

(** [BaseReportGenerator.process_topic]. *)
Definition process_topic (news_list : list NewsArticle)
  : orch (option Report) :=
  otry (process_topic_body news_list)
    (fun e =>
       _ <- emit (Log ERROR (ProcessingError e)) ;;
       oret None).

(** A task started on [topic]. *)
Definition start (topic : Topic) : task_state :=
  {| calls := O; record := []; topic_obj := topic |}.

(** *** What a run leaves in the task state *)

(** [c] only appends to the record, events satisfying [P], and leaves the
    topic object alone. *)
Definition appends {A} (P : event -> Prop) (c : orch A) : Prop :=
  forall st,
    topic_obj (snd (c st)) = topic_obj st
    /\ exists evs, record (snd (c st)) = record st ++ evs /\ Forall P evs.

Lemma appends_oret {A} (P : event -> Prop) (a : A) : appends P (oret a).
Proof.
  intros st. split; [reflexivity|]. exists []. simpl.
  rewrite app_nil_r. auto.
Qed.

Lemma appends_olift {A} (P : event -> Prop) (o : outcome A) :
  appends P (olift o).
Proof.
  intros st. split; [reflexivity|]. exists []. simpl.
  rewrite app_nil_r. auto.
Qed.

Lemma appends_get_topic (P : event -> Prop) : appends P get_topic.
Proof.
  intros st. split; [reflexivity|]. exists []. simpl.
  rewrite app_nil_r. auto.
Qed.

Lemma appends_call {A} (P : event -> Prop) (c : comp A) : appends P (call c).
Proof.
  intros st. unfold call. destruct (c (calls st)) as [o n]. simpl.
  split; [reflexivity|]. exists []. rewrite app_nil_r. auto.
Qed.

Lemma appends_emit (P : event -> Prop) (ev : event) :
  P ev -> appends P (emit ev).
Proof.
  intros Hev st. split; [reflexivity|]. exists [ev]. simpl. auto.
Qed.

Lemma appends_obind {A B} (P : event -> Prop) (c : orch A) (k : A -> orch B) :
  appends P c -> (forall a, appends P (k a)) -> appends P (obind c k).
Proof.
  intros Hc Hk st. unfold obind.
  destruct (Hc st) as (Ht & evs & Hr & Hp).
  destruct (c st) as [[a|e] st1]; simpl in *.
  - destruct (Hk a st1) as (Ht' & evs' & Hr' & Hp').
    split; [congruence|]. exists (evs ++ evs'). split.
    + rewrite Hr', Hr, app_assoc. reflexivity.
    + apply Forall_app. auto.
  - split; [exact Ht|]. exists evs. auto.
Qed.

Lemma appends_regenerate (P : event -> Prop) :
  P (Log WARNING ValidationRetry) -> P (Enter Synthesize) ->
  P (Log WARNING RegenerationFallback) ->
  forall remaining content_valid retry_count filtered_news report_content,
    appends P (regenerate remaining content_valid retry_count filtered_news
                 report_content).
Proof.
  intros P1 P2 P3 remaining.
  induction remaining as [|remaining IH];
    intros content_valid retry_count filtered_news report_content; simpl.
  - apply appends_oret.
  - destruct content_valid; [apply appends_oret|].
    apply appends_obind; [apply appends_emit; exact P1 | intros _].
    apply appends_obind; [apply appends_get_topic | intros topic].
    apply appends_obind; [apply appends_emit; exact P2 | intros _].
    apply appends_obind; [apply appends_call | intros rc].
    apply appends_obind; [apply appends_olift | intros lacks].
    apply appends_obind; [|intros rc'; apply IH].
    destruct lacks; [|apply appends_oret].
    apply appends_obind; [apply appends_emit; exact P3 | intros _].
    destruct (negb (truthy rc)); apply appends_oret.
Qed.



(** The state in which the steps after filtering start. *)
Definition after_filter (topic : Topic) (n : nat) : task_state :=
  {| calls := n;
     record := [Log INFO ProcessingTopic; Enter Filter];
     topic_obj := topic |}.

Lemma process_topic_body_start (news_list : list NewsArticle) (topic : Topic) :
  process_topic_body news_list (start topic) =
    match filter_news K topic news_list O with
    | (Raises e, n) => (Raises e, after_filter topic n)
    | (Returns [], n) =>
        (Returns None,
         {| calls := n;
            record := [Log INFO ProcessingTopic; Enter Filter;
                       Log WARNING NoRelatedNews];
            topic_obj := topic |})
    | (Returns filtered_news, n) =>
        synthesize_and_assemble filtered_news
          (after_filter (refine topic filtered_news) n)
    end.
Proof.
  unfold process_topic_body, obind, get_topic, emit, call, set_topic, oret,
    start, after_filter.
  cbn [calls record topic_obj app].
  destruct (filter_news K topic news_list 0%nat) as [[f|e] n];
    [destruct f|]; reflexivity.
Qed.


End Process.

(** One task of the batch: a selected topic with the collaborators it runs
    against (each task sees its own sequence of backend answers). *)
Record task := {
  t_topic : Topic;
  t_env : externals;
  t_collab : collaborators
}.

(** The coroutine [self.process_topic(topic, news_list)] run to its end. *)
Definition run_task (R : region) (news_list : list NewsArticle) (t : task)
  : outcome (option Report) * task_state :=
  process_topic (t_env t) R (t_collab t) news_list (start (t_topic t)).

(** [asyncio.gather] over the tasks with [return_exceptions=True]: one
    result per task, in the order of the tasks. *)
Definition gather (R : region) (news_list : list NewsArticle)
  (tasks : list task) : list (outcome (option Report)) :=
  List.map (fun t => fst (run_task R news_list t)) tasks.

(** Step 5 of [execute]: "Filter out exceptions and None results"; the
    errors logged by the loop are returned with the reports. *)
Definition collect (results : list (outcome (option Report)))
  : list Report * list event :=
  fold_left
    (fun acc result =>
       let '(reports, logged) := acc in
       match result with
       | Raises e => (reports, logged ++ [Log ERROR (ProcessingError e)])
       | Returns (Some report) => (reports ++ [report], logged)
       | Returns None => (reports, logged)
       end)
    results ([], []).

(** Steps 4 and 5 of [BaseReportGenerator.execute]. *)
Definition execute_reports (R : region) (news_list : list NewsArticle)
  (tasks : list task) : list Report :=
  fst (collect (gather R news_list tasks)).

(** The report a task contributes to the batch. *)
Definition task_report (R : region) (news_list : list NewsArticle) (t : task)
  : option Report :=
  match fst (run_task R news_list t) with
  | Returns (Some report) => Some report
  | _ => None
  end.

(** The filtered article set of the task is empty. *)
Definition filtered_empty (news_list : list NewsArticle) (t : task) : Prop :=
  fst (filter_news (t_collab t) (t_topic t) news_list O) = Returns [].

(** Processing the task's topic raises [e]. *)
Definition raises_in (R : region) (news_list : list NewsArticle) (t : task)
  (e : exn) : Prop :=
  fst (process_topic_body (t_env t) R (t_collab t) news_list
         (start (t_topic t))) = Raises e.

(** The generator's own collaborators: the repository's filter, synthesizer
    and validator over the same backend. *)
Definition pipeline (E : externals) (R : region) : collaborators := {|
  filter_news := NewsFilter.filter_related_news E;
  generate := ContentAnalyzer.generate_report_content E (source_lang R);
  validate := QualityCheck.validate_content E
|}.

(** A region with no weighted sources configured. *)
Definition plain_region : region := {|
  weighted_sources := empty;
  source_lang := py "eng";
  reference_news_title := py "Reference News"
|}.

(** *** Refined counts *)














(** *** Topics that survive filtering *)

(** A dict holding both ['title'] and ['content']. *)
Definition has_keys (rc : pyval) : Prop :=
  exists d t c,
    rc = PyDict d /\ dict_get d k_title = Some t /\ dict_get d k_content = Some c.

(** What the synthesizer is declared to return: nothing, or a dict with a
    title and a content. *)
Definition report_shaped (rc : pyval) : Prop :=
  truthy rc = false \/ has_keys rc.

(** The synthesizer returned nothing: [None] or an empty dict. *)
Definition nothing (rc : pyval) : Prop := truthy rc = false.

(** The next [k] synthesis calls made for the topic, the first of them being
    call [n], return one after the other, each a value satisfying [P]. *)
Fixpoint syntheses_return (K : collaborators) (P : pyval -> Prop)
  (topic : Topic) (filtered_news : list NewsArticle) (k n : nat) : Prop :=
  match k with
  | O => True
  | S k' =>
      exists rc n',
        generate K topic filtered_news n = (Returns rc, n') /\ P rc
        /\ syntheses_return K P topic filtered_news k' n'
  end.

(** What a task goes on with after its first synthesis: the placeholder
    when the synthesis gave nothing, or no content. *)
Definition kept (topic : Topic) (rc : pyval) : pyval :=
  match lacks_content rc with
  | Returns true => placeholder topic
  | _ => rc
  end.

(** The calls made for a topic, the first of them being call [n], return:
    the first synthesis, with a value satisfying [P]; the validation of what
    is kept of it; and, after a negative verdict, the three syntheses of the
    retry loop. *)
Definition calls_made_return (K : collaborators) (P : pyval -> Prop)
  (topic : Topic) (filtered_news : list NewsArticle) (n : nat) : Prop :=
  exists rc n2,
    generate K topic filtered_news n = (Returns rc, n2) /\ P rc
    /\ exists c t verdict n3,
         content_get (kept topic rc) k_content (PyStr []) = Returns c
         /\ content_get (kept topic rc) k_title (PyStr []) = Returns t
         /\ validate K c t 500 2000 n2 = (Returns verdict, n3)
         /\ (fst verdict = false ->
             syntheses_return K P topic filtered_news 3 n3).

Lemma has_keys_truthy (rc : pyval) : has_keys rc -> truthy rc = true.
Proof.
  intros (d & t & c & -> & Ht & _). destruct d; [discriminate | reflexivity].
Qed.

Lemma has_keys_title_content (t c : pyval) : has_keys (title_content t c).
Proof.
  exists [(k_title, t); (k_content, c)], t, c. repeat split.
Qed.

Lemma lacks_content_shaped (rc : pyval) :
  report_shaped rc ->
  exists b, lacks_content rc = Returns b
            /\ (truthy rc = true -> has_keys rc).
Proof.
  intros [Hf | Hk].
  - exists true. unfold lacks_content. rewrite Hf. split; [reflexivity|].
    congruence.
  - pose proof (has_keys_truthy rc Hk) as Ht.
    destruct Hk as (d & t & c & -> & Hgt & Hgc).
    unfold lacks_content. rewrite Ht. simpl.
    eexists. split; [reflexivity|]. intros _.
    exists d, t, c. auto.
Qed.

Lemma regenerate_returns (K : collaborators) (P : pyval -> Prop) :
  (forall rc, P rc -> report_shaped rc) ->
  forall remaining content_valid retry_count filtered_news rc st,
    has_keys rc ->
    (content_valid = false ->
     syntheses_return K P (topic_obj st) filtered_news remaining (calls st)) ->
    exists rc' retry_count' st',
      regenerate K remaining content_valid retry_count filtered_news rc st
      = (Returns (rc', retry_count'), st')
      /\ has_keys rc'.
Proof.
  intros HP remaining.
  induction remaining as [|remaining IH];
    intros content_valid retry_count filtered_news rc st Hrc Hchain.
  - simpl. unfold oret. eauto.
  - simpl. destruct content_valid; [unfold oret; eauto|].
    destruct (Hchain eq_refl) as (rc2 & n' & Hgen & HP2 & Hrest).
    unfold obind at 1. unfold emit at 1.
    unfold obind at 1. unfold get_topic at 1.
    unfold obind at 1. unfold emit at 1.
    unfold obind at 1. unfold call at 1. cbn [calls record topic_obj].
    rewrite Hgen.
    destruct (lacks_content_shaped rc2 (HP rc2 HP2)) as (b & Hlacks & Hkeys).
    unfold obind at 1. unfold olift at 1. rewrite Hlacks.
    unfold obind at 1.
    destruct b.
    + unfold obind at 1. unfold emit at 1.
      destruct (truthy rc2) eqn:Htr; simpl negb; cbv iota; unfold oret at 1.
      * apply IH; [apply Hkeys; reflexivity | intros _; exact Hrest].
      * apply IH; [apply has_keys_title_content | intros _; exact Hrest].
    + unfold oret at 1. apply IH; [|intros _; exact Hrest].
      apply Hkeys. unfold lacks_content in Hlacks.
      destruct (truthy rc2); [reflexivity | discriminate].
Qed.

Lemma compile_report_has_keys (E : externals) (R : region) (topic : Topic)
  (rc : pyval) (filtered_news : list NewsArticle) :
  has_keys rc ->
  exists report, compile_report E R topic rc filtered_news = Returns report.
Proof.
  intros (d & t & c & -> & Ht & Hc). unfold compile_report, subscript.
  rewrite Hc, Ht. eauto.
Qed.

Lemma synthesize_and_assemble_returns (E : externals) (R : region)
  (K : collaborators) (P : pyval -> Prop)
  (filtered_news : list NewsArticle) (st : task_state) :
  (forall rc, P rc -> report_shaped rc) ->
  calls_made_return K P (topic_obj st) filtered_news (calls st) ->
  exists report st',
    synthesize_and_assemble E R K filtered_news st
    = (Returns (Some report), st').
Proof.
  intros HP (rc & n2 & Hgen & HPrc & c & t & [valid wc] & n3
             & Hc & Ht & Hv & Hchain).
  unfold synthesize_and_assemble.
  unfold obind at 1. unfold get_topic at 1.
  unfold obind at 1. unfold emit at 1.
  unfold obind at 1. unfold call at 1. cbn [calls record topic_obj].
  rewrite Hgen.
  destruct (lacks_content_shaped rc (HP rc HPrc)) as (b & Hlacks & Hkeys).
  unfold obind at 1. unfold olift at 1. rewrite Hlacks.
  unfold kept in Hc, Ht. rewrite Hlacks in Hc, Ht.
  set (rc1 := if b then placeholder (topic_obj st) else rc).
  assert (Hc1 : content_get rc1 k_content (PyStr []) = Returns c)
    by (subst rc1; destruct b; exact Hc).
  assert (Ht1 : content_get rc1 k_title (PyStr []) = Returns t)
    by (subst rc1; destruct b; exact Ht).
  assert (Hrc1 : has_keys rc1).
  { subst rc1. destruct b; [apply has_keys_title_content|].
    apply Hkeys. unfold lacks_content in Hlacks.
    destruct (truthy rc); [reflexivity | discriminate]. }
  unfold obind at 1.
  assert (Hsel :
    forall st0,
      (if b
       then obind (emit (Log WARNING GenerationFallback))
              (fun _ => oret (placeholder (topic_obj st)))
       else oret rc) st0
      = (Returns rc1,
         {| calls := calls st0;
            record := if b then record st0 ++ [Log WARNING GenerationFallback]
                      else record st0;
            topic_obj := topic_obj st0 |})).
  { intros st0. subst rc1. destruct b; [reflexivity|].
    unfold oret. destruct st0; reflexivity. }
  rewrite Hsel. clear Hsel.
  unfold obind at 1. unfold emit at 1. cbn [calls record topic_obj].
  unfold obind at 1. unfold olift at 1. rewrite Hc1.
  unfold obind at 1. unfold olift at 1. rewrite Ht1.
  unfold obind at 1. unfold call at 1. cbn [calls record topic_obj].
  rewrite Hv.
  unfold obind at 1.
  match goal with |- context [regenerate K 3 valid 0 filtered_news ?r ?s] =>
    destruct (regenerate_returns K P HP 3 valid 0 filtered_news r s Hrc1
                (fun Hvf => Hchain Hvf))
      as (rc' & cnt & st4 & Hreg & Hrc'); rewrite Hreg
  end.
  destruct (compile_report_has_keys E R (topic_obj st) rc' filtered_news Hrc')
    as (report & Hcomp).
  exists report.
  unfold obind at 1.
  destruct valid; cbn [negb].
  - unfold oret at 1.
    unfold obind at 1. unfold emit at 1.
    unfold obind at 1. unfold olift at 1. rewrite Hcomp.
    unfold obind, emit, oret. eauto.
  - unfold obind at 1. unfold emit at 1. unfold emit at 1.
    unfold obind at 1. unfold emit at 1.
    unfold obind at 1. unfold olift at 1. rewrite Hcomp.
    unfold obind, emit, oret. eauto.
Qed.

Lemma regenerate_nothing (K : collaborators) :
  forall remaining content_valid retry_count filtered_news rc st,
    (content_valid = false ->
     syntheses_return K nothing (topic_obj st) filtered_news remaining
       (calls st)) ->
    exists retry_count' st',
      regenerate K remaining content_valid retry_count filtered_news rc st
      = (Returns
           (if content_valid then rc
            else match remaining with
                 | O => rc
                 | S _ => placeholder_after_retry (topic_obj st)
                 end,
            retry_count'), st')
      /\ topic_obj st' = topic_obj st.
Proof.
  intros remaining.
  induction remaining as [|remaining IH];
    intros content_valid retry_count filtered_news rc st Hchain.
  - simpl. unfold oret. destruct content_valid; eauto.
  - simpl. destruct content_valid; [unfold oret; eauto|].
    destruct (Hchain eq_refl) as (rc2 & n' & Hgen & Hfalse & Hrest).
    unfold nothing in Hfalse.
    unfold obind at 1. unfold emit at 1.
    unfold obind at 1. unfold get_topic at 1.
    unfold obind at 1. unfold emit at 1.
    unfold obind at 1. unfold call at 1. cbn [calls record topic_obj].
    rewrite Hgen.
    unfold obind at 1. unfold olift at 1. unfold lacks_content.
    rewrite Hfalse. cbn [negb].
    unfold obind at 1. unfold obind at 1. unfold emit at 1.
    unfold oret at 1.
    match goal with
    | |- context [regenerate K remaining false ?k filtered_news ?r ?s] =>
        destruct (IH false k filtered_news r s (fun _ => Hrest))
          as (cnt & st' & Hreg & Ht)
    end.
    rewrite Hreg. exists cnt, st'. split; [|exact Ht].
    destruct remaining; reflexivity.
Qed.

Lemma synthesize_and_assemble_nothing (E : externals) (R : region)
  (K : collaborators) (filtered_news : list NewsArticle) (st : task_state) :
  calls_made_return K nothing (topic_obj st) filtered_news (calls st) ->
  exists body st',
    (body = placeholder_body (topic_obj st)
     \/ body = placeholder_after_retry_body (topic_obj st))
    /\ synthesize_and_assemble E R K filtered_news st
       = (Returns
            (Some
               {| r_topic_id := topic_id (topic_obj st);
                  r_topic_content := content (topic_obj st);
                  r_published_at := now_utc E;
                  r_title := fallback_title (topic_obj st);
                  r_content :=
                    append_reference_news E R (PyStr body) filtered_news;
                  r_reference_news :=
                    List.map
                      (fun news =>
                         {| ref_title := title news; ref_url := url news;
                            ref_source := source news |})
                      filtered_news |}), st').
Proof.
  intros (rc & n2 & Hgen & Hfalse & c & t & [valid wc] & n3
          & Hc & Ht & Hv & Hchain).
  unfold nothing in Hfalse.
  assert (Hl : lacks_content rc = Returns true)
    by (unfold lacks_content; rewrite Hfalse; reflexivity).
  unfold kept in Hc, Ht. rewrite Hl in Hc, Ht.
  change (content_get (placeholder (topic_obj st)) k_content (PyStr [])
          = Returns c) in Hc.
  change (content_get (placeholder (topic_obj st)) k_title (PyStr [])
          = Returns t) in Ht.
  unfold synthesize_and_assemble.
  unfold obind at 1. unfold get_topic at 1.
  unfold obind at 1. unfold emit at 1.
  unfold obind at 1. unfold call at 1. cbn [calls record topic_obj].
  rewrite Hgen.
  unfold obind at 1. unfold olift at 1. rewrite Hl.
  unfold obind at 1. unfold obind at 1. unfold emit at 1. unfold oret at 1.
  unfold obind at 1. unfold emit at 1. cbn [calls record topic_obj].
  unfold obind at 1. unfold olift at 1. rewrite Hc.
  unfold obind at 1. unfold olift at 1. rewrite Ht.
  unfold obind at 1. unfold call at 1. cbn [calls record topic_obj].
  rewrite Hv.
  unfold obind at 1.
  match goal with |- context [regenerate K 3 valid 0 filtered_news ?r ?s] =>
    destruct (regenerate_nothing K 3 valid 0 filtered_news r s
                (fun Hvf => Hchain Hvf))
      as (cnt & st4 & Hreg & Htopic); rewrite Hreg
  end.
  cbn [topic_obj] in Htopic.
  destruct valid; cbn [negb].
  - exists (placeholder_body (topic_obj st)). eexists. split; [left; reflexivity|].
    unfold obind at 1. unfold oret at 1.
    unfold obind at 1. unfold emit at 1.
    unfold obind at 1. unfold olift at 1.
    unfold obind, emit, oret. reflexivity.
  - exists (placeholder_after_retry_body (topic_obj st)). eexists.
    split; [right; reflexivity|].
    unfold obind at 1. unfold obind at 1. unfold emit at 1. unfold emit at 1.
    unfold obind at 1. unfold emit at 1.
    unfold obind at 1. unfold olift at 1.
    unfold obind, emit, oret. reflexivity.
Qed.

(** How both placeholder bodies end: with the topic's label. *)
Definition names_label (body : pystr) (topic : Topic) : Prop :=
  endswith body (py "This topic is about " ++ content topic ++ py ".") = true.

Lemma placeholder_bodies_name_label (topic : Topic) :
  names_label (placeholder_body topic) topic
  /\ names_label (placeholder_after_retry_body topic) topic.
Proof.
  unfold names_label, placeholder_body, placeholder_after_retry_body.
  split.
  - rewrite (app_assoc (py "This is a placeholder report for topic ")).
    rewrite (app_assoc _ (py ". The original content generation failed. ")).
    apply endswith_app.
  - rewrite (app_assoc (py "This is a placeholder report for topic ")).
    rewrite (app_assoc _ (py " after failed retry. ")).
    apply endswith_app.
Qed.

Lemma process_topic_after_filter (E : externals) (R : region)
  (K : collaborators) (news_list : list NewsArticle) (topic : Topic)
  (filtered_news : list NewsArticle) (n1 : nat) (report : Report)
  (st' : task_state) :
  filter_news K topic news_list O = (Returns filtered_news, n1) ->
  filtered_news <> [] ->
  synthesize_and_assemble E R K filtered_news
    (after_filter (refine R topic filtered_news) n1)
  = (Returns (Some report), st') ->
  fst (process_topic E R K news_list (start topic)) = Returns (Some report).
Proof.
  intros Hf Hne Hrun. unfold process_topic, otry.
  rewrite process_topic_body_start, Hf.
  destruct filtered_news as [|a l]; [congruence|].
  rewrite Hrun. reflexivity.
Qed.

(** A synthesizer that returns nothing and a validator that rejects
    everything, behind a filter that keeps the first article. *)
Definition silent_collaborators : collaborators := {|
  filter_news := fun _ news_list => ret (firstn 1 news_list);
  generate := fun _ _ => ret PyNone;
  validate := fun _ _ _ _ => ret (false, 0)
|}.

(** C7 as stated fails: with the repository's own synthesizer behind a
    backend that is down, filtering keeps ten articles (its fallback) and
    the topic is Skipped all the same, the error of the synthesis being
    caught by [process_topic]. *)
Lemma surviving_topic_skipped_on_synthesis_error :
  fst (filter_related_news failing_backend topic_of_eleven eleven_articles O)
  = Returns (firstn 10 eleven_articles)
  /\ fst (process_topic failing_backend plain_region
            (pipeline failing_backend plain_region)
            eleven_articles (start topic_of_eleven))
     = Returns None.
Proof.
  split; vm_compute; reflexivity.
Qed.

(** *** The retry loop *)

(** The retry loop enters no validation: whatever the collaborators do, the
    events it appends hold no [Enter Validate] and no [Enter Assemble]. *)
Lemma regenerate_never_validates (K : collaborators) (remaining : nat)
  (content_valid : bool) (retry_count : Z) (filtered_news : list NewsArticle)
  (rc : pyval) :
  appends (fun ev => ev <> Enter Validate /\ ev <> Enter Assemble)
    (regenerate K remaining content_valid retry_count filtered_news rc).
Proof.
  apply appends_regenerate; split; discriminate.
Qed.

(** A report of 600 words and a report of two. *)
Definition long_report (t : pystr) : pystr :=
  py "Title: " ++ t ++ [0x0a%N] ++ py "Content: "
    ++ List.concat (List.repeat (py "word ") 600).

Definition short_report (t : pystr) : pystr :=
  py "Title: " ++ t ++ [0x0a%N] ++ py "Content: too short".

(** The backend of the task: it keeps article A; its first three reports
    are too short; the next one is long enough; the six after it are too
    short again. *)
Definition script_good_second (n : nat) : outcome pystr :=
  match n with
  | 0 => Returns (py "Article ID: A")
  | 1 | 2 | 3 => Returns (short_report (py "Draft"))
  | 4 => Returns (long_report (py "Good"))
  | 5 | 6 | 7 => Returns (short_report (py "Third"))
  | _ => Returns (short_report (py "Last"))
  end%nat.

Definition good_second : externals := scripted script_good_second.

(** C6 fails on the code.  On this task the first content fails validation
    and is regenerated three times; the second content would pass
    validation, yet the task enters [Validate] once only, before any
    regeneration, and assembles the fourth content, which is too short. *)
Theorem regenerated_content_not_validated :
  let run :=
    process_topic good_second plain_region (pipeline good_second plain_region)
      eleven_articles (start topic_of_eleven) in
  record (snd run)
  = [Log INFO ProcessingTopic; Enter Filter;
     Enter Synthesize; Enter Validate;
     Log WARNING ValidationRetry; Enter Synthesize;
     Log WARNING ValidationRetry; Enter Synthesize;
     Log WARNING ValidationRetry; Enter Synthesize;
     Log WARNING (ValidationFailedAfter 3);
     Log INFO ProceedingDespiteValidation;
     Enter Assemble; Log INFO TopicProcessed]
  /\ (exists report,
        fst run = Returns (Some report)
        /\ r_title report = PyStr (py "Last"))
  /\ (forall n,
        fst (QualityCheck.validate_content good_second
               (PyStr (List.concat (List.repeat (py "word ") 600)))
               (PyStr (py "Good")) 500 2000 n)
        = Returns (true, 600))
  /\ fst (QualityCheck.validate_content good_second
            (PyStr (py "too short")) (PyStr (py "Last")) 500 2000 11%nat)
     = Returns (false, 2).
Proof.
  cbv zeta. split; [vm_compute; reflexivity|]. split; [|split].
  - eexists. split; vm_compute; reflexivity.
  - intros n. unfold QualityCheck.validate_content.
    replace (validate_report_format _) with true by (vm_compute; reflexivity).
    cbn [negb]. unfold bind at 1. unfold lift at 1.
    replace (validate_word_count_of _ _ _) with (Returns (true, 600))
      by (vm_compute; reflexivity).
    cbn [negb]. unfold try_except, bind, lift, chat, ret.
    cbn [get_prompt backend good_second scripted].
    destruct (script_good_second n) as [response | e]; reflexivity.
  - vm_compute. reflexivity.
Qed.

(** *** Isolation of failures *)

Lemma process_topic_never_raises (E : externals) (R : region)
  (K : collaborators) (news_list : list NewsArticle) (st : task_state) :
  exists r st', process_topic E R K news_list st = (Returns r, st').
Proof.
  unfold process_topic, otry.
  destruct (process_topic_body E R K news_list st) as [[r|e] st'].
  - eauto.
  - unfold obind, emit, oret. eauto.
Qed.

Lemma process_topic_catches (E : externals) (R : region)
  (K : collaborators) (news_list : list NewsArticle) (st st' : task_state)
  (e : exn) :
  process_topic_body E R K news_list st = (Raises e, st') ->
  process_topic E R K news_list st
  = (Returns None,
     {| calls := calls st';
        record := record st' ++ [Log ERROR (ProcessingError e)];
        topic_obj := topic_obj st' |}).
Proof.
  intros H. unfold process_topic, otry. rewrite H. reflexivity.
Qed.

Lemma process_topic_skips_empty (E : externals) (R : region)
  (K : collaborators) (news_list : list NewsArticle) (topic : Topic) :
  fst (filter_news K topic news_list O) = Returns [] ->
  fst (process_topic E R K news_list (start topic)) = Returns None.
Proof.
  intros H. unfold process_topic, otry, process_topic_body.
  unfold obind, get_topic, emit, call, oret, start. simpl.
  destruct (filter_news K topic news_list 0%nat) as [o n]. simpl in H.
  subst o. reflexivity.
Qed.

Lemma collect_from (results : list (outcome (option Report)))
  (reports : list Report) (logged : list event) :
  fst (fold_left
         (fun acc result =>
            let '(reports, logged) := acc in
            match result with
            | Raises e => (reports, logged ++ [Log ERROR (ProcessingError e)])
            | Returns (Some report) => (reports ++ [report], logged)
            | Returns None => (reports, logged)
            end)
         results (reports, logged))
  = reports
    ++ flat_map
         (fun result =>
            match result with
            | Returns (Some report) => [report]
            | _ => []
            end)
         results.
Proof.
  revert reports logged.
  induction results as [|result results IH]; intros reports logged; simpl.
  - rewrite app_nil_r. reflexivity.
  - destruct result as [[report|]|e]; rewrite IH; simpl.
    + rewrite <- app_assoc. reflexivity.
    + reflexivity.
    + reflexivity.
Qed.

Lemma execute_reports_flat_map (R : region) (news_list : list NewsArticle)
  (tasks : list task) :
  execute_reports R news_list tasks
  = flat_map
      (fun t =>
         match task_report R news_list t with
         | Some report => [report]
         | None => []
         end)
      tasks.
Proof.
  unfold execute_reports, collect, gather. rewrite collect_from. simpl.
  induction tasks as [|t tasks IH]; simpl; [reflexivity|].
  rewrite IH. unfold task_report.
  destruct (fst (run_task R news_list t)) as [[report|]|e]; reflexivity.
Qed.

(** C1.  The result of a batch is the list of the reports of the topics
    that succeeded, each task's contribution depending on that task alone.
    A topic whose filtered article set is empty contributes no report; no
    task raises into the batch; an exception raised while a topic is
    processed is caught in its own task, logged there, and yields no report;
    and a task without a report leaves the reports of its siblings, before
    and after it, as they are. *)
Theorem batch_isolates_topic_failure (R : region)
  (news_list : list NewsArticle) (tasks : list task) :
  execute_reports R news_list tasks
  = flat_map
      (fun t =>
         match task_report R news_list t with
         | Some report => [report]
         | None => []
         end)
      tasks
  /\ (forall t, filtered_empty news_list t ->
        fst (run_task R news_list t) = Returns None)
  /\ (forall t, exists r, fst (run_task R news_list t) = Returns r)
  /\ (forall t e, raises_in R news_list t e ->
        fst (run_task R news_list t) = Returns None
        /\ In (Log ERROR (ProcessingError e))
             (record (snd (run_task R news_list t))))
  /\ (forall pre t post, task_report R news_list t = None ->
        execute_reports R news_list (pre ++ t :: post)
        = execute_reports R news_list pre ++ execute_reports R news_list post).
Proof.
  split; [apply execute_reports_flat_map|]. split; [|split; [|split]].
  - intros t Hempty. apply process_topic_skips_empty. exact Hempty.
  - intros t. unfold run_task.
    destruct (process_topic_never_raises (t_env t) R (t_collab t) news_list
                (start (t_topic t))) as (r & st' & H).
    exists r. rewrite H. reflexivity.
  - intros t e Hraise. unfold raises_in in Hraise. unfold run_task.
    destruct (process_topic_body (t_env t) R (t_collab t) news_list
                (start (t_topic t))) as [o st'] eqn:Hbody.
    simpl in Hraise. subst o.
    rewrite (process_topic_catches _ _ _ _ _ _ _ Hbody). simpl.
    split; [reflexivity|]. apply in_or_app. right. left. reflexivity.
  - intros pre t post Hnone. rewrite !execute_reports_flat_map.
    rewrite flat_map_app. simpl. rewrite Hnone. reflexivity.
Qed.

End Orchestrator.

(** ** Topic model engine (src/analyzers/topic_modeler.py) *)

Module TopicModeler.

Import TopicCount.

(** The fitted model, as the code reads it: the topic distribution of a
    tokenized document ([lda_model[dictionary.doc2bow(tokens)]], pairs of a
    topic id and a probability), and the top terms of a topic
    ([None] when reading them raises). *)
Record lda_model := {
  get_document_topics : list (list N) -> list (Z * Q);
  get_topic_terms : Z -> option (list (list N))
}.

(** The four counters a [TopicModeler] holds. *)
Record counters := {
  topic_counter : gmap Z Z;
  weighted_topic_counter : gmap Z Q;
  keyword_counter : gmap (list N) Z;
  weighted_keyword_counter : gmap (list N) Q
}.

(** [m[k] += a] on a [Counter], and [m.setdefault(k, []).append(a)] on a
    dict of lists: the entry of [k], [zero] when absent, combined with [a]. *)
Definition bump {K V A : Type} `{Countable K} (zero : V) (add : V -> A -> V)
  (m : gmap K V) (k : K) (a : A) : gmap K V :=
  <[k := add (default zero (m !! k)) a]> m.

(** [prob >= 0.3], the membership threshold. *)
Definition is_member (prob : Q) : bool := Qle_bool (3 # 10) prob.

(** [prob >= 0.1], the weighting threshold. *)
Definition is_counted (prob : Q) : bool := Qle_bool (1 # 10) prob.

(** [round(x, 2)], read over the rationals: to the nearest hundredth, ties
    to the even one. *)
Definition round2 (x : Q) : Q :=
  let n := (Qnum x * 100)%Z in
  let d := Zpos (Qden x) in
  let q := (n / d)%Z in
  let r := (n mod d)%Z in
  let q' :=
    if (2 * r <? d)%Z then q
    else if (d <? 2 * r)%Z then (q + 1)%Z
    else if Z.even q then q else (q + 1)%Z in
  Qmake q' 100.

(** The record attached to an article for a topic. *)
Definition assignment (tid : Z) (prob : Q) (kws : list (list N)) : pyval :=
  PyDict [(py "topic_id", PyInt tid);
          (py "probability", PyFloat prob);
          (py "keywords", PyList (List.map PyStr kws))].

(** [sorted(topics, key=weighted_count, reverse=True)]: descending, equal
    keys in their original order. *)
Fixpoint insert_desc (t : Topic) (l : list Topic) : list Topic :=
  match l with
  | [] => [t]
  | u :: l' =>
      if Qle_bool (weighted_count u) (weighted_count t) then t :: u :: l'
      else u :: insert_desc t l'
  end.

Definition sort_desc (l : list Topic) : list Topic :=
  fold_right insert_desc [] l.

(** The entry of [k] after the contributions [contribs] have been added, in
    order, to an empty table: absent when none is for [k]. *)
Definition tally {K V A : Type} `{Countable K} (zero : V) (add : V -> A -> V)
  (contribs : list (K * A)) (k : K) : option V :=
  match List.filter (fun c => bool_decide (fst c = k)) contribs with
  | [] => None
  | vs => Some (fold_left add (List.map snd vs) zero)
  end.

Lemma fold_bump_lookup {K V A : Type} `{Countable K} (zero : V)
  (add : V -> A -> V) (contribs : list (K * A)) (m : gmap K V) (k : K) :
  fold_left (fun m c => bump zero add m (fst c) (snd c)) contribs m !! k
  = match List.filter (fun c => bool_decide (fst c = k)) contribs with
    | [] => m !! k
    | vs => Some (fold_left add (List.map snd vs) (default zero (m !! k)))
    end.
Proof.
  revert m. induction contribs as [|c rest IH]; intros m; simpl.
  - reflexivity.
  - rewrite IH. unfold bump.
    destruct (bool_decide (fst c = k)) eqn:Hk.
    + apply bool_decide_eq_true in Hk. subst k.
      rewrite lookup_insert_eq. simpl.
      destruct (List.filter _ rest); reflexivity.
    + apply bool_decide_eq_false in Hk.
      rewrite lookup_insert_ne by exact Hk. reflexivity.
Qed.

Lemma fold_bump_tally {K V A : Type} `{Countable K} (zero : V)
  (add : V -> A -> V) (contribs : list (K * A)) (k : K) :
  fold_left (fun m c => bump zero add m (fst c) (snd c)) contribs empty !! k
  = tally zero add contribs k.
Proof.
  rewrite fold_bump_lookup. unfold tally. rewrite lookup_empty.
  reflexivity.
Qed.

Lemma fold_snoc {A : Type} (l acc : list A) :
  fold_left (fun l r => l ++ [r]) l acc = acc ++ l.
Proof.
  revert acc. induction l as [|x l IH]; intros acc; simpl.
  - rewrite app_nil_r. reflexivity.
  - rewrite IH, <- app_assoc. reflexivity.
Qed.

Lemma insert_desc_In (t u : Topic) (l : list Topic) :
  In u (insert_desc t l) <-> u = t \/ In u l.
Proof.
  induction l as [|v l IH]; simpl.
  - intuition congruence.
  - destruct (Qle_bool (weighted_count v) (weighted_count t)); simpl.
    + intuition congruence.
    + rewrite IH. intuition congruence.
Qed.

Lemma sort_desc_In (u : Topic) (l : list Topic) :
  In u (sort_desc l) <-> In u l.
Proof.
  induction l as [|t l IH]; simpl.
  - reflexivity.
  - rewrite insert_desc_In, IH. intuition congruence.
Qed.

Section Modeling.

Context (preprocess : list N -> list (list N)).
Context (fit : list (list (list N)) -> Z -> outcome lda_model).
Context (weighted_sources : gmap (list N) Q).
Context (min_topics max_topics : Z).

(** The text modeled for an article: its summary; an article without one is
    asked for a [content] it does not have. *)
Definition document (news : NewsArticle) : outcome (list N) :=
  if nonempty (summary news) then Returns (summary news)
  else Raises AttributeError.

Fixpoint documents (news_list : list NewsArticle) : outcome (list (list N)) :=
  match news_list with
  | [] => Returns []
  | news :: rest =>
      match document news with
      | Raises e => Raises e
      | Returns doc =>
          match documents rest with
          | Raises e => Raises e
          | Returns docs => Returns (doc :: docs)
          end
      end
  end.

Definition is_nonempty_doc (tokens : list (list N)) : bool :=
  match tokens with [] => false | _ => true end.

(** What one article adds to the counters. *)
Definition count_article (lda : lda_model) (c : counters)
  (tokens : list (list N)) (src : list N) : counters :=
  let article_topics := get_document_topics lda tokens in
  let weight := default 1%Q (weighted_sources !! src) in
  let c :=
    fold_left
      (fun c tp =>
         let '(tid, prob) := tp in
         if is_counted prob then
           {| topic_counter := bump 0%Z Z.add (topic_counter c) tid 1%Z;
              weighted_topic_counter :=
                bump 0%Q Qplus (weighted_topic_counter c) tid (weight * prob)%Q;
              keyword_counter := keyword_counter c;
              weighted_keyword_counter := weighted_keyword_counter c |}
         else c)
      article_topics c in
  fold_left
    (fun c token =>
       {| topic_counter := topic_counter c;
          weighted_topic_counter := weighted_topic_counter c;
          keyword_counter := bump 0%Z Z.add (keyword_counter c) token 1%Z;
          weighted_keyword_counter :=
            bump 0%Q Qplus (weighted_keyword_counter c) token weight |})
    tokens c.

(** The loop of [_update_topic_counts] over the articles. *)
Fixpoint count_articles (lda : lda_model) (news_list : list NewsArticle)
  (c : counters) : outcome counters :=
  match news_list with
  | [] => Returns c
  | article :: rest =>
      match document article with
      | Raises e => Raises e
      | Returns summary =>
          let tokens := preprocess summary in
          if is_nonempty_doc tokens
          then count_articles lda rest
                 (count_article lda c tokens (source article))
          else count_articles lda rest c
      end
  end.

(** [TopicModeler._update_topic_counts]: the counters are reset first. *)
Definition _update_topic_counts (lda : lda_model)
  (news_list : list NewsArticle) : outcome counters :=
  count_articles lda news_list
    {| topic_counter := empty; weighted_topic_counter := empty;
       keyword_counter := empty; weighted_keyword_counter := empty |}.

(** The articles a topic takes and the record each gets, in the order the
    loops meet them: document [idx] of the corpus is credited to
    [article_ids[idx]]. *)
Definition topic_hits (lda : lda_model) (article_ids : list (option (list N)))
  (processed_docs : list (list (list N))) (tid : Z) (kws : list (list N))
  : list (option (list N) * pyval) :=
  flat_map
    (fun entry =>
       let '(article_id, doc) := entry in
       flat_map
         (fun tp =>
            let '(t_id, prob) := tp in
            if ((t_id =? tid)%Z && is_member prob)%bool
            then [(article_id, assignment tid prob kws)]
            else [])
         (get_document_topics lda doc))
    (combine article_ids processed_docs).

(** The label of a topic: its keywords, quoted and joined by [" + "]. *)
Definition label (kws : list (list N)) : list N :=
  join (py " + ") (List.map (fun k => [0x22%N] ++ k ++ [0x22%N]) kws).

(** The dict appended to [topics] for a topic. *)
Definition topic_entry (c : counters) (tid : Z) (kws : list (list N))
  (hits : list (option (list N) * pyval)) : Topic :=
  {| topic_id := tid;
     content := label kws;
     count := default 0%Z (topic_counter c !! tid);
     weighted_count := round2 (default 0%Q (weighted_topic_counter c !! tid));
     keywords := kws;
     article_ids := List.map fst hits;
     selection_reason := [] |}.

(** One pass of the loop over the topic ids; a topic whose terms cannot be
    read is skipped. *)
Definition model_topic (lda : lda_model) (c : counters)
  (article_ids : list (option (list N)))
  (processed_docs : list (list (list N)))
  (acc : list Topic * gmap (option (list N)) (list pyval)) (tid : Z)
  : list Topic * gmap (option (list N)) (list pyval) :=
  let '(topics_so_far, article_topic_mapping) := acc in
  match get_topic_terms lda tid with
  | None => acc
  | Some kws =>
      let hits := topic_hits lda article_ids processed_docs tid kws in
      let mapping :=
        fold_left
          (fun m hit => bump [] (fun l r => l ++ [r]) m (fst hit) (snd hit))
          hits article_topic_mapping in
      (topics_so_far ++ [topic_entry c tid kws hits], mapping)
  end.

(** [range(num_topics)]. *)
Definition range (n : Z) : list Z := List.map Z.of_nat (seq 0 (Z.to_nat n)).

(** "Update news articles with their topics". *)
Definition tag_article (mapping : gmap (option (list N)) (list pyval))
  (news : NewsArticle) : NewsArticle :=
  match mapping !! id news with
  | Some ts =>
      {| id := id news; title := title news; summary := summary news;
         url := url news; source := source news; category := category news;
         published_at := published_at news; topics := ts |}
  | None => news
  end.

(** What a modeling run leaves: the topics returned, the articles as
    updated, and the counters of the modeler. *)
Record modeled := {
  m_topics : list Topic;
  m_news : list NewsArticle;
  m_counters : counters
}.

(** [TopicModeler.perform_topic_modeling], called on a modeler whose
    counters are [self_counters]. *)
Definition perform_topic_modeling (self_counters : counters)
  (news_list : list NewsArticle) : modeled :=
  let failed :=
    {| m_topics := []; m_news := news_list; m_counters := self_counters |} in
  match documents news_list with
  | Raises _ => failed
  | Returns docs =>
      let article_ids := List.map id news_list in
      let processed_docs :=
        List.filter is_nonempty_doc (List.map preprocess docs) in
      match processed_docs with
      | [] => failed
      | _ =>
          let num_topics :=
            _adjust_num_topics (len news_list) min_topics max_topics in
          match fit processed_docs num_topics with
          | Raises _ => failed
          | Returns lda =>
              match _update_topic_counts lda news_list with
              | Raises _ => failed
              | Returns c =>
                  let '(topics_found, mapping) :=
                    fold_left (model_topic lda c article_ids processed_docs)
                      (range num_topics) ([], empty) in
                  {| m_topics := sort_desc topics_found;
                     m_news := List.map (tag_article mapping) news_list;
                     m_counters := c |}
              end
          end
      end
  end.

(** *** The contributions counted *)

Definition tokens_of (a : NewsArticle) : list (list N) :=
  preprocess (summary a).

Definition weight_of (a : NewsArticle) : Q :=
  default 1%Q (weighted_sources !! source a).

(** The articles that enter the counts: those with some token. *)
Definition modeled_articles (news_list : list NewsArticle)
  : list NewsArticle :=
  List.filter (fun a => is_nonempty_doc (tokens_of a)) news_list.

(** The pairs of an article that pass the weighting threshold. *)
Definition counted_pairs (lda : lda_model) (a : NewsArticle) : list (Z * Q) :=
  List.filter (fun tp => is_counted (snd tp))
    (get_document_topics lda (tokens_of a)).

(** Per topic, one unit for every counted pair. *)
Definition topic_units (lda : lda_model) (news_list : list NewsArticle)
  : list (Z * Z) :=
  flat_map (fun a => List.map (fun tp => (fst tp, 1%Z)) (counted_pairs lda a))
    (modeled_articles news_list).

(** Per topic, weight times probability for every counted pair. *)
Definition topic_weights (lda : lda_model) (news_list : list NewsArticle)
  : list (Z * Q) :=
  flat_map
    (fun a =>
       List.map (fun tp => (fst tp, (weight_of a * snd tp)%Q))
         (counted_pairs lda a))
    (modeled_articles news_list).

(** Per token, one unit for every occurrence in a modeled article. *)
Definition keyword_units (news_list : list NewsArticle)
  : list (list N * Z) :=
  flat_map (fun a => List.map (fun tok => (tok, 1%Z)) (tokens_of a))
    (modeled_articles news_list).

(** Per token, the article's weight for every occurrence. *)
Definition keyword_weights (news_list : list NewsArticle)
  : list (list N * Q) :=
  flat_map (fun a => List.map (fun tok => (tok, weight_of a)) (tokens_of a))
    (modeled_articles news_list).

(** The counters [c0] with the contributions of [news_list] added. *)
Definition counted_from (lda : lda_model) (news_list : list NewsArticle)
  (c0 c : counters) : Prop :=
  topic_counter c
  = fold_left (fun m x => bump 0%Z Z.add m (fst x) (snd x))
      (topic_units lda news_list) (topic_counter c0)
  /\ weighted_topic_counter c
     = fold_left (fun m x => bump 0%Q Qplus m (fst x) (snd x))
         (topic_weights lda news_list) (weighted_topic_counter c0)
  /\ keyword_counter c
     = fold_left (fun m x => bump 0%Z Z.add m (fst x) (snd x))
         (keyword_units news_list) (keyword_counter c0)
  /\ weighted_keyword_counter c
     = fold_left (fun m x => bump 0%Q Qplus m (fst x) (snd x))
         (keyword_weights news_list) (weighted_keyword_counter c0).

Lemma count_article_counted (lda : lda_model) (c0 : counters)
  (a : NewsArticle) :
  is_nonempty_doc (tokens_of a) = true ->
  counted_from lda [a] c0 (count_article lda c0 (tokens_of a) (source a)).
Proof.
  intros Hne. unfold counted_from, topic_units, topic_weights, keyword_units,
    keyword_weights, modeled_articles. simpl List.filter. rewrite Hne.
  simpl flat_map. rewrite !app_nil_r.
  unfold count_article, counted_pairs. fold (weight_of a).
  remember (fun (c : counters) (tp : Z * Q) => let '(tid, prob) := tp in _)
    as F eqn:HFdef.
  set (G := fun (c : counters) (token : list N) => _).
  assert (HG : forall toks c,
    topic_counter (fold_left G toks c) = topic_counter c
    /\ weighted_topic_counter (fold_left G toks c) = weighted_topic_counter c
    /\ keyword_counter (fold_left G toks c)
       = fold_left (fun m x => bump 0%Z Z.add m (fst x) (snd x))
           (List.map (fun tok => (tok, 1%Z)) toks) (keyword_counter c)
    /\ weighted_keyword_counter (fold_left G toks c)
       = fold_left (fun m x => bump 0%Q Qplus m (fst x) (snd x))
           (List.map (fun tok => (tok, weight_of a)) toks)
           (weighted_keyword_counter c)).
  { induction toks as [|tok toks IH]; intros c; simpl.
    - auto.
    - destruct (IH (G c tok)) as (H1 & H2 & H3 & H4).
      rewrite H1, H2, H3, H4. subst G. simpl. auto. }
  assert (HF : forall pairs c,
    topic_counter (fold_left F pairs c)
    = fold_left (fun m x => bump 0%Z Z.add m (fst x) (snd x))
        (List.map (fun tp => (fst tp, 1%Z))
           (List.filter (fun tp => is_counted (snd tp)) pairs))
        (topic_counter c)
    /\ weighted_topic_counter (fold_left F pairs c)
       = fold_left (fun m x => bump 0%Q Qplus m (fst x) (snd x))
           (List.map (fun tp => (fst tp, (weight_of a * snd tp)%Q))
              (List.filter (fun tp => is_counted (snd tp)) pairs))
           (weighted_topic_counter c)
    /\ keyword_counter (fold_left F pairs c) = keyword_counter c
    /\ weighted_keyword_counter (fold_left F pairs c)
       = weighted_keyword_counter c).
  { induction pairs as [|[tid prob] pairs IH]; intros c; simpl.
    - auto.
    - destruct (IH (F c (tid, prob))) as (H1 & H2 & H3 & H4).
      rewrite H1, H2, H3, H4. rewrite HFdef.
      destruct (is_counted prob); simpl; auto. }
  destruct (HG (tokens_of a)
              (fold_left F (get_document_topics lda (tokens_of a)) c0))
    as (G1 & G2 & G3 & G4).
  destruct (HF (get_document_topics lda (tokens_of a)) c0)
    as (F1 & F2 & F3 & F4).
  rewrite G1, G2, G3, G4, F1, F2, F3, F4. auto.
Qed.

Lemma counted_from_nil (lda : lda_model) (c : counters) :
  counted_from lda [] c c.
Proof. repeat split. Qed.

Lemma counted_from_cons (lda : lda_model) (a : NewsArticle)
  (rest : list NewsArticle) (c0 c1 c2 : counters) :
  counted_from lda [a] c0 c1 -> counted_from lda rest c1 c2 ->
  counted_from lda (a :: rest) c0 c2.
Proof.
  intros (A1 & A2 & A3 & A4) (B1 & B2 & B3 & B4).
  unfold counted_from, topic_units, topic_weights, keyword_units,
    keyword_weights, modeled_articles in *.
  simpl List.filter in *.
  destruct (is_nonempty_doc (tokens_of a)); simpl flat_map in *;
    rewrite ?app_nil_r in *; rewrite ?fold_left_app;
    rewrite B1, B2, B3, B4, A1, A2, A3, A4; auto.
Qed.

Lemma counted_from_skip (lda : lda_model) (a : NewsArticle) (c : counters) :
  is_nonempty_doc (tokens_of a) = false -> counted_from lda [a] c c.
Proof.
  intros Hne. unfold counted_from, topic_units, topic_weights, keyword_units,
    keyword_weights, modeled_articles. simpl List.filter. rewrite Hne.
  repeat split.
Qed.

Lemma count_articles_counted (lda : lda_model) (news_list : list NewsArticle) :
  Forall (fun a => nonempty (summary a) = true) news_list ->
  forall c0, exists c,
    count_articles lda news_list c0 = Returns c
    /\ counted_from lda news_list c0 c.
Proof.
  induction 1 as [|a rest Ha _ IH]; intros c0; simpl.
  - exists c0. split; [reflexivity | apply counted_from_nil].
  - unfold document. rewrite Ha. fold (tokens_of a).
    destruct (is_nonempty_doc (tokens_of a)) eqn:Hne.
    + destruct (IH (count_article lda c0 (tokens_of a) (source a)))
        as (c & Hc & Hfrom).
      exists c. split; [exact Hc|].
      eapply counted_from_cons; [|exact Hfrom].
      apply count_article_counted. exact Hne.
    + destruct (IH c0) as (c & Hc & Hfrom).
      exists c. split; [exact Hc|].
      eapply counted_from_cons; [|exact Hfrom].
      apply counted_from_skip. exact Hne.
Qed.

(** *** Membership *)

(** The topics found and the hits made over the topic ids [ts]. *)
Definition found_topics (lda : lda_model) (c : counters)
  (ids : list (option (list N))) (docs : list (list (list N)))
  (ts : list Z) : list Topic :=
  flat_map
    (fun t =>
       match get_topic_terms lda t with
       | Some kws => [topic_entry c t kws (topic_hits lda ids docs t kws)]
       | None => []
       end)
    ts.

Definition all_hits (lda : lda_model) (ids : list (option (list N)))
  (docs : list (list (list N))) (ts : list Z)
  : list (option (list N) * pyval) :=
  flat_map
    (fun t =>
       match get_topic_terms lda t with
       | Some kws => topic_hits lda ids docs t kws
       | None => []
       end)
    ts.

Lemma model_topics_fold (lda : lda_model) (c : counters)
  (ids : list (option (list N))) (docs : list (list (list N)))
  (ts : list Z) (acc : list Topic)
  (m : gmap (option (list N)) (list pyval)) :
  fold_left (model_topic lda c ids docs) ts (acc, m)
  = (acc ++ found_topics lda c ids docs ts,
     fold_left
       (fun m hit => bump [] (fun l r => l ++ [r]) m (fst hit) (snd hit))
       (all_hits lda ids docs ts) m).
Proof.
  revert acc m. induction ts as [|t ts IH]; intros acc m; simpl.
  - rewrite app_nil_r. reflexivity.
  - destruct (get_topic_terms lda t) as [kws|].
    + rewrite IH, fold_left_app, <- app_assoc. reflexivity.
    + rewrite IH. reflexivity.
Qed.

Lemma documents_return (news_list : list NewsArticle) :
  Forall (fun a => nonempty (summary a) = true) news_list ->
  documents news_list = Returns (List.map summary news_list).
Proof.
  induction 1 as [|a rest Ha _ IH]; simpl.
  - reflexivity.
  - unfold document. rewrite Ha, IH. reflexivity.
Qed.

Lemma processed_docs_modeled (news_list : list NewsArticle) :
  List.filter is_nonempty_doc
    (List.map preprocess (List.map summary news_list))
  = List.map tokens_of (modeled_articles news_list).
Proof.
  unfold modeled_articles.
  induction news_list as [|a rest IH]; simpl; [reflexivity|].
  fold (tokens_of a). destruct (is_nonempty_doc (tokens_of a)); simpl;
    rewrite IH; reflexivity.
Qed.

Lemma modeled_all (news_list : list NewsArticle) :
  Forall (fun a => is_nonempty_doc (tokens_of a) = true) news_list ->
  modeled_articles news_list = news_list.
Proof.
  unfold modeled_articles. induction 1 as [|a rest Ha _ IH]; simpl.
  - reflexivity.
  - rewrite Ha, IH. reflexivity.
Qed.

Lemma combine_aligned (news_list : list NewsArticle) :
  combine (List.map id news_list) (List.map tokens_of news_list)
  = List.map (fun a => (id a, tokens_of a)) news_list.
Proof.
  induction news_list as [|a rest IH]; simpl; [reflexivity|].
  rewrite IH. reflexivity.
Qed.

Lemma topic_hits_aligned (lda : lda_model) (news_list : list NewsArticle)
  (t : Z) (kws : list (list N)) (i : option (list N)) (rcd : pyval) :
  In (i, rcd)
    (topic_hits lda (List.map id news_list) (List.map tokens_of news_list)
       t kws)
  <-> exists a p,
        In a news_list /\ id a = i
        /\ In (t, p) (get_document_topics lda (tokens_of a))
        /\ (3 # 10 <= p)%Q /\ rcd = assignment t p kws.
Proof.
  unfold topic_hits. rewrite combine_aligned, in_flat_map. split.
  - intros ([i' doc] & Hin & Hhit).
    apply in_map_iff in Hin. destruct Hin as (a & Ha & Hin).
    injection Ha as <- <-.
    apply in_flat_map in Hhit. destruct Hhit as ([t' p] & Hp & Hhit).
    destruct (Z.eqb_spec t' t) as [->|]; [|destruct Hhit].
    unfold is_member in Hhit. simpl in Hhit.
    destruct (Qle_bool (3 # 10) p) eqn:Hle; [|destruct Hhit].
    destruct Hhit as [Hhit | []]. injection Hhit as <- <-.
    exists a, p. repeat split; auto. apply Qle_bool_iff. exact Hle.
  - intros (a & p & Hin & <- & Hp & Hle & ->).
    exists (id a, tokens_of a). split.
    + apply in_map_iff. exists a. auto.
    + apply in_flat_map. exists (t, p). split; [exact Hp|].
      rewrite Z.eqb_refl. unfold is_member.
      apply Qle_bool_iff in Hle. rewrite Hle. left. reflexivity.
Qed.

Lemma found_topics_In (lda : lda_model) (c : counters)
  (ids : list (option (list N))) (docs : list (list (list N)))
  (ts : list Z) (topic : Topic) :
  In topic (found_topics lda c ids docs ts)
  <-> exists t kws,
        In t ts /\ get_topic_terms lda t = Some kws
        /\ topic = topic_entry c t kws (topic_hits lda ids docs t kws).
Proof.
  unfold found_topics. rewrite in_flat_map. split.
  - intros (t & Ht & Hin). destruct (get_topic_terms lda t) as [kws|] eqn:Hk;
      [|destruct Hin].
    destruct Hin as [<- | []]. exists t, kws. auto.
  - intros (t & kws & Ht & Hk & ->). exists t. split; [exact Ht|].
    rewrite Hk. left. reflexivity.
Qed.

Lemma all_hits_In (lda : lda_model) (ids : list (option (list N)))
  (docs : list (list (list N))) (ts : list Z)
  (hit : option (list N) * pyval) :
  In hit (all_hits lda ids docs ts)
  <-> exists t kws,
        In t ts /\ get_topic_terms lda t = Some kws
        /\ In hit (topic_hits lda ids docs t kws).
Proof.
  unfold all_hits. rewrite in_flat_map. split.
  - intros (t & Ht & Hin). destruct (get_topic_terms lda t) as [kws|] eqn:Hk;
      [|destruct Hin].
    exists t, kws. auto.
  - intros (t & kws & Ht & Hk & Hin). exists t. split; [exact Ht|].
    rewrite Hk. exact Hin.
Qed.

(** The entry of [i] in the mapping built from [hits]: the records of its
    hits, when it has any. *)
Lemma mapping_lookup (hits : list (option (list N) * pyval))
  (i : option (list N)) :
  fold_left
    (fun m hit => bump [] (fun l r => l ++ [r]) m (fst hit) (snd hit))
    hits empty !! i
  = match List.filter (fun h => bool_decide (fst h = i)) hits with
    | [] => None
    | hs => Some (List.map snd hs)
    end.
Proof.
  rewrite (fold_bump_tally [] (fun l r => l ++ [r]) hits i). unfold tally.
  destruct (List.filter _ hits) as [|h hs]; [reflexivity|].
  rewrite fold_snoc. reflexivity.
Qed.

Lemma mapping_lookup_Some (hits : list (option (list N) * pyval))
  (i : option (list N)) (l : list pyval) :
  fold_left
    (fun m hit => bump [] (fun l r => l ++ [r]) m (fst hit) (snd hit))
    hits empty !! i = Some l ->
  l <> [] /\ forall rcd, In rcd l <-> In (i, rcd) hits.
Proof.
  rewrite mapping_lookup.
  remember (List.filter (fun h => bool_decide (fst h = i)) hits) as f eqn:Hf.
  destruct f as [|h hs]; [discriminate|].
  intros Hl. injection Hl as Hl. subst l. split; [discriminate|].
  intros rcd. change (In rcd (List.map snd (h :: hs)) <-> In (i, rcd) hits).
  rewrite Hf, in_map_iff. split.
  - intros ([j r] & Hr & Hin). simpl in Hr. subst r.
    apply filter_In in Hin. destruct Hin as [Hin Hj].
    apply bool_decide_eq_true in Hj. simpl in Hj. subst j. exact Hin.
  - intros Hin. exists (i, rcd). split; [reflexivity|].
    apply filter_In. split; [exact Hin|].
    apply bool_decide_eq_true. reflexivity.
Qed.

Lemma mapping_lookup_None (hits : list (option (list N) * pyval))
  (i : option (list N)) :
  fold_left
    (fun m hit => bump [] (fun l r => l ++ [r]) m (fst hit) (snd hit))
    hits empty !! i = None ->
  forall rcd, ~ In (i, rcd) hits.
Proof.
  rewrite mapping_lookup.
  remember (List.filter (fun h => bool_decide (fst h = i)) hits) as f eqn:Hf.
  destruct f as [|h hs]; [|discriminate].
  intros _ rcd Hin.
  assert (Hin' : In (i, rcd)
                   (List.filter (fun h => bool_decide (fst h = i)) hits)).
  { apply filter_In. split; [exact Hin|].
    apply bool_decide_eq_true. reflexivity. }
  rewrite <- Hf in Hin'. destruct Hin'.
Qed.

Lemma id_unique (news_list : list NewsArticle) (a b : NewsArticle) :
  NoDup (List.map id news_list) -> In a news_list -> In b news_list ->
  id a = id b -> a = b.
Proof.
  induction news_list as [|x rest IH]; simpl; intros Hnd Ha Hb Heq.
  - destruct Ha.
  - apply NoDup_cons in Hnd. destruct Hnd as [Hx Hnd].
    destruct Ha as [-> | Ha], Hb as [-> | Hb].
    + reflexivity.
    + exfalso. apply Hx. rewrite Heq. apply list_elem_of_In, in_map. exact Hb.
    + exfalso. apply Hx. rewrite <- Heq. apply list_elem_of_In, in_map.
      exact Ha.
    + apply IH; assumption.
Qed.

(** The number of topics asked of the model. *)
Definition num_topics_of (news_list : list NewsArticle) : Z :=
  _adjust_num_topics (len news_list) min_topics max_topics.

(** The counters of a modeler that has just been reset. *)
Definition reset_counters : counters :=
  {| topic_counter := empty; weighted_topic_counter := empty;
     keyword_counter := empty; weighted_keyword_counter := empty |}.

(** A modeling run that goes through: every article has a summary, some
    article yields tokens, and the model is fitted. *)
Definition modeling_succeeds (news_list : list NewsArticle) (lda : lda_model)
  : Prop :=
  Forall (fun a => nonempty (summary a) = true) news_list
  /\ modeled_articles news_list <> []
  /\ fit (List.map tokens_of (modeled_articles news_list))
       (num_topics_of news_list) = Returns lda.

Lemma perform_topic_modeling_succeeds (self_counters : counters)
  (news_list : list NewsArticle) (lda : lda_model) :
  modeling_succeeds news_list lda ->
  exists c,
    counted_from lda news_list reset_counters c
    /\ perform_topic_modeling self_counters news_list
       = {| m_topics :=
              sort_desc
                (found_topics lda c (List.map id news_list)
                   (List.map tokens_of (modeled_articles news_list))
                   (range (num_topics_of news_list)));
            m_news :=
              List.map
                (tag_article
                   (fold_left
                      (fun m hit =>
                         bump [] (fun l r => l ++ [r]) m (fst hit) (snd hit))
                      (all_hits lda (List.map id news_list)
                         (List.map tokens_of (modeled_articles news_list))
                         (range (num_topics_of news_list)))
                      empty))
                news_list;
            m_counters := c |}.
Proof.
  intros (Hsum & Hne & Hfit).
  destruct (count_articles_counted lda news_list Hsum reset_counters)
    as (c & Hc & Hfrom).
  exists c. split; [exact Hfrom|].
  unfold perform_topic_modeling.
  rewrite (documents_return news_list Hsum), processed_docs_modeled.
  destruct (List.map tokens_of (modeled_articles news_list)) as [|d ds] eqn:Hd.
  { destruct (modeled_articles news_list); [congruence | discriminate]. }
  fold (num_topics_of news_list). rewrite Hfit.
  unfold _update_topic_counts. fold reset_counters. rewrite Hc.
  rewrite model_topics_fold. reflexivity.
Qed.

(** The record [rcd] is one the loops attach to article [a]: that of a
    topic of the run whose probability for [a] reaches 0.30. *)
Definition attached (lda : lda_model) (news_list : list NewsArticle)
  (a : NewsArticle) (rcd : pyval) : Prop :=
  exists t p kws,
    In t (range (num_topics_of news_list))
    /\ get_topic_terms lda t = Some kws
    /\ In (t, p) (get_document_topics lda (tokens_of a))
    /\ (3 # 10 <= p)%Q
    /\ rcd = assignment t p kws.

Lemma counters_tally (lda : lda_model) (news_list : list NewsArticle)
  (c : counters) :
  counted_from lda news_list reset_counters c ->
  (forall t,
     topic_counter c !! t = tally 0%Z Z.add (topic_units lda news_list) t
     /\ weighted_topic_counter c !! t
        = tally 0%Q Qplus (topic_weights lda news_list) t)
  /\ (forall tok,
        keyword_counter c !! tok
        = tally 0%Z Z.add (keyword_units news_list) tok
        /\ weighted_keyword_counter c !! tok
           = tally 0%Q Qplus (keyword_weights news_list) tok).
Proof.
  intros (H1 & H2 & H3 & H4). simpl in *. split.
  - intros t. rewrite H1, H2. split; apply fold_bump_tally.
  - intros tok. rewrite H3, H4. split; apply fold_bump_tally.
Qed.

Lemma membership_aligned (lda : lda_model) (c : counters)
  (news_list : list NewsArticle) (topic : Topic) (a : NewsArticle) :
  NoDup (List.map id news_list) ->
  In topic
    (found_topics lda c (List.map id news_list)
       (List.map tokens_of news_list) (range (num_topics_of news_list))) ->
  In a news_list ->
  In (id a) (article_ids topic)
  <-> exists p,
        In (topic_id topic, p) (get_document_topics lda (tokens_of a))
        /\ (3 # 10 <= p)%Q.
Proof.
  intros Hnd Htopic Ha.
  apply found_topics_In in Htopic.
  destruct Htopic as (t & kws & Ht & Hk & ->). simpl. split.
  - intros Hin. apply in_map_iff in Hin.
    destruct Hin as ([i rcd] & Hi & Hin). simpl in Hi. subst i.
    apply topic_hits_aligned in Hin.
    destruct Hin as (b & p & Hb & Hid & Hp & Hle & _).
    rewrite (id_unique news_list a b Hnd Ha Hb (eq_sym Hid)).
    exists p. auto.
  - intros (p & Hp & Hle). apply in_map_iff.
    exists (id a, assignment t p kws). split; [reflexivity|].
    apply topic_hits_aligned. exists a, p. auto.
Qed.

Lemma records_aligned (lda : lda_model) (news_list : list NewsArticle)
  (a : NewsArticle) :
  NoDup (List.map id news_list) -> In a news_list ->
  let mapping :=
    fold_left
      (fun m hit => bump [] (fun l r => l ++ [r]) m (fst hit) (snd hit))
      (all_hits lda (List.map id news_list) (List.map tokens_of news_list)
         (range (num_topics_of news_list)))
      empty in
  id (tag_article mapping a) = id a
  /\ ((exists rcd, attached lda news_list a rcd) ->
      forall rcd,
        In rcd (topics (tag_article mapping a))
        <-> attached lda news_list a rcd)
  /\ ((forall rcd, ~ attached lda news_list a rcd) ->
      topics (tag_article mapping a) = topics a).
Proof.
  intros Hnd Ha mapping.
  assert (Hhit : forall rcd,
    In (id a, rcd)
      (all_hits lda (List.map id news_list) (List.map tokens_of news_list)
         (range (num_topics_of news_list)))
    <-> attached lda news_list a rcd).
  { intros rcd. rewrite all_hits_In. unfold attached. split.
    - intros (t & kws & Ht & Hk & Hin). apply topic_hits_aligned in Hin.
      destruct Hin as (b & p & Hb & Hid & Hp & Hle & ->).
      rewrite <- (id_unique news_list a b Hnd Ha Hb (eq_sym Hid)) in Hp.
      exists t, p, kws. auto.
    - intros (t & p & kws & Ht & Hk & Hp & Hle & ->).
      exists t, kws. repeat split; auto.
      apply topic_hits_aligned. exists a, p. auto. }
  unfold tag_article.
  destruct (mapping !! id a) as [l|] eqn:Hl; simpl.
  - destruct (mapping_lookup_Some _ _ _ Hl) as [Hne Hin].
    split; [reflexivity|]. split.
    + intros _ rcd. rewrite Hin. apply Hhit.
    + intros Hnone. exfalso. destruct l as [|r l]; [congruence|].
      apply (Hnone r), Hhit, Hin. left. reflexivity.
  - split; [reflexivity|]. split; [|reflexivity].
    intros (rcd & Hatt). exfalso.
    apply (mapping_lookup_None _ _ Hl rcd), Hhit. exact Hatt.
Qed.

(** C3, as amended.  In a modeling run that goes through:
    - weighting: for every article that yields tokens, each (topic,
      probability) pair of the model with probability >= 0.10 adds 1 to the
      topic's count and weight x probability to its weighted count, and each
      token occurrence adds 1 to the keyword's count and the weight to its
      weighted count, whatever the probabilities; the weight is that of the
      article's source, 1 by default; nothing else is counted;
    - membership, when every article yields tokens and ids are distinct: an
      article's id is in a topic's [article_ids] exactly when the model
      gives that topic a probability >= 0.30 for the article, and the
      records attached to the article are exactly the
      [{topic_id, probability, keywords}] of those pairs (its topics are
      left as they were when there is none). *)
Theorem thresholds_as_applied (self_counters : counters)
  (news_list : list NewsArticle) (lda : lda_model) :
  modeling_succeeds news_list lda ->
  let run := perform_topic_modeling self_counters news_list in
  (forall t,
     topic_counter (m_counters run) !! t
     = tally 0%Z Z.add (topic_units lda news_list) t
     /\ weighted_topic_counter (m_counters run) !! t
        = tally 0%Q Qplus (topic_weights lda news_list) t)
  /\ (forall tok,
        keyword_counter (m_counters run) !! tok
        = tally 0%Z Z.add (keyword_units news_list) tok
        /\ weighted_keyword_counter (m_counters run) !! tok
           = tally 0%Q Qplus (keyword_weights news_list) tok)
  /\ (Forall (fun a => is_nonempty_doc (tokens_of a) = true) news_list ->
      NoDup (List.map id news_list) ->
      (forall topic a,
         In topic (m_topics run) -> In a news_list ->
         In (id a) (article_ids topic)
         <-> exists p,
               In (topic_id topic, p) (get_document_topics lda (tokens_of a))
               /\ (3 # 10 <= p)%Q)
      /\ exists tag,
           m_news run = List.map tag news_list
           /\ forall a, In a news_list ->
                id (tag a) = id a
                /\ ((exists rcd, attached lda news_list a rcd) ->
                    forall rcd,
                      In rcd (topics (tag a))
                      <-> attached lda news_list a rcd)
                /\ ((forall rcd, ~ attached lda news_list a rcd) ->
                    topics (tag a) = topics a)).
Proof.
  intros Hok run.
  destruct (perform_topic_modeling_succeeds self_counters news_list lda Hok)
    as (c & Hfrom & Hrun).
  subst run. rewrite Hrun. cbn [m_topics m_news m_counters].
  destruct (counters_tally lda news_list c Hfrom) as [Ht Hk].
  split; [exact Ht|]. split; [exact Hk|].
  intros Hall Hnd. rewrite (modeled_all news_list Hall). split.
  - intros topic a Htopic Ha. apply (proj1 (sort_desc_In _ _)) in Htopic.
    apply (membership_aligned lda c news_list topic a Hnd Htopic Ha).
  - eexists. split; [reflexivity|].
    intros a Ha. apply (records_aligned lda news_list a Hnd Ha).
Qed.

End Modeling.

(** *** Sample runs *)

(** Whitespace tokens of two characters or more. *)
Definition sample_preprocess (text : list N) : list (list N) :=
  List.filter (fun t => (1 <? length t)%nat) (split_ws text).

Definition sample_article (i s src : list N) : NewsArticle := {|
  id := Some i; title := []; summary := s; url := []; source := src;
  category := []; published_at := NoDate; topics := []
|}.

(** A model of two topics that tells market news from sports news. *)
Definition two_topic_model : lda_model := {|
  get_document_topics := fun tokens =>
    match tokens with
    | first :: _ =>
        if str_eqb first (py "market")
        then [(0%Z, (7 # 10)%Q); (1%Z, (2 # 10)%Q)]
        else [(0%Z, (5 # 100)%Q); (1%Z, (9 # 10)%Q)]
    | [] => []
    end;
  get_topic_terms := fun t =>
    if (t =? 0)%Z then Some [py "market"; py "rates"]
    else Some [py "sports"; py "final"]
|}.

Definition wire_weights : gmap (list N) Q := {[ py "wire" := 2%Q ]}.

Definition market_and_sports : list NewsArticle :=
  [sample_article (py "n1") (py "market rates rise") (py "wire");
   sample_article (py "n2") (py "sports final score") (py "blog")].

(** The run on the two articles, with the topic count fixed at 2. *)
Definition market_and_sports_run : modeled :=
  perform_topic_modeling sample_preprocess (fun _ _ => Returns two_topic_model)
    wire_weights 2 2
    {| topic_counter := empty; weighted_topic_counter := empty;
       keyword_counter := empty; weighted_keyword_counter := empty |}
    market_and_sports.

Lemma thresholds_as_applied_witness :
  weighted_topic_counter (m_counters market_and_sports_run) !! 1%Z
  = tally 0%Q Qplus
      (topic_weights sample_preprocess wire_weights two_topic_model
         market_and_sports) 1%Z
  /\ forall topic,
       In topic (m_topics market_and_sports_run) ->
       In (Some (py "n2")) (article_ids topic)
       <-> exists p,
             In (topic_id topic, p)
               (get_document_topics two_topic_model
                  (sample_preprocess (py "sports final score")))
             /\ (3 # 10 <= p)%Q.
Proof.
  destruct (thresholds_as_applied sample_preprocess
              (fun _ _ => Returns two_topic_model) wire_weights 2 2
              {| topic_counter := empty; weighted_topic_counter := empty;
                 keyword_counter := empty;
                 weighted_keyword_counter := empty |}
              market_and_sports two_topic_model) as (H & _ & Hm).
  - split; [|split].
    + repeat constructor.
    + vm_compute. discriminate.
    + reflexivity.
  - split; [apply (H 1%Z)|].
    destruct Hm as [Hmember _].
    + repeat constructor.
    + apply NoDup_ListNoDup. repeat constructor; simpl; intuition discriminate.
    + intros topic Htopic.
      apply (Hmember topic
               (sample_article (py "n2") (py "sports final score") (py "blog"))
               Htopic).
      right. left. reflexivity.
Defined.

(** What the run leaves: topic 1 (sports) is counted for both articles and
    weighs 2 x 0.2 + 1 x 0.9; only the sports article is its member. *)
Lemma market_and_sports_counts :
  topic_counter (m_counters market_and_sports_run) !! 1%Z = Some 2%Z
  /\ (exists w,
        weighted_topic_counter (m_counters market_and_sports_run) !! 1%Z
        = Some w /\ (w == 13 # 10)%Q)
  /\ List.map (fun t => (topic_id t, article_ids t))
       (m_topics market_and_sports_run)
     = [(0%Z, [Some (py "n1")]); (1%Z, [Some (py "n2")])].
Proof.
  split; [vm_compute; reflexivity|]. split.
  - eexists. split; [vm_compute; reflexivity|]. reflexivity.
  - vm_compute. reflexivity.
Qed.

(** The two weighted counts are different quantities: modeling gives the
    sports topic 2 x 0.2 + 1 x 0.9 over the two articles, refiltering to
    the same two articles gives it 2 + 1. *)
Lemma refined_weight_is_not_modeled_weight :
  (weighted_count
     (Orchestrator.refine
        {| Orchestrator.weighted_sources := wire_weights;
           Orchestrator.source_lang := py "eng";
           Orchestrator.reference_news_title := py "Reference News" |}
        topic0 market_and_sports) == 3)%Q
  /\ (exists w,
        weighted_topic_counter (m_counters market_and_sports_run) !! 1%Z
        = Some w /\ (w == 13 # 10)%Q).
Proof.
  split; [vm_compute; reflexivity|].
  eexists. split; [vm_compute; reflexivity|]. reflexivity.
Qed.

(** Twenty topics, each given probability 0.05 for every document. *)
Definition flat_model : lda_model := {|
  get_document_topics := fun _ =>
    List.map (fun t => (Z.of_nat t, (5 # 100)%Q)) (seq 0 20);
  get_topic_terms := fun _ => Some [py "market"]
|}.

Definition flat_run : modeled :=
  perform_topic_modeling sample_preprocess (fun _ _ => Returns flat_model)
    wire_weights 20 20
    {| topic_counter := empty; weighted_topic_counter := empty;
       keyword_counter := empty; weighted_keyword_counter := empty |}
    market_and_sports.

(** C3 as stated fails for keywords: in this run no (article, topic)
    probability reaches 0.10 and no topic is counted, yet every token is
    counted, with the weight of its article's source. *)
Lemma keywords_counted_below_threshold :
  Forall
    (fun a =>
       Forall (fun tp => is_counted (snd tp) = false)
         (get_document_topics flat_model (sample_preprocess (summary a))))
    market_and_sports
  /\ weighted_topic_counter (m_counters flat_run) = empty
  /\ keyword_counter (m_counters flat_run) !! py "market" = Some 1%Z
  /\ (exists w,
        weighted_keyword_counter (m_counters flat_run) !! py "market" = Some w
        /\ (w == 2)%Q).
Proof.
  split; [repeat constructor|]. split; [vm_compute; reflexivity|].
  split; [vm_compute; reflexivity|].
  eexists. split; [vm_compute; reflexivity|]. reflexivity.
Qed.

(** A batch whose first article yields no token. *)
Definition batch_with_empty_document : list NewsArticle :=
  sample_article (py "n0") (py "a b") (py "blog") :: market_and_sports.

(** When an article yields no token, the documents that follow are credited
    to the ids before them: the market article's topic takes the id of the
    article without tokens, the sports topic takes the market article's id,
    and the sports article is a member of nothing. *)
Lemma membership_shifts_after_empty_document :
  List.map (fun t => (topic_id t, article_ids t))
    (m_topics
       (perform_topic_modeling sample_preprocess
          (fun _ _ => Returns two_topic_model) wire_weights 2 2
          {| topic_counter := empty; weighted_topic_counter := empty;
             keyword_counter := empty; weighted_keyword_counter := empty |}
          batch_with_empty_document))
  = [(0%Z, [Some (py "n0")]); (1%Z, [Some (py "n1")])].
Proof.
  vm_compute. reflexivity.
Qed.

End TopicModeler.

(** ** Further properties of the word count (src/reporting/validators.py) *)

Module WordCountFacts.

(** The characters of [s] that are not whitespace. *)
Definition nonspace (s : list N) : Z :=
  count_if (fun c => negb (isspace c)) s.

Lemma len_cons {A : Type} (x : A) (l : list A) : len (x :: l) = 1 + len l.
Proof. unfold len. simpl length. rewrite Nat2Z.inj_succ. lia. Qed.

Lemma len_nonneg {A : Type} (l : list A) : 0 <= len l.
Proof. unfold len. lia. Qed.

Lemma count_if_cons (p : N -> bool) (c : N) (s : list N) :
  count_if p (c :: s) = (if p c then 1 else 0) + count_if p s.
Proof.
  unfold count_if. simpl. destruct (p c); [apply len_cons | reflexivity].
Qed.

Lemma count_if_bounds (p : N -> bool) (s : list N) :
  0 <= count_if p s <= len s.
Proof.
  induction s as [|c s IH].
  - unfold count_if, len. simpl. lia.
  - rewrite count_if_cons, len_cons. destruct (p c); lia.
Qed.

Lemma split_ws_from_length (s cur : list N) :
  len (split_ws_from cur s)
  <= nonspace s + (match cur with [] => 0 | _ => 1 end).
Proof.
  revert cur. induction s as [|c s IH]; intros cur.
  - simpl. destruct cur; unfold nonspace, count_if, len; simpl; lia.
  - simpl. unfold nonspace in *. rewrite count_if_cons.
    destruct (isspace c); simpl negb; cbv iota.
    + destruct cur.
      * specialize (IH []). simpl in IH. lia.
      * rewrite len_cons. specialize (IH []). simpl in IH. lia.
    + specialize (IH (c :: cur)). simpl in IH.
      destruct cur; lia.
Qed.

Lemma split_ws_length (s : list N) : len (split_ws s) <= nonspace s.
Proof.
  pose proof (split_ws_from_length s []) as H. simpl in H.
  unfold split_ws. lia.
Qed.

Lemma filter_length_le {A : Type} (p : A -> bool) (l : list A) :
  len (List.filter p l) <= len l.
Proof.
  induction l as [|x l IH]; simpl.
  - lia.
  - rewrite len_cons. destruct (p x); [rewrite len_cons|]; lia.
Qed.

Lemma chinese_and_masked (s : list N) :
  count_if _is_chinese_char s + nonspace (non_chinese_text s) <= len s.
Proof.
  induction s as [|c s IH].
  - unfold count_if, nonspace, count_if, len. simpl. lia.
  - unfold nonspace in *. simpl non_chinese_text.
    rewrite !count_if_cons, len_cons. unfold mask_char at 1.
    destruct (_is_chinese_char c); simpl orb; cbv iota.
    + change (isspace 32) with true. simpl. lia.
    + destruct (isspace c || _is_punctuation c)%bool.
      * change (isspace 32) with true. simpl. lia.
      * destruct (isspace c); simpl; lia.
Qed.

(** X1.  The multilingual word count of a text is never negative and never
    exceeds its number of characters. *)
Theorem word_count_bounds (text : list N) :
  0 <= _count_words_multilingual text <= len text.
Proof.
  rewrite count_words_multilingual_eq.
  pose proof (count_if_bounds _is_chinese_char text) as Hc.
  pose proof (chinese_and_masked text) as Hm.
  pose proof (split_ws_length (non_chinese_text text)) as Hw.
  pose proof (filter_length_le nonempty (split_ws (non_chinese_text text)))
    as Hf.
  pose proof (split_ws_length text) as Hs.
  pose proof (count_if_bounds (fun c => negb (isspace c)) text) as Hn.
  pose proof (len_nonneg (split_ws text)) as H0.
  pose proof (len_nonneg
                (List.filter nonempty (split_ws (non_chinese_text text))))
    as H1.
  unfold non_chinese_words, nonspace in *.
  destruct (3 * len (strip text) <? 10 * count_if _is_chinese_char text);
    lia.
Qed.

Lemma lstrip_space_prefix (sp s : list N) :
  all_space sp -> lstrip (sp ++ s) = lstrip s.
Proof.
  induction 1 as [|c sp Hc _ IH]; simpl; [reflexivity|].
  rewrite Hc. exact IH.
Qed.

Lemma lstrip_all_space (sp : list N) : all_space sp -> lstrip sp = [].
Proof.
  induction 1 as [|c sp Hc _ IH]; simpl; [reflexivity|].
  rewrite Hc. exact IH.
Qed.

Lemma rstrip_all_space (sp : list N) : all_space sp -> rstrip sp = [].
Proof.
  induction 1 as [|c sp Hc _ IH]; simpl; [reflexivity|].
  rewrite IH, Hc. reflexivity.
Qed.

Lemma rstrip_space_suffix (s sp : list N) :
  all_space sp -> rstrip (s ++ sp) = rstrip s.
Proof.
  intros Hsp. induction s as [|c s IH]; simpl.
  - apply rstrip_all_space. exact Hsp.
  - rewrite IH. reflexivity.
Qed.

Lemma lstrip_app_space (s sp : list N) :
  all_space sp ->
  lstrip (s ++ sp) = match lstrip s with [] => [] | r => r ++ sp end.
Proof.
  intros Hsp. induction s as [|c s IH]; simpl.
  - apply lstrip_all_space. exact Hsp.
  - destruct (isspace c); [exact IH | reflexivity].
Qed.

Lemma strip_padded (sp1 s sp2 : list N) :
  all_space sp1 -> all_space sp2 -> strip (sp1 ++ s ++ sp2) = strip s.
Proof.
  intros H1 H2. unfold strip.
  rewrite lstrip_space_prefix by exact H1.
  rewrite lstrip_app_space by exact H2.
  destruct (lstrip s) as [|r rs] eqn:Hl; [reflexivity|].
  apply rstrip_space_suffix. exact H2.
Qed.

(** X2.  Whitespace added before or after a text does not change its
    multilingual word count. *)
Theorem word_count_ignores_padding (sp1 text sp2 : list N) :
  all_space sp1 -> all_space sp2 ->
  _count_words_multilingual (sp1 ++ text ++ sp2)
  = _count_words_multilingual text.
Proof.
  intros H1 H2. rewrite !count_words_multilingual_eq.
  rewrite strip_padded, chinese_count_padded, non_chinese_words_padded,
    split_ws_padded by assumption.
  reflexivity.
Qed.

Lemma word_count_ignores_padding_witness :
  _count_words_multilingual
    (py "  " ++ py "two words" ++ [0x0a%N; 0x3000%N])
  = _count_words_multilingual (py "two words").
Proof.
  apply (word_count_ignores_padding (py "  ") (py "two words")
           [0x0a%N; 0x3000%N]);
    repeat constructor.
Defined.

Lemma words_of_all_space (sp : list N) : all_space sp -> split_ws sp = [].
Proof.
  intros H. pose proof (split_ws_from_space_suffix sp H [] []) as Hs.
  simpl in Hs. exact Hs.
Qed.

Lemma count_if_all (p : N -> bool) (s : list N) :
  Forall (fun c => p c = true) s -> count_if p s = len s.
Proof.
  induction 1 as [|c s Hc _ IH].
  - reflexivity.
  - rewrite count_if_cons, len_cons, Hc, IH. reflexivity.
Qed.

Lemma chinese_text_masked (s : list N) :
  Forall (fun c => _is_chinese_char c = true) s ->
  all_space (non_chinese_text s).
Proof.
  induction 1 as [|c s Hc _ IH]; simpl; constructor.
  - unfold mask_char. rewrite Hc. reflexivity.
  - exact IH.
Qed.

(** X3.  A text made of logographic characters only counts one word per
    character; a text with no logographic character counts its
    whitespace-delimited words. *)
Theorem word_count_by_script (text : list N) :
  (Forall (fun c => _is_chinese_char c = true) text ->
   _count_words_multilingual text = len text)
  /\ (Forall (fun c => _is_chinese_char c = false) text ->
      _count_words_multilingual text = len (split_ws text)).
Proof.
  split; intros H; rewrite count_words_multilingual_eq.
  - rewrite (count_if_all _ text H).
    unfold non_chinese_words.
    rewrite (words_of_all_space _ (chinese_text_masked text H)).
    destruct text as [|c s].
    + reflexivity.
    + assert (Hs : strip (c :: s) = c :: s).
      { destruct (strip_decomposes (c :: s)) as (sp1 & sp2 & Heq & H1 & H2).
        assert (Hno : forall sp, all_space sp ->
                  (forall x, In x sp -> In x (c :: s)) -> sp = []).
        { intros sp Hsp Hin. destruct sp as [|x sp]; [reflexivity|].
          exfalso. apply Forall_cons in Hsp. destruct Hsp as [Hx _].
          pose proof (proj1 (List.Forall_forall _ _) H x
                        (Hin x (or_introl eq_refl))) as Hcx.
          simpl in Hcx. rewrite (space_not_chinese x Hx) in Hcx.
          discriminate. }
        assert (E1 : sp1 = []).
        { apply Hno; [exact H1|]. intros x Hx. rewrite Heq.
          apply in_or_app. left. exact Hx. }
        assert (E2 : sp2 = []).
        { apply Hno; [exact H2|]. intros x Hx. rewrite Heq.
          apply in_or_app. right. apply in_or_app. right. exact Hx. }
        subst sp1 sp2. simpl in Heq. rewrite app_nil_r in Heq.
        symmetry. exact Heq. }
      rewrite Hs. pose proof (len_nonneg s). rewrite len_cons.
      destruct (Z.ltb_spec (3 * (1 + len s)) (10 * (1 + len s)));
        [unfold len; simpl; lia | lia].
  - rewrite (count_if_none _ text H).
    pose proof (len_nonneg (strip text)).
    destruct (Z.ltb_spec (3 * len (strip text)) (10 * 0)); [lia|].
    reflexivity.
Qed.

End WordCountFacts.

(** ** Further properties of extraction and synthesis
    (src/reporting/validators.py, src/analyzers/content_analyzer.py) *)

Module SynthesisFacts.

Import ContentAnalyzer.

Lemma split_char_from_no_sep (sep : N) (s cur : list N) :
  ~ In sep s -> split_char_from sep cur s = [rev cur ++ s].
Proof.
  revert cur. induction s as [|c s IH]; intros cur Hno; simpl.
  - rewrite app_nil_r. reflexivity.
  - destruct (N.eqb_spec c sep) as [-> | Hne].
    + exfalso. apply Hno. left. reflexivity.
    + rewrite IH.
      * simpl. rewrite <- app_assoc. reflexivity.
      * intros Hin. apply Hno. right. exact Hin.
Qed.

Lemma title_not_content (x : list N) :
  startswith x (py "title:") = true -> startswith x (py "content:") = false.
Proof.
  destruct x as [|c x]; [discriminate|].
  change (py "title:") with (116%N :: py "itle:").
  change (py "content:") with (99%N :: py "ontent:").
  cbn [startswith]. destruct (N.eqb_spec 116 c) as [<- | Hne].
  - intros _. reflexivity.
  - discriminate.
Qed.

Section Extraction.

Context (E : externals).

(** X4.  Whatever the text, extraction returns a dict with exactly the keys
    ['title'] and ['content']. *)
Theorem extract_title_content_shape (text : list N) :
  exists t c, extract_title_content E text = title_content t c.
Proof.
  unfold extract_title_content.
  destruct (extract_json E text) as [result|] eqn:Hj.
  - unfold extract_json in Hj.
    destruct (startswith (strip text) (py "{") && endswith (strip text) (py "}"))%bool;
      [|discriminate].
    destruct (json_loads E text) as [[| | | | | |data]|]; try discriminate.
    destruct (dict_get data k_title) as [t|]; [|discriminate].
    destruct (dict_get data k_content) as [c|]; [|discriminate].
    injection Hj as <-. eauto.
  - cbv zeta.
    destruct (find_line _ _) as [title_line|];
      [destruct (find_line _ _) as [content_line|]|].
    + eauto.
    + destruct (1 <? length _)%nat; eauto.
    + destruct (1 <? length _)%nat; eauto.
Qed.

(** X5.  A response of a single line that holds no JSON report is extracted
    with an empty title and the whole response as content, so it never
    passes the format check. *)
Theorem single_line_response_rejected (text : list N) :
  extract_json E text = None ->
  ~ In 0x0a%N (strip text) ->
  extract_title_content E text = title_content (PyStr []) (PyStr text)
  /\ validate_report_format (extract_title_content E text) = false.
Proof.
  intros Hj Hline.
  assert (Hx : extract_title_content E text
               = title_content (PyStr []) (PyStr text)).
  { unfold extract_title_content. rewrite Hj. cbv zeta.
    unfold split_char. rewrite (split_char_from_no_sep _ _ [] Hline).
    simpl rev. simpl app. simpl find_line.
    destruct (startswith (str_lower E (strip text)) (py "title:")) eqn:Ht.
    - rewrite (title_not_content _ Ht). reflexivity.
    - reflexivity. }
  split; [exact Hx|]. rewrite Hx. reflexivity.
Qed.

End Extraction.

Lemma single_line_response_rejected_witness :
  validate_report_format
    (extract_title_content (scripted script_short_third) (py "Title: only"))
  = false.
Proof.
  apply (single_line_response_rejected (scripted script_short_third)
           (py "Title: only")).
  - reflexivity.
  - vm_compute. intuition discriminate.
Defined.

Section Synthesis.

Context (E : externals) (source_lang : list N).

(** The result passed the word-count check of the synthesizer. *)
Definition in_word_range (rc : pyval) : Prop :=
  exists d wc,
    rc = PyDict d
    /\ validate_word_count_of (dict_get_default d k_content (PyStr []))
         500 2000 = Returns (true, wc).

Lemma attempt_body_result (sp up : list N) (a : Z) (n n' : nat) (rc : pyval) :
  attempt_body E sp up a n = (Returns (Return rc), n') ->
  validate_report_format rc = true
  /\ n' = S n
  /\ (a <> 2 -> in_word_range rc).
Proof.
  unfold attempt_body, try_except, bind, chat, lift, ret, raise.
  destruct (backend E n sp up) as [response | e]; simpl.
  - destruct (validate_report_format (extract_title_content E response))
      eqn:Hf; simpl.
    + destruct (extract_title_content E response) as [| | | | | |d] eqn:Hx;
        simpl; try (destruct (a =? 2); discriminate).
      destruct (validate_word_count_of _ 500 2000) as [[valid wc] | e] eqn:Hw;
        simpl.
      * destruct valid; simpl.
        -- intros H. injection H as <- <-. split; [exact Hf|].
           split; [reflexivity|]. intros _. exists d, wc. auto.
        -- destruct (Z.eqb_spec a 2) as [-> | Hne]; intros H;
             [|discriminate].
           injection H as <- <-. split; [exact Hf|].
           split; [reflexivity|]. congruence.
      * destruct (a =? 2); discriminate.
    + discriminate.
  - destruct (a =? 2); discriminate.
Qed.

Lemma attempts_result (sp up : list N) (todo : list Z) (n n' : nat)
  (rc : pyval) :
  Forall (fun a => a <> 2) (removelast todo) ->
  attempts E sp up todo n = (Returns rc, n') ->
  validate_report_format rc = true
  /\ (n' <= n + length todo)%nat
  /\ ((n' < n + length todo)%nat -> in_word_range rc).
Proof.
  revert n. induction todo as [|a rest IH]; intros n Hnot; simpl.
  - discriminate.
  - unfold bind.
    pose proof (attempt_body_one_call E sp up a n) as Hone.
    destruct (attempt_body E sp up a n) as [[[result|]|e] n1] eqn:Hbody;
      simpl in Hone; subst n1.
    + intros H. injection H as <- <-.
      destruct (attempt_body_result sp up a n _ result Hbody)
        as (Hf & _ & Hr).
      split; [exact Hf|]. split; [lia|]. intros Hlt. apply Hr.
      destruct rest as [|b rest]; [simpl in Hlt; lia|].
      simpl in Hnot. apply Forall_cons in Hnot. tauto.
    + intros H.
      assert (Hnot' : Forall (fun a => a <> 2) (removelast rest)).
      { destruct rest as [|b rest]; [constructor|].
        simpl in Hnot. apply Forall_cons in Hnot. tauto. }
      destruct (IH (S n) Hnot' H) as (Hf & Hle & Hr).
      split; [exact Hf|]. split; [lia|]. intros Hlt. apply Hr. lia.
    + discriminate.
Qed.

(** X6.  Whatever the synthesizer returns passes the format check (a dict
    with a true title and a true content), and a result returned before the
    third backend call also passed the word-count check: only the third
    attempt can return content out of range. *)
Theorem generate_returns_valid_format (topic : Topic)
  (filtered_news : list NewsArticle) (n n' : nat) (rc : pyval) :
  generate_report_content E source_lang topic filtered_news n
    = (Returns rc, n') ->
  validate_report_format rc = true
  /\ (n' <= n + 3)%nat
  /\ ((n' < n + 3)%nat -> in_word_range rc).
Proof.
  unfold generate_report_content, try_except, bind, lift, raise.
  destruct (get_prompt E REPORT_GENERATION (py "system") []) as [sp|e];
    cbv beta iota; [|discriminate].
  destruct (get_prompt E REPORT_GENERATION (py "user") _) as [up|e];
    cbv beta iota; [|discriminate].
  destruct (attempts E sp up [0; 1; 2] n) as [[r|e] n1] eqn:Hatt;
    [|discriminate].
  intros H. injection H as <- <-.
  apply (attempts_result sp up [0; 1; 2] n n1 r); [|exact Hatt].
  simpl. repeat constructor; discriminate.
Qed.

(** The summary sent for an article. *)
Definition summary_of (news : NewsArticle) : list N :=
  if nonempty (summary news) then summary news else title news.

Lemma news_summaries_from (tid : Z) (l : list NewsArticle)
  (acc : list (list N)) :
  fold_left
    (fun acc news =>
       let summary :=
         if nonempty (summary news) then summary news else title news in
       if is_relevant news tid then summary :: acc else acc ++ [summary])
    l acc
  = rev (List.map summary_of
           (List.filter (fun news => is_relevant news tid) l))
    ++ acc
    ++ List.map summary_of
         (List.filter (fun news => negb (is_relevant news tid)) l).
Proof.
  revert acc. induction l as [|news l IH]; intros acc; simpl.
  - rewrite app_nil_r. reflexivity.
  - rewrite IH. fold (summary_of news).
    destruct (is_relevant news tid); simpl.
    + rewrite <- app_assoc. reflexivity.
    + rewrite <- app_assoc. reflexivity.
Qed.

(** X7.  The summaries sent to the backend put the articles tagged with the
    topic first, the latest of them first, followed by the other articles
    in their order; an article without a summary is sent by its title. *)
Theorem news_summaries_order (tid : Z) (filtered_news : list NewsArticle) :
  news_summaries tid filtered_news
  = rev (List.map summary_of
           (List.filter (fun news => is_relevant news tid) filtered_news))
    ++ List.map summary_of
         (List.filter (fun news => negb (is_relevant news tid))
            filtered_news).
Proof.
  unfold news_summaries. rewrite news_summaries_from. reflexivity.
Qed.

End Synthesis.

Lemma generate_returns_valid_format_witness :
  validate_report_format
    (title_content (PyStr (py "T")) (PyStr (py "short body"))) = true.
Proof.
  apply (generate_returns_valid_format (scripted script_short_third)
           (py "eng") topic0 [] 0%nat 3%nat).
  vm_compute. reflexivity.
Defined.

End SynthesisFacts.

(** ** Further properties of the relevance filter
    (src/analyzers/news_filter.py) *)

Module FilterFacts.

Import NewsFilter.

(** Every value of the table is one of [ids]. *)
Definition values_in (ids : list (list N)) (m : gmap (list N) (list N))
  : Prop :=
  forall k v, m !! k = Some v -> In v ids.

Lemma values_in_insert (ids : list (list N)) (m : gmap (list N) (list N))
  (k v : list N) :
  values_in ids m -> In v ids -> values_in ids (<[k := v]> m).
Proof.
  intros Hm Hv k' v' Hl. destruct (decide (k = k')) as [-> | Hne].
  - rewrite lookup_insert_eq in Hl. injection Hl as <-. exact Hv.
  - rewrite lookup_insert_ne in Hl by exact Hne. eapply Hm. exact Hl.
Qed.

Lemma add_id_mapping_values (E : externals) (ids : list (list N))
  (news : list (list N * pyval)) (m m' : gmap (list N) (list N)) :
  values_in ids m ->
  In (py_str E (dict_get_default news k_id (PyStr []))) ids ->
  add_id_mapping E news m = Returns m' ->
  values_in ids m'.
Proof.
  intros Hm Hid. unfold add_id_mapping.
  set (news_id := py_str E (dict_get_default news k_id (PyStr []))) in *.
  assert (H1 : values_in ids (<[news_id := news_id]> m))
    by (apply values_in_insert; assumption).
  assert (H2 : forall m2,
    match dict_get news k_id with
    | Some (PyDict oid_dict) =>
        match dict_get oid_dict (py "$oid") with
        | Some (PyStr oid) =>
            Returns (<[oid := news_id]> (<[news_id := news_id]> m))
        | Some (PyList _) | Some (PyDict _) => Raises TypeError
        | _ => Returns (<[news_id := news_id]> m)
        end
    | _ => Returns (<[news_id := news_id]> m)
    end = Returns m2 -> values_in ids m2).
  { intros m2.
    destruct (dict_get news k_id) as [[| | | | | |oid_dict]|];
      try (intros H; injection H as <-; exact H1).
    destruct (dict_get oid_dict (py "$oid")) as [[| | | |oid| |]|];
      try discriminate; intros H; injection H as <-; try exact H1.
    apply values_in_insert; assumption. }
  destruct (match dict_get news k_id with Some (PyDict _) => _ | _ => _ end)
    as [m2|e]; [|discriminate].
  specialize (H2 m2 eq_refl).
  destruct (dict_get news (py "id")) as [v|]; intros H; injection H as <-.
  - apply values_in_insert; assumption.
  - exact H2.
Qed.

Lemma build_id_mapping_values (E : externals) (ids : list (list N))
  (news_list : list (list (list N * pyval))) :
  (forall i, In i (all_ids E news_list) -> In i ids) ->
  forall m m',
    values_in ids m ->
    build_id_mapping E news_list m = Returns m' ->
    values_in ids m'.
Proof.
  induction news_list as [|news rest IH]; intros Hsub m m' Hm; simpl.
  - intros H. injection H as <-. exact Hm.
  - destruct (add_id_mapping E news m) as [m1|e] eqn:Hadd; [|discriminate].
    apply IH.
    + intros i Hi. apply Hsub. right. exact Hi.
    + eapply add_id_mapping_values; [exact Hm | | exact Hadd].
      apply Hsub. left. reflexivity.
Qed.

Lemma resolve_values (ids : list (list N)) (m : gmap (list N) (list N))
  (x i : list N) :
  values_in ids m -> In i (resolve m x) -> In i ids.
Proof.
  intros Hm. unfold resolve. destruct (m !! x) as [v|] eqn:Hx.
  - intros [<- | []]. eapply Hm. exact Hx.
  - intros [].
Qed.

Lemma strategies_values (E : externals) (ids : list (list N))
  (m : gmap (list N) (list N)) (response i : list N) :
  values_in ids m ->
  (In i (explicit_line_ids m response) -> In i ids)
  /\ (In i (embedded_json_ids E m response) -> In i ids)
  /\ (In i (numeric_pattern_ids E m response) -> In i ids).
Proof.
  intros Hm. split; [|split].
  - unfold explicit_line_ids. rewrite in_flat_map.
    intros (line & _ & Hin).
    destruct (split_once (py "Article ID:") (strip line)) as [[pre rest]|];
      [|destruct Hin].
    eapply resolve_values; eassumption.
  - unfold embedded_json_ids.
    destruct (find_char 123 response) as [json_start|]; [|intros []].
    destruct (rfind_char 125 response) as [json_end|]; [|intros []].
    destruct (json_start <? json_end)%nat; [|intros []].
    destruct (json_loads E _) as [[| | | | | |json_data]|]; try (intros []).
    rewrite in_flat_map. intros (key & _ & Hin).
    destruct (dict_get json_data key) as [[| | | | |items|]|];
      try (destruct Hin).
    apply in_flat_map in Hin. destruct Hin as (item & _ & Hin).
    destruct item as [| | | |article_id| |d]; try (destruct Hin).
    + eapply resolve_values; eassumption.
    + destruct (dict_get d k_id) as [v|]; [|destruct Hin].
      eapply resolve_values; eassumption.
  - unfold numeric_pattern_ids. rewrite in_flat_map.
    intros (line & _ & Hin).
    apply in_flat_map in Hin. destruct Hin as (pat & _ & Hin).
    apply in_flat_map in Hin. destruct Hin as (mt & _ & Hin).
    eapply resolve_values; eassumption.
Qed.

(** X8.  Whatever the response, the parsing cascade returns only ids of
    the candidates it was given, and it returns at least one id when there
    is at least one candidate. *)
Theorem parse_news_filtering_within_candidates (E : externals)
  (response : list N) (news_list : list (list (list N * pyval))) :
  (forall i, In i (_parse_news_filtering E response news_list) ->
             In i (all_ids E news_list))
  /\ (news_list <> [] -> _parse_news_filtering E response news_list <> []).
Proof.
  assert (Hall : news_list <> [] -> all_ids E news_list <> []).
  { destruct news_list; [congruence | discriminate]. }
  unfold _parse_news_filtering.
  destruct (build_id_mapping E news_list empty) as [m|e] eqn:Hm.
  - assert (Hv : values_in (all_ids E news_list) m).
    { apply (build_id_mapping_values E _ news_list (fun i H => H) empty m);
        [|exact Hm].
      intros k v Hl. rewrite lookup_empty in Hl. discriminate. }
    cbv zeta.
    destruct (explicit_line_ids m response) as [|a la] eqn:Ha.
    + destruct (embedded_json_ids E m response) as [|b lb] eqn:Hb.
      * destruct (numeric_pattern_ids E m response) as [|c lc] eqn:Hc.
        -- split; [auto | exact Hall].
        -- split; [|discriminate]. intros i Hi. rewrite <- Hc in Hi.
           destruct (strategies_values E _ m response i Hv) as (_ & _ & S3).
           apply S3. exact Hi.
      * split; [|discriminate]. intros i Hi. rewrite <- Hb in Hi.
        destruct (strategies_values E _ m response i Hv) as (_ & S2 & _).
        apply S2. exact Hi.
    + split; [|discriminate]. intros i Hi. rewrite <- Ha in Hi.
      destruct (strategies_values E _ m response i Hv) as (S1 & _ & _).
      apply S1. exact Hi.
  - split; [auto | exact Hall].
Qed.

Lemma id_lookup_from (related : list NewsArticle)
  (m : gmap (list N) NewsArticle) (k : list N) (a : NewsArticle) :
  fold_left (fun m news => <[str_of_id (id news) := news]> m) related m !! k
    = Some a ->
  In a related \/ m !! k = Some a.
Proof.
  revert m. induction related as [|news rest IH]; intros m; simpl.
  - auto.
  - intros H. destruct (IH _ H) as [Hin | Hl]; [auto|].
    destruct (decide (str_of_id (id news) = k)) as [<- | Hne].
    + rewrite lookup_insert_eq in Hl. injection Hl as <-. auto.
    + rewrite lookup_insert_ne in Hl by exact Hne. auto.
Qed.

Lemma id_lookup_In (related : list NewsArticle) (k : list N)
  (a : NewsArticle) :
  id_lookup related !! k = Some a -> In a related.
Proof.
  intros H. destruct (id_lookup_from related empty k a H) as [Hin | Hl];
    [exact Hin|].
  rewrite lookup_empty in Hl. discriminate.
Qed.

Lemma firstn_subset {A : Type} (k : nat) (l : list A) (a : A) :
  In a (firstn k l) -> In a l.
Proof.
  revert l. induction k as [|k IH]; intros l; simpl.
  - intros [].
  - destruct l as [|x l]; [intros [] |].
    intros [-> | H]; [left; reflexivity | right; apply IH; exact H].
Qed.

(** X9.  [filter_related_news] never raises and never invents an article:
    what it returns are articles of the batch whose id is among the topic's
    article ids.  It calls the backend at most once, and not at all when no
    article of the batch belongs to the topic, in which case it returns the
    empty list. *)
Theorem filter_returns_topic_articles (E : externals) (topic : Topic)
  (news_list : list NewsArticle) (n : nat) :
  exists l,
    fst (filter_related_news E topic news_list n) = Returns l
    /\ (forall a, In a l ->
          In a news_list
          /\ id_in (str_of_id (id a)) (article_ids topic) = true)
    /\ (snd (filter_related_news E topic news_list n) <= n + 1)%nat
    /\ (topic_related_news topic news_list = [] ->
        l = [] /\ snd (filter_related_news E topic news_list n) = n).
Proof.
  assert (Hrel : forall a, In a (topic_related_news topic news_list) ->
            In a news_list
            /\ id_in (str_of_id (id a)) (article_ids topic) = true).
  { intros a Ha. unfold topic_related_news in Ha.
    apply filter_In in Ha. exact Ha. }
  unfold filter_related_news.
  destruct (topic_related_news topic news_list) as [|r rs] eqn:Hr.
  - exists []. unfold try_except, ret. simpl.
    repeat split; try lia; intros a [].
  - unfold try_except, bind, lift, chat, ret.
    destruct (get_prompt E NEWS_FILTERING (py "system") []) as [sp|e1].
    + destruct (get_prompt E NEWS_FILTERING (py "user") _) as [up|e2].
      * destruct (backend E n sp up) as [response|e3].
        -- eexists. split; [reflexivity|]. split; [|split].
           ++ intros a Ha. apply in_flat_map in Ha.
              destruct Ha as (article_id & _ & Ha).
              destruct (id_lookup (r :: rs) !! article_id) as [news|] eqn:Hl;
                [|destruct Ha].
              destruct Ha as [<- | []]. apply Hrel.
              apply (id_lookup_In _ _ _ Hl).
           ++ simpl. lia.
           ++ discriminate.
        -- exists (firstn 10 (r :: rs)). split; [reflexivity|].
           split; [|split].
           ++ intros a Ha. apply Hrel. eapply firstn_subset. exact Ha.
           ++ simpl. lia.
           ++ discriminate.
      * exists (firstn 10 (r :: rs)). split; [reflexivity|].
        split; [|split].
        -- intros a Ha. apply Hrel. eapply firstn_subset. exact Ha.
        -- simpl. lia.
        -- discriminate.
    + exists (firstn 10 (r :: rs)). split; [reflexivity|].
      split; [|split].
      * intros a Ha. apply Hrel. eapply firstn_subset. exact Ha.
      * simpl. lia.
      * discriminate.
Qed.

End FilterFacts.

(** ** An explicit answer of the backend is read back
    (src/analyzers/news_filter.py) *)

Module FilterAnswer.

Import NewsFilter.

(** An id the first strategy reads back as it is: not empty, without
    whitespace, comma, colon or quote. *)
Definition plain_char (c : N) : Prop :=
  isspace c = false /\ c <> 0x2c%N /\ c <> 0x3a%N /\ c <> 0x22%N
  /\ c <> 0x27%N.

Definition plain_id (i : list N) : Prop := i <> [] /\ Forall plain_char i.

(** The answer the prompt asks for: one "Article ID: <id>" line per chosen
    article. *)
Definition answer (chosen : list (list N)) : list N :=
  join [0x0a%N] (List.map (fun i => py "Article ID: " ++ i) chosen).

Lemma rstrip_nonspace (s : list N) :
  Forall (fun c => isspace c = false) s -> rstrip s = s.
Proof.
  induction 1 as [|c s Hc _ IH]; simpl; [reflexivity|].
  rewrite IH, Hc. destruct s; reflexivity.
Qed.

Lemma rstrip_app_fixed (p s : list N) :
  s <> [] -> rstrip s = s -> rstrip (p ++ s) = p ++ s.
Proof.
  intros Hne Hs. induction p as [|c p IH]; simpl; [exact Hs|].
  rewrite IH. destruct (p ++ s) eqn:Hps; [|reflexivity].
  apply app_eq_nil in Hps. destruct Hps as [_ Hps]. congruence.
Qed.

Lemma lstrip_nonspace_head (c : N) (s : list N) :
  isspace c = false -> lstrip (c :: s) = c :: s.
Proof. intros H. simpl. rewrite H. reflexivity. Qed.

Lemma strip_plain (i : list N) : plain_id i -> strip i = i.
Proof.
  intros [Hne Hp]. unfold strip.
  assert (Hns : Forall (fun c => isspace c = false) i).
  { eapply List.Forall_impl; [|exact Hp]. intros c Hc. apply Hc. }
  destruct i as [|c i]; [congruence|].
  apply Forall_cons in Hns. destruct Hns as [Hc Hi].
  rewrite lstrip_nonspace_head by exact Hc.
  apply rstrip_nonspace. constructor; assumption.
Qed.

Lemma lstrip_char_other (c : N) (s : list N) :
  Forall (fun x => x <> c) s -> lstrip_char c s = s.
Proof.
  destruct 1 as [|x s Hx _]; simpl; [reflexivity|].
  destruct (N.eqb_spec x c); [congruence | reflexivity].
Qed.

Lemma strip_char_other (c : N) (s : list N) :
  Forall (fun x => x <> c) s -> strip_char c s = s.
Proof.
  intros H. unfold strip_char. rewrite (lstrip_char_other c s H).
  rewrite lstrip_char_other.
  - apply rev_involutive.
  - apply List.Forall_rev. exact H.
Qed.

Lemma explicit_line_plain (m : gmap (list N) (list N)) (i : list N) :
  plain_id i ->
  m !! i = Some i ->
  (let line := strip (py "Article ID: " ++ i) in
   match split_once (py "Article ID:") line with
   | Some (_, rest) =>
       resolve m
         (hd []
            (split_char 0x20
               (strip_char 0x27 (strip_char 0x22 (strip_char 0x3a
                  (strip_char 0x2c (strip rest)))))))
   | None => []
   end) = [i].
Proof.
  intros Hplain Hm. cbv zeta.
  pose proof Hplain as [Hne Hp].
  assert (Hline : strip (py "Article ID: " ++ i) = py "Article ID: " ++ i).
  { unfold strip.
    change (py "Article ID: " ++ i) with (65%N :: (py "rticle ID: " ++ i)).
    rewrite lstrip_nonspace_head by reflexivity.
    change (65%N :: (py "rticle ID: " ++ i)) with (py "Article ID: " ++ i).
    apply rstrip_app_fixed; [exact Hne|].
    apply rstrip_nonspace.
    eapply List.Forall_impl; [|exact Hp]. intros c Hc. apply Hc. }
  rewrite Hline.
  assert (Hsplit : split_once (py "Article ID:") (py "Article ID: " ++ i)
                   = Some ([], 32%N :: i)).
  { unfold split_once, split_once_from.
    change (py "Article ID: " ++ i)
      with (py "Article ID:" ++ (32%N :: i)).
    destruct (py "Article ID:" ++ 32%N :: i) eqn:Hl; [discriminate|].
    rewrite <- Hl. rewrite startswith_app. rewrite Hl.
    rewrite <- Hl. reflexivity. }
  rewrite Hsplit.
  assert (Hrest : strip (32%N :: i) = i).
  { unfold strip. simpl lstrip. change (isspace 32) with true. cbv iota.
    change (rstrip (lstrip i) = i). apply (strip_plain i Hplain). }
  rewrite Hrest.
  rewrite (strip_char_other 0x2c i)
    by (eapply List.Forall_impl; [|exact Hp]; intros c Hc; apply Hc).
  rewrite (strip_char_other 0x3a i)
    by (eapply List.Forall_impl; [|exact Hp]; intros c Hc; apply Hc).
  rewrite (strip_char_other 0x22 i)
    by (eapply List.Forall_impl; [|exact Hp]; intros c Hc; apply Hc).
  rewrite (strip_char_other 0x27 i)
    by (eapply List.Forall_impl; [|exact Hp]; intros c Hc; apply Hc).
  unfold split_char.
  rewrite (SynthesisFacts.split_char_from_no_sep 0x20 i []).
  - simpl. unfold resolve. rewrite Hm. reflexivity.
  - intros Hin. apply (proj1 (List.Forall_forall _ _) Hp) in Hin.
    destruct Hin as [Hsp _]. discriminate.
Qed.

Lemma split_char_from_app (sep : N) (s t cur : list N) :
  ~ In sep s ->
  split_char_from sep cur (s ++ sep :: t)
  = (rev cur ++ s) :: split_char_from sep [] t.
Proof.
  revert cur. induction s as [|c s IH]; intros cur Hno; simpl.
  - rewrite N.eqb_refl, app_nil_r. reflexivity.
  - destruct (N.eqb_spec c sep) as [-> | Hne].
    + exfalso. apply Hno. left. reflexivity.
    + rewrite IH.
      * simpl. rewrite <- app_assoc. reflexivity.
      * intros Hin. apply Hno. right. exact Hin.
Qed.

Lemma join_cons_cons (sep : N) (l l2 : list N) (rest : list (list N)) :
  join [sep] (l :: l2 :: rest) = l ++ sep :: join [sep] (l2 :: rest).
Proof. reflexivity. Qed.

Lemma split_join (sep : N) (lines : list (list N)) :
  lines <> [] ->
  Forall (fun l => ~ In sep l) lines ->
  split_char sep (join [sep] lines) = lines.
Proof.
  unfold split_char. induction lines as [|l rest IH]; [congruence|].
  intros _ Hall. apply Forall_cons in Hall. destruct Hall as [Hl Hrest].
  destruct rest as [|l2 rest].
  - simpl join.
    rewrite (SynthesisFacts.split_char_from_no_sep sep l [] Hl).
    reflexivity.
  - rewrite join_cons_cons.
    rewrite (split_char_from_app sep l _ [] Hl).
    rewrite IH; [reflexivity | discriminate | exact Hrest].
Qed.

Lemma candidates_mapped (E : externals) (related : list NewsArticle) :
  forall m, exists m',
    build_id_mapping E (List.map (simplify E) related) m = Returns m'
    /\ forall i,
         (In i (List.map (fun news => str_of_id (id news)) related)
          \/ m !! i = Some i) ->
         m' !! i = Some i.
Proof.
  induction related as [|news rest IH]; intros m; simpl.
  - exists m. split; [reflexivity|]. intros i [[] | H]. exact H.
  - unfold add_id_mapping. simpl.
    destruct (IH (<[str_of_id (id news) := str_of_id (id news)]> m))
      as (m' & Hb & Hl).
    exists m'. split; [exact Hb|].
    intros i [[<- | Hin] | Hm].
    + apply Hl. right. apply lookup_insert_eq.
    + apply Hl. left. exact Hin.
    + apply Hl. right.
      destruct (decide (str_of_id (id news) = i)) as [<- | Hne].
      * apply lookup_insert_eq.
      * rewrite lookup_insert_ne by exact Hne. exact Hm.
Qed.

(** X10.  An answer that names, one "Article ID: <id>" line each, candidate
    ids written without whitespace, comma, colon or quote is read back as
    exactly those ids, in the order and with the repetitions of the answer. *)
Theorem explicit_answer_read_back (E : externals)
  (related : list NewsArticle) (chosen : list (list N)) :
  chosen <> [] ->
  Forall
    (fun i =>
       plain_id i
       /\ In i (List.map (fun news => str_of_id (id news)) related))
    chosen ->
  _parse_news_filtering E (answer chosen) (List.map (simplify E) related)
  = chosen.
Proof.
  intros Hne Hchosen. unfold _parse_news_filtering.
  destruct (candidates_mapped E related empty) as (m & Hb & Hl).
  rewrite Hb. cbv zeta.
  assert (Hexp : explicit_line_ids m (answer chosen) = chosen).
  { unfold explicit_line_ids, answer.
    rewrite split_join.
    - clear Hne.
      induction Hchosen as [|i rest [Hp Hin] _ IH];
        cbn [List.map flat_map].
      + reflexivity.
      + rewrite IH.
        pose proof (explicit_line_plain m i Hp (Hl i (or_introl Hin))) as Hx.
        cbv zeta in Hx. rewrite Hx. reflexivity.
    - destruct chosen; [congruence | discriminate].
    - apply Forall_map. eapply List.Forall_impl; [|exact Hchosen].
      intros i [[_ Hp] _] Hin.
      apply in_app_or in Hin. destruct Hin as [Hin | Hin].
      + vm_compute in Hin. intuition discriminate.
      + apply (proj1 (List.Forall_forall _ _) Hp) in Hin.
        destruct Hin as [Hsp _]. discriminate. }
  rewrite Hexp. destruct chosen; [congruence | reflexivity].
Qed.

Lemma explicit_answer_read_back_witness :
  _parse_news_filtering failing_backend (answer [[0x42%N]; [0x41%N]; [0x42%N]])
    (List.map (simplify failing_backend) eleven_articles)
  = [[0x42%N]; [0x41%N]; [0x42%N]].
Proof.
  apply (explicit_answer_read_back failing_backend eleven_articles
           [[0x42%N]; [0x41%N]; [0x42%N]]).
  - discriminate.
  - repeat first
      [ apply List.Forall_cons | apply List.Forall_nil | split
      | discriminate | reflexivity
      | (vm_compute; repeat (first [left; reflexivity | right])) ].
Defined.

End FilterAnswer.

(** ** Further properties of the orchestrator
    (src/reporting/generators.py, src/reporting/formatters.py) *)

Module OrchestratorFacts.

Import Orchestrator NewsFilter ContentAnalyzer.

(** *** Backend calls of a task *)

(** [c] makes at most [k] backend calls. *)
Definition within {A : Type} (k : nat) (c : orch A) : Prop :=
  forall st, (calls (snd (c st)) <= calls st + k)%nat.

(** A collaborator that makes at most [k] backend calls. *)
Definition costs {A : Type} (k : nat) (c : comp A) : Prop :=
  forall n, (snd (c n) <= n + k)%nat.

Lemma within_weaken {A : Type} (a b : nat) (c : orch A) :
  (a <= b)%nat -> within a c -> within b c.
Proof. intros Hab Hc st. specialize (Hc st). lia. Qed.

Lemma within_oret {A : Type} (a : A) : within 0 (oret a).
Proof. intros st. simpl. lia. Qed.

Lemma within_olift {A : Type} (o : outcome A) : within 0 (olift o).
Proof. intros st. simpl. lia. Qed.

Lemma within_emit (ev : event) : within 0 (emit ev).
Proof. intros st. simpl. lia. Qed.

Lemma within_get_topic : within 0 get_topic.
Proof. intros st. simpl. lia. Qed.

Lemma within_set_topic (t : Topic) : within 0 (set_topic t).
Proof. intros st. simpl. lia. Qed.

Lemma within_call {A : Type} (k : nat) (c : comp A) :
  costs k c -> within k (call c).
Proof.
  intros Hc st. unfold call. specialize (Hc (calls st)).
  destruct (c (calls st)) as [o n]. simpl in *. exact Hc.
Qed.

Lemma within_obind {A B : Type} (a b : nat) (c : orch A) (k : A -> orch B) :
  within a c -> (forall x, within b (k x)) -> within (a + b) (obind c k).
Proof.
  intros Hc Hk st. unfold obind. specialize (Hc st).
  destruct (c st) as [[x|e] st1]; simpl in *.
  - specialize (Hk x st1). lia.
  - lia.
Qed.

Lemma within_otry {A : Type} (a b : nat) (c : orch A) (h : exn -> orch A) :
  within a c -> (forall e, within b (h e)) -> within (a + b) (otry c h).
Proof.
  intros Hc Hh st. unfold otry. specialize (Hc st).
  destruct (c st) as [[x|e] st1]; simpl in *.
  - lia.
  - specialize (Hh e st1). lia.
Qed.

Section Budget.

Context (E : externals) (R : region) (K : collaborators).
Context (f g v : nat).
Context (Hf : forall t l, costs f (filter_news K t l)).
Context (Hg : forall t l, costs g (generate K t l)).
Context (Hv : forall c t lo hi, costs v (validate K c t lo hi)).

Lemma within_regenerate (remaining : nat) (content_valid : bool)
  (retry_count : Z) (filtered_news : list NewsArticle) (rc : pyval) :
  within (remaining * g)
    (regenerate K remaining content_valid retry_count filtered_news rc).
Proof using Hg.
  revert content_valid retry_count rc.
  induction remaining as [|remaining IH]; intros content_valid retry_count rc.
  - simpl. apply within_oret.
  - cbn [regenerate]. destruct content_valid.
    + eapply within_weaken; [|apply within_oret]. lia.
    + change (S remaining * g)%nat with (g + remaining * g)%nat.
      apply (within_obind 0 _); [apply within_emit | intros _].
      apply (within_obind 0 _); [apply within_get_topic | intros topic].
      apply (within_obind 0 _); [apply within_emit | intros _].
      apply within_obind; [apply within_call, Hg | intros rc2].
      apply (within_obind 0 _); [apply within_olift | intros lacks].
      apply (within_obind 0 _); [|intros rc3; apply IH].
      destruct lacks; [|apply within_oret].
      apply (within_obind 0 0); [apply within_emit | intros _].
      destruct (negb (truthy rc2)); apply within_oret.
Qed.

Lemma within_synthesize_and_assemble (filtered_news : list NewsArticle) :
  within (g + (v + 3 * g)) (synthesize_and_assemble E R K filtered_news).
Proof using Hg Hv.
  unfold synthesize_and_assemble.
  apply (within_obind 0 _); [apply within_get_topic | intros topic].
  apply (within_obind 0 _); [apply within_emit | intros _].
  apply within_obind; [apply within_call, Hg | intros rc].
  apply (within_obind 0 _); [apply within_olift | intros lacks].
  apply (within_obind 0 _).
  { destruct lacks; [|apply within_oret].
    apply (within_obind 0 0); [apply within_emit | intros _].
    apply within_oret. }
  intros rc1.
  apply (within_obind 0 _); [apply within_emit | intros _].
  apply (within_obind 0 _); [apply within_olift | intros c].
  apply (within_obind 0 _); [apply within_olift | intros t].
  apply within_obind; [apply within_call, Hv | intros [content_valid wc]].
  replace (3 * g)%nat with (3 * g + 0)%nat by lia.
  apply within_obind; [apply within_regenerate | intros [rc2 retry_count]].
  apply (within_obind 0 0).
  { destruct (negb content_valid); [|apply within_oret].
    apply (within_obind 0 0); [apply within_emit | intros _].
    apply within_emit. }
  intros _.
  apply (within_obind 0 0); [apply within_emit | intros _].
  apply (within_obind 0 0); [apply within_olift | intros report].
  apply (within_obind 0 0); [apply within_emit | intros _].
  apply within_oret.
Qed.

Lemma within_process_topic (news_list : list NewsArticle) :
  within (f + (g + (v + 3 * g))) (process_topic E R K news_list).
Proof using Hf Hg Hv.
  unfold process_topic.
  replace (f + (g + (v + 3 * g)))%nat
    with (f + (g + (v + 3 * g)) + 0)%nat by lia.
  apply within_otry.
  - unfold process_topic_body.
    apply (within_obind 0 _); [apply within_get_topic | intros topic].
    apply (within_obind 0 _); [apply within_emit | intros _].
    apply (within_obind 0 _); [apply within_emit | intros _].
    apply within_obind; [apply within_call, Hf | intros filtered_news].
    destruct filtered_news as [|a l].
    + eapply within_weaken; [|apply (within_obind 0 0)];
        [lia | apply within_emit | intros _; apply within_oret].
    + apply (within_obind 0 _); [apply within_set_topic | intros _].
      apply within_synthesize_and_assemble.
  - intros e. apply (within_obind 0 0); [apply within_emit | intros _].
    apply within_oret.
Qed.

End Budget.

Lemma filter_costs (E : externals) (topic : Topic)
  (news_list : list NewsArticle) :
  costs 1 (filter_related_news E topic news_list).
Proof.
  intros n. unfold filter_related_news, try_except, bind, lift, chat, ret.
  destruct (topic_related_news topic news_list) as [|r rs]; [simpl; lia|].
  destruct (get_prompt E NEWS_FILTERING (py "system") []) as [sp|e1];
    [|simpl; lia].
  destruct (get_prompt E NEWS_FILTERING (py "user") _) as [up|e2];
    [|simpl; lia].
  destruct (backend E n sp up) as [response|e3]; simpl; lia.
Qed.

Lemma validate_costs (E : externals) (c t : pyval) (lo hi : Z) :
  costs 1 (QualityCheck.validate_content E c t lo hi).
Proof.
  intros n. unfold QualityCheck.validate_content.
  destruct (negb (validate_report_format (title_content t c)));
    [simpl; lia|].
  unfold bind at 1. unfold lift at 1.
  destruct (validate_word_count_of c _ _) as [[basic wc]|e]; [|simpl; lia].
  destruct (negb basic); [simpl; lia|].
  unfold try_except, bind, lift, chat, ret.
  destruct (get_prompt E VALIDATION (py "system") []) as [sp|e1];
    [|simpl; lia].
  destruct (get_prompt E VALIDATION (py "user") _) as [up|e2];
    [|simpl; lia].
  destruct (backend E n sp up) as [response|e3]; simpl; lia.
Qed.

(** X11.  A task of the pipeline calls the backend at most 14 times: once to
    filter, at most three times per synthesis (the first and three
    regenerations), and once to judge the first content. *)
Theorem process_topic_backend_calls (E : externals) (R : region)
  (news_list : list NewsArticle) (topic : Topic) :
  (calls (snd (process_topic E R (pipeline E R) news_list (start topic)))
   <= 14)%nat.
Proof.
  pose proof (within_process_topic E R (pipeline E R) 1 3 1
                (fun t l => filter_costs E t l)
                (fun t l n => generate_calls E (source_lang R) t l n)
                (fun c t lo hi => validate_costs E c t lo hi)
                news_list (start topic)) as H.
  simpl in H. exact H.
Qed.

(** *** What a task logs and what it returns *)

(** [c] only appends events satisfying [Pe] to the record, and whatever it
    returns satisfies [Pv]. *)
Definition obeys {A : Type} (Pe : event -> Prop) (Pv : A -> Prop)
  (c : orch A) : Prop :=
  forall st,
    (exists evs, record (snd (c st)) = record st ++ evs /\ Forall Pe evs)
    /\ (forall a, fst (c st) = Returns a -> Pv a).

Lemma obeys_oret {A : Type} (Pe : event -> Prop) (Pv : A -> Prop) (a : A) :
  Pv a -> obeys Pe Pv (oret a).
Proof.
  intros Ha st. split.
  - exists []. simpl. rewrite app_nil_r. auto.
  - simpl. intros a' H. injection H as <-. exact Ha.
Qed.

Lemma obeys_olift {A : Type} (Pe : event -> Prop) (Pv : A -> Prop)
  (o : outcome A) :
  (forall a, o = Returns a -> Pv a) -> obeys Pe Pv (olift o).
Proof.
  intros Ho st. split.
  - exists []. simpl. rewrite app_nil_r. auto.
  - simpl. exact Ho.
Qed.

Lemma obeys_emit (Pe : event -> Prop) (Pv : unit -> Prop) (ev : event) :
  Pe ev -> Pv tt -> obeys Pe Pv (emit ev).
Proof.
  intros He Hv st. split.
  - exists [ev]. simpl. auto.
  - simpl. intros a H. injection H as <-. exact Hv.
Qed.

Lemma obeys_get_topic (Pe : event -> Prop) (Pv : Topic -> Prop) :
  (forall t, Pv t) -> obeys Pe Pv get_topic.
Proof.
  intros Hv st. split.
  - exists []. simpl. rewrite app_nil_r. auto.
  - intros a _. apply Hv.
Qed.

Lemma obeys_call {A : Type} (Pe : event -> Prop) (Pv : A -> Prop)
  (c : comp A) :
  (forall n a n', c n = (Returns a, n') -> Pv a) -> obeys Pe Pv (call c).
Proof.
  intros Hc st. unfold call.
  destruct (c (calls st)) as [o n] eqn:Hrun. simpl. split.
  - exists []. rewrite app_nil_r. auto.
  - intros a ->. apply (Hc _ _ _ Hrun).
Qed.

Lemma obeys_obind {A B : Type} (Pe : event -> Prop) (Pa : A -> Prop)
  (Pb : B -> Prop) (c : orch A) (k : A -> orch B) :
  obeys Pe Pa c -> (forall a, Pa a -> obeys Pe Pb (k a)) ->
  obeys Pe Pb (obind c k).
Proof.
  intros Hc Hk st. unfold obind.
  destruct (Hc st) as ((evs & Hr & Hp) & Hv).
  destruct (c st) as [[a|e] st1]; simpl in *.
  - destruct (Hk a (Hv a eq_refl) st1) as ((evs' & Hr' & Hp') & Hv').
    split; [|exact Hv'].
    exists (evs ++ evs'). split.
    + rewrite Hr', Hr, app_assoc. reflexivity.
    + apply Forall_app. auto.
  - split; [|discriminate]. exists evs. auto.
Qed.

(** No placeholder was substituted for the synthesizer's answer. *)
Definition no_fallback (ev : event) : Prop :=
  ev <> Log WARNING GenerationFallback
  /\ ev <> Log WARNING RegenerationFallback.

(** The report is assembled from [filtered_news] and a true title and a true
    content. *)
Definition assembled_from (E : externals) (R : region)
  (filtered_news : list NewsArticle) (report : Report) : Prop :=
  truthy (r_title report) = true
  /\ (exists c,
        truthy c = true
        /\ r_content report = append_reference_news E R c filtered_news)
  /\ r_reference_news report
     = List.map
         (fun news =>
            {| ref_title := title news; ref_url := url news;
               ref_source := source news |})
         filtered_news.

Lemma valid_format_not_lacking (rc : pyval) :
  validate_report_format rc = true -> lacks_content rc = Returns false.
Proof.
  unfold validate_report_format, lacks_content, content_get,
    dict_get_default.
  destruct rc as [| | | | | |d]; try discriminate.
  destruct (dict_get d k_title) as [t|] eqn:Ht; [|discriminate].
  destruct (dict_get d k_content) as [c|] eqn:Hc; [|discriminate].
  intros H. apply andb_prop in H as [_ Hcv].
  destruct d; [discriminate|]. simpl. rewrite Hcv. reflexivity.
Qed.

Lemma valid_format_compiles (E : externals) (R : region) (topic : Topic)
  (rc : pyval) (filtered_news : list NewsArticle) (report : Report) :
  validate_report_format rc = true ->
  compile_report E R topic rc filtered_news = Returns report ->
  assembled_from E R filtered_news report.
Proof.
  unfold validate_report_format, compile_report, subscript.
  destruct rc as [| | | | | |d]; try discriminate.
  destruct (dict_get d k_title) as [t|]; [|discriminate].
  destruct (dict_get d k_content) as [c|]; [|discriminate].
  intros H. apply andb_prop in H as [Ht Hc].
  intros Hr. injection Hr as <-. unfold assembled_from. simpl.
  split; [exact Ht|]. split; [|reflexivity]. exists c. auto.
Qed.

Section SoundSynthesizer.

Context (E : externals) (R : region) (K : collaborators).
Context (Hgen : forall t l n rc n',
            generate K t l n = (Returns rc, n') ->
            validate_report_format rc = true).

Lemma obeys_regenerate (remaining : nat) (content_valid : bool)
  (retry_count : Z) (filtered_news : list NewsArticle) (rc : pyval) :
  validate_report_format rc = true ->
  obeys no_fallback (fun r => validate_report_format (fst r) = true)
    (regenerate K remaining content_valid retry_count filtered_news rc).
Proof using Hgen.
  revert content_valid retry_count rc.
  induction remaining as [|remaining IH];
    intros content_valid retry_count rc Hrc.
  - simpl. apply obeys_oret. exact Hrc.
  - cbn [regenerate]. destruct content_valid; [apply obeys_oret; exact Hrc|].
    apply (obeys_obind _ (fun _ => True));
      [apply obeys_emit; [split; discriminate | exact I] | intros _ _].
    apply (obeys_obind _ (fun _ => True));
      [apply obeys_get_topic; auto | intros topic _].
    apply (obeys_obind _ (fun _ => True));
      [apply obeys_emit; [split; discriminate | exact I] | intros _ _].
    apply (obeys_obind _ (fun rc2 => validate_report_format rc2 = true));
      [apply obeys_call; intros n a n'; apply Hgen | intros rc2 Hrc2].
    apply (obeys_obind _ (fun lacks => lacks = false)).
    { apply obeys_olift. intros a Ha.
      rewrite (valid_format_not_lacking rc2 Hrc2) in Ha. congruence. }
    intros lacks ->.
    apply (obeys_obind _ (fun rc3 => validate_report_format rc3 = true));
      [apply obeys_oret; exact Hrc2 | intros rc3 Hrc3].
    apply IH. exact Hrc3.
Qed.

Lemma obeys_synthesize_and_assemble (filtered_news : list NewsArticle) :
  obeys no_fallback
    (fun r => exists report,
                r = Some report /\ assembled_from E R filtered_news report)
    (synthesize_and_assemble E R K filtered_news).
Proof using Hgen.
  unfold synthesize_and_assemble.
  apply (obeys_obind _ (fun _ => True));
    [apply obeys_get_topic; auto | intros topic _].
  apply (obeys_obind _ (fun _ => True));
    [apply obeys_emit; [split; discriminate | exact I] | intros _ _].
  apply (obeys_obind _ (fun rc => validate_report_format rc = true));
    [apply obeys_call; intros n a n'; apply Hgen | intros rc Hrc].
  apply (obeys_obind _ (fun lacks => lacks = false)).
  { apply obeys_olift. intros a Ha.
    rewrite (valid_format_not_lacking rc Hrc) in Ha. congruence. }
  intros lacks ->.
  apply (obeys_obind _ (fun rc1 => validate_report_format rc1 = true));
    [apply obeys_oret; exact Hrc | intros rc1 Hrc1].
  apply (obeys_obind _ (fun _ => True));
    [apply obeys_emit; [split; discriminate | exact I] | intros _ _].
  apply (obeys_obind _ (fun _ => True));
    [apply obeys_olift; auto | intros c _].
  apply (obeys_obind _ (fun _ => True));
    [apply obeys_olift; auto | intros t _].
  apply (obeys_obind _ (fun _ => True));
    [apply obeys_call; auto | intros [content_valid wc] _].
  apply (obeys_obind _ (fun r => validate_report_format (fst r) = true));
    [apply obeys_regenerate; exact Hrc1 | intros [rc2 retry_count] Hrc2].
  simpl in Hrc2.
  apply (obeys_obind _ (fun _ => True)).
  { destruct (negb content_valid); [|apply obeys_oret; exact I].
    apply (obeys_obind _ (fun _ => True));
      [apply obeys_emit; [split; discriminate | exact I] | intros _ _].
    apply obeys_emit; [split; discriminate | exact I]. }
  intros _ _.
  apply (obeys_obind _ (fun _ => True));
    [apply obeys_emit; [split; discriminate | exact I] | intros _ _].
  apply (obeys_obind _ (assembled_from E R filtered_news)).
  { apply obeys_olift. intros report Hreport.
    apply (valid_format_compiles E R topic rc2 filtered_news report Hrc2
             Hreport). }
  intros report Hreport.
  apply (obeys_obind _ (fun _ => True));
    [apply obeys_emit; [split; discriminate | exact I] | intros _ _].
  apply obeys_oret. exists report. auto.
Qed.

Lemma sound_synthesizer_report (news_list : list NewsArticle) (topic : Topic)
  (report : Report) :
  fst (process_topic E R K news_list (start topic)) = Returns (Some report) ->
  exists filtered_news n,
    filter_news K topic news_list O = (Returns filtered_news, n)
    /\ filtered_news <> []
    /\ assembled_from E R filtered_news report.
Proof using Hgen.
  unfold process_topic, otry. rewrite process_topic_body_start.
  destruct (filter_news K topic news_list 0%nat) as [[f|e] n] eqn:Hf.
  - destruct f as [|a l]; [discriminate|].
    pose proof (obeys_synthesize_and_assemble (a :: l)
                  (after_filter (refine R topic (a :: l)) n)) as [_ Hv].
    destruct (synthesize_and_assemble E R K (a :: l) _) as [[r|e] st'].
    + simpl. intros H. injection H as ->.
      destruct (Hv (Some report) eq_refl) as (report' & Heq & Hok).
      injection Heq as <-.
      exists (a :: l), n. split; [reflexivity|]. split; [discriminate|].
      exact Hok.
    + simpl. discriminate.
  - simpl. discriminate.
Qed.

Lemma sound_synthesizer_no_fallback (news_list : list NewsArticle)
  (topic : Topic) :
  Forall no_fallback
    (record (snd (process_topic E R K news_list (start topic)))).
Proof using Hgen.
  unfold process_topic, otry. rewrite process_topic_body_start.
  destruct (filter_news K topic news_list 0%nat) as [[f|e] n] eqn:Hf.
  - destruct f as [|a l].
    + simpl. repeat constructor; discriminate.
    + pose proof (obeys_synthesize_and_assemble (a :: l)
                    (after_filter (refine R topic (a :: l)) n))
        as [(evs & Hr & Hp) _].
      destruct (synthesize_and_assemble E R K (a :: l) _) as [[r|e] st'];
        simpl in *.
      * rewrite Hr. repeat constructor; try discriminate. exact Hp.
      * rewrite Hr. apply Forall_app. split.
        -- repeat constructor; try discriminate. exact Hp.
        -- repeat constructor; discriminate.
  - simpl. repeat constructor; discriminate.
Qed.

End SoundSynthesizer.

Lemma pipeline_generate_format (E : externals) (R : region) (t : Topic)
  (l : list NewsArticle) (n : nat) (rc : pyval) (n' : nat) :
  generate (pipeline E R) t l n = (Returns rc, n') ->
  validate_report_format rc = true.
Proof.
  cbn [generate pipeline].
  unfold generate_report_content, try_except, bind, lift, raise.
  destruct (get_prompt E REPORT_GENERATION (py "system") []) as [sp|e];
    cbv beta iota; [|discriminate].
  destruct (get_prompt E REPORT_GENERATION (py "user") _) as [up|e];
    cbv beta iota; [|discriminate].
  destruct (attempts E sp up [0; 1; 2] n) as [[r|e] n1] eqn:Hatt;
    [|discriminate].
  intros H. injection H as <- <-.
  apply (SynthesisFacts.attempts_result E sp up [0; 1; 2] n n1 r);
    [|exact Hatt].
  simpl. repeat constructor; discriminate.
Qed.

(** X12.  A report produced by the pipeline is assembled from the articles
    the filter kept, of which there is at least one: its title is a true
    value, its body is a true synthesised content followed by the reference
    list of those articles, and its reference entries are those articles in
    order. *)
Theorem pipeline_report_assembled (E : externals) (R : region)
  (news_list : list NewsArticle) (topic : Topic) (report : Report) :
  fst (process_topic E R (pipeline E R) news_list (start topic))
  = Returns (Some report) ->
  exists filtered_news n,
    filter_related_news E topic news_list O = (Returns filtered_news, n)
    /\ filtered_news <> []
    /\ truthy (r_title report) = true
    /\ (exists c,
          truthy c = true
          /\ r_content report = append_reference_news E R c filtered_news)
    /\ r_reference_news report
       = List.map
           (fun news =>
              {| ref_title := title news; ref_url := url news;
                 ref_source := source news |})
           filtered_news.
Proof.
  intros H.
  destruct (sound_synthesizer_report E R (pipeline E R)
              (pipeline_generate_format E R) news_list topic report H)
    as (f & n & Hf & Hne & Ht & Hc & Hr).
  exists f, n. auto.
Qed.

(** X13.  With its own synthesizer the pipeline never substitutes a
    placeholder report: no task logs the warning of either fallback, whether
    it ends with a report or not. *)
Theorem pipeline_never_falls_back (E : externals) (R : region)
  (news_list : list NewsArticle) (topic : Topic) :
  let run := process_topic E R (pipeline E R) news_list (start topic) in
  ~ In (Log WARNING GenerationFallback) (record (snd run))
  /\ ~ In (Log WARNING RegenerationFallback) (record (snd run)).
Proof.
  cbv zeta.
  pose proof (sound_synthesizer_no_fallback E R (pipeline E R)
                (pipeline_generate_format E R) news_list topic) as H.
  rewrite List.Forall_forall in H.
  split; intros Hin; apply H in Hin; destruct Hin as [H1 H2]; congruence.
Qed.

Lemma pipeline_report_assembled_witness :
  exists report,
    fst (process_topic good_second plain_region
           (pipeline good_second plain_region)
           eleven_articles (start topic_of_eleven))
    = Returns (Some report)
    /\ truthy (r_title report) = true.
Proof.
  assert (H : exists report,
            fst (process_topic good_second plain_region
                   (pipeline good_second plain_region)
                   eleven_articles (start topic_of_eleven))
            = Returns (Some report)).
  { eexists. vm_compute. reflexivity. }
  destruct H as [report H]. exists report. split; [exact H|].
  destruct (pipeline_report_assembled good_second plain_region
              eleven_articles topic_of_eleven report H)
    as (f & n & _ & _ & Ht & _).
  exact Ht.
Defined.

(** *** The steps a task goes through *)

(** The steps entered, in order. *)
Definition phases (evs : list event) : list phase :=
  flat_map (fun ev => match ev with Enter p => [p] | Log _ _ => [] end) evs.

Lemma phases_app (a b : list event) : phases (a ++ b) = phases a ++ phases b.
Proof. apply flat_map_app. Qed.

Lemma obind_returns {A B : Type} (c : orch A) (k : A -> orch B)
  (st st' : task_state) (b : B) :
  obind c k st = (Returns b, st') ->
  exists a st1, c st = (Returns a, st1) /\ k a st1 = (Returns b, st').
Proof.
  unfold obind. destruct (c st) as [[a|e] st1]; [eauto | discriminate].
Qed.

Lemma emit_returns (ev : event) (st st' : task_state) (u : unit) :
  emit ev st = (Returns u, st') ->
  phases (record st')
  = phases (record st) ++ match ev with Enter p => [p] | Log _ _ => [] end.
Proof.
  unfold emit. intros H. injection H as _ <-. simpl.
  rewrite phases_app. simpl. rewrite app_nil_r. reflexivity.
Qed.

Lemma call_returns {A : Type} (c : comp A) (st st' : task_state) (a : A) :
  call c st = (Returns a, st') -> record st' = record st.
Proof.
  unfold call. destruct (c (calls st)) as [o n]. intros H.
  injection H as _ <-. reflexivity.
Qed.

Ltac step_emit H :=
  let u := fresh "u" in
  let s := fresh "s" in
  let He := fresh "He" in
  apply obind_returns in H as (u & s & He & H);
  apply emit_returns in He.

Ltac step_pure H :=
  let a := fresh "a" in
  let s := fresh "s" in
  let Hp := fresh "Hp" in
  apply obind_returns in H as (a & s & Hp & H);
  injection Hp as Hp <-.

Ltac step_call H :=
  let a := fresh "a" in
  let s := fresh "s" in
  let Hc := fresh "Hc" in
  apply obind_returns in H as (a & s & Hc & H);
  apply call_returns in Hc.

Lemma regenerate_phases (K : collaborators) (remaining : nat)
  (content_valid : bool) (retry_count : Z) (filtered_news : list NewsArticle)
  (rc : pyval) (st st' : task_state) (r : pyval * Z) :
  regenerate K remaining content_valid retry_count filtered_news rc st
  = (Returns r, st') ->
  phases (record st')
  = phases (record st)
    ++ (if content_valid then [] else repeat Synthesize remaining).
Proof.
  revert content_valid retry_count rc st.
  induction remaining as [|remaining IH];
    intros content_valid retry_count rc st H.
  - simpl in H. injection H as _ <-.
    destruct content_valid; simpl; rewrite app_nil_r; reflexivity.
  - cbn [regenerate] in H. destruct content_valid.
    + injection H as _ <-. rewrite app_nil_r. reflexivity.
    + step_emit H. step_pure H. step_emit H. step_call H. step_pure H.
      apply obind_returns in H as (rc3 & s3 & Hsel & H).
      apply IH in H. rewrite H. cbn [repeat].
      assert (Hs3 : phases (record s3) = phases (record s1)).
      { destruct a1.
        - step_emit Hsel. rewrite app_nil_r in He1.
          destruct (negb (truthy a0)); injection Hsel as _ <-; exact He1.
        - injection Hsel as _ <-. reflexivity. }
      rewrite Hs3, Hc, He0, He. simpl. rewrite app_nil_r, <- app_assoc.
      reflexivity.
Qed.

Lemma synthesize_and_assemble_phases (E : externals) (R : region)
  (K : collaborators) (filtered_news : list NewsArticle)
  (st st' : task_state) (r : option Report) :
  synthesize_and_assemble E R K filtered_news st = (Returns r, st') ->
  exists retried : bool,
    phases (record st')
    = phases (record st)
      ++ [Synthesize; Validate]
      ++ (if retried then repeat Synthesize 3 else []) ++ [Assemble].
Proof.
  unfold synthesize_and_assemble. intros H.
  step_pure H. step_emit H. step_call H. step_pure H.
  apply obind_returns in H as (rc1 & s1 & Hsel & H).
  assert (Hs1 : phases (record s1) = phases (record s0)).
  { destruct a1.
    - step_emit Hsel. rewrite app_nil_r in He0.
      injection Hsel as _ <-. exact He0.
    - injection Hsel as _ <-. reflexivity. }
  step_emit H. step_pure H. step_pure H.
  apply obind_returns in H as ([content_valid wc] & s3 & Hval & H).
  apply call_returns in Hval.
  apply obind_returns in H as ([rc2 retry_count] & s4 & Hreg & H).
  apply regenerate_phases in Hreg.
  apply obind_returns in H as (u1 & s5 & Hlog & H).
  assert (Hs5 : phases (record s5) = phases (record s4)).
  { destruct content_valid; cbn [negb] in Hlog.
    - injection Hlog as _ <-. reflexivity.
    - step_emit Hlog. apply emit_returns in Hlog.
      rewrite Hlog, He1. rewrite !app_nil_r. reflexivity. }
  step_emit H. step_pure H. step_emit H. injection H as _ <-.
  exists (negb content_valid).
  rewrite He2, He1, Hs5, Hreg, Hval, He0, Hs1, Hc, He.
  destruct content_valid; simpl; rewrite ?app_nil_r, <- ?app_assoc;
    reflexivity.
Qed.

(** X14.  A task that ends with a report went through Filter, Synthesize,
    Validate and Assemble in that order, with either no further synthesis or
    exactly three of them between Validate and Assemble: once the first
    content is rejected, every retry is used. *)
Theorem reported_task_phases (E : externals) (R : region) (K : collaborators)
  (news_list : list NewsArticle) (topic : Topic) (report : Report) :
  fst (process_topic E R K news_list (start topic)) = Returns (Some report) ->
  let steps :=
    phases (record (snd (process_topic E R K news_list (start topic)))) in
  steps = [Filter; Synthesize; Validate; Assemble]
  \/ steps = [Filter; Synthesize; Validate;
              Synthesize; Synthesize; Synthesize; Assemble].
Proof.
  cbv zeta. unfold process_topic, otry. rewrite process_topic_body_start.
  destruct (filter_news K topic news_list 0%nat) as [[f|e] n];
    [|simpl; discriminate].
  destruct f as [|a l]; [simpl; discriminate|].
  destruct (synthesize_and_assemble E R K (a :: l) _) as [[r|e] st'] eqn:Hrun;
    [|simpl; discriminate].
  simpl. intros _.
  apply synthesize_and_assemble_phases in Hrun as [retried Hrun].
  rewrite Hrun. destruct retried; [right | left]; reflexivity.
Qed.

Lemma reported_task_phases_witness :
  phases
    (record
       (snd (process_topic good_second plain_region
               (pipeline good_second plain_region)
               eleven_articles (start topic_of_eleven))))
  = [Filter; Synthesize; Validate;
     Synthesize; Synthesize; Synthesize; Assemble].
Proof.
  assert (H : exists report,
            fst (process_topic good_second plain_region
                   (pipeline good_second plain_region)
                   eleven_articles (start topic_of_eleven))
            = Returns (Some report)).
  { eexists. vm_compute. reflexivity. }
  destruct H as [report H].
  destruct (reported_task_phases good_second plain_region
              (pipeline good_second plain_region)
              eleven_articles topic_of_eleven report H) as [Hs | Hs].
  - vm_compute in Hs. discriminate.
  - exact Hs.
Defined.

End OrchestratorFacts.

(** ** Further properties of topic modeling
    (src/analyzers/topic_modeler.py) *)

Module ModelingFacts.

Import TopicCount TopicModeler.

(** The order of the topics returned: by weighted count, largest first. *)
Definition heavier (t u : Topic) : Prop :=
  (weighted_count u <= weighted_count t)%Q.

Lemma insert_desc_sorted (t : Topic) (l : list Topic) :
  StronglySorted heavier l -> StronglySorted heavier (insert_desc t l).
Proof.
  induction l as [|u l IH]; intros Hs; simpl.
  - constructor; constructor.
  - apply StronglySorted_inv in Hs as [Hl Hu].
    destruct (Qle_bool (weighted_count u) (weighted_count t)) eqn:Hle.
    + apply Qle_bool_iff in Hle.
      constructor; [constructor; assumption|].
      constructor; [exact Hle|].
      eapply List.Forall_impl; [|exact Hu].
      intros v Hv. unfold heavier in *. eapply Qle_trans; eassumption.
    + assert (Hlt : (weighted_count t < weighted_count u)%Q).
      { apply Qnot_le_lt. intros H. apply Qle_bool_iff in H. congruence. }
      constructor; [apply IH; exact Hl|].
      rewrite List.Forall_forall. intros v Hv.
      apply insert_desc_In in Hv as [-> | Hv].
      * apply Qlt_le_weak. exact Hlt.
      * rewrite List.Forall_forall in Hu. apply Hu. exact Hv.
Qed.

Lemma sort_desc_sorted (l : list Topic) : StronglySorted heavier (sort_desc l).
Proof.
  induction l as [|t l IH]; simpl.
  - constructor.
  - apply insert_desc_sorted. exact IH.
Qed.

Lemma insert_desc_perm (t : Topic) (l : list Topic) :
  Permutation (insert_desc t l) (t :: l).
Proof.
  induction l as [|u l IH]; simpl.
  - reflexivity.
  - destruct (Qle_bool (weighted_count u) (weighted_count t)).
    + reflexivity.
    + rewrite IH. apply perm_swap.
Qed.

Lemma sort_desc_perm (l : list Topic) : Permutation (sort_desc l) l.
Proof.
  induction l as [|t l IH]; simpl.
  - reflexivity.
  - rewrite insert_desc_perm. constructor. exact IH.
Qed.

Lemma found_topic_ids (lda : lda_model) (c : counters)
  (ids : list (option (list N))) (docs : list (list (list N))) (ts : list Z) :
  List.map topic_id (found_topics lda c ids docs ts)
  = List.filter
      (fun t => match get_topic_terms lda t with
                | Some _ => true
                | None => false
                end)
      ts.
Proof.
  unfold found_topics. induction ts as [|t ts IH]; simpl; [reflexivity|].
  destruct (get_topic_terms lda t); simpl; rewrite IH; reflexivity.
Qed.

Lemma range_NoDup (n : Z) : List.NoDup (range n).
Proof.
  unfold range. apply Finite.Injective_map_NoDup.
  - intros a b H. lia.
  - apply List.seq_NoDup.
Qed.

Lemma range_In (n t : Z) : In t (range n) <-> 0 <= t < n.
Proof.
  unfold range. rewrite in_map_iff. split.
  - intros (i & <- & Hi). apply in_seq in Hi. lia.
  - intros Ht. exists (Z.to_nat t). split; [lia|]. apply in_seq. lia.
Qed.

Lemma member_is_counted (p : Q) : is_member p = true -> is_counted p = true.
Proof.
  unfold is_member, is_counted. rewrite !Qle_bool_iff. intros H.
  eapply Qle_trans; [|exact H]. discriminate.
Qed.

Section Runs.

Context (preprocess : list N -> list (list N)).
Context (fit : list (list (list N)) -> Z -> outcome lda_model).
Context (weighted_sources : gmap (list N) Q).
Context (min_topics max_topics : Z).

Lemma documents_inv (news_list : list NewsArticle) (docs : list (list N)) :
  documents news_list = Returns docs ->
  Forall (fun a => nonempty (summary a) = true) news_list.
Proof.
  revert docs. induction news_list as [|a rest IH]; intros docs; simpl.
  - constructor.
  - unfold document. destruct (nonempty (summary a)) eqn:Ha; [|discriminate].
    destruct (documents rest) as [ds|e]; [|discriminate].
    intros _. constructor; [exact Ha | apply (IH ds); reflexivity].
Qed.

Lemma documents_raise (news_list : list NewsArticle) (a : NewsArticle) :
  In a news_list -> nonempty (summary a) = false ->
  documents news_list = Raises AttributeError.
Proof.
  induction news_list as [|b rest IH]; simpl; [tauto|].
  intros [-> | Hin] Ha.
  - unfold document. rewrite Ha. reflexivity.
  - unfold document. destruct (nonempty (summary b)); [|reflexivity].
    rewrite (IH Hin Ha). reflexivity.
Qed.

(** A run either goes through or leaves everything as it was. *)
Lemma modeling_outcome (self_counters : counters)
  (news_list : list NewsArticle) :
  (exists lda,
     modeling_succeeds preprocess fit min_topics max_topics news_list lda)
  \/ perform_topic_modeling preprocess fit weighted_sources min_topics
       max_topics self_counters news_list
     = {| m_topics := []; m_news := news_list;
          m_counters := self_counters |}.
Proof.
  unfold perform_topic_modeling.
  destruct (documents news_list) as [docs|e] eqn:Hd; [|right; reflexivity].
  pose proof (documents_inv news_list docs Hd) as Hsum.
  rewrite (documents_return news_list Hsum) in Hd. injection Hd as <-.
  rewrite processed_docs_modeled.
  destruct (List.map (tokens_of preprocess)
              (modeled_articles preprocess news_list)) as [|d ds] eqn:Hm;
    [right; reflexivity|].
  fold (num_topics_of min_topics max_topics news_list).
  destruct (fit (d :: ds) (num_topics_of min_topics max_topics news_list))
    as [lda|e] eqn:Hfit; [|right; reflexivity].
  left. exists lda. split; [exact Hsum|]. split.
  - intros Heq. rewrite Heq in Hm. discriminate.
  - rewrite Hm. exact Hfit.
Qed.

(** X15.  The topics a modeling run returns are in descending order of
    weighted count, carry distinct topic ids, and every id lies in
    [0, num_topics) for the topic count chosen for the batch. *)
Theorem modeled_topics_sorted_distinct (self_counters : counters)
  (news_list : list NewsArticle) :
  let run :=
    perform_topic_modeling preprocess fit weighted_sources min_topics
      max_topics self_counters news_list in
  StronglySorted heavier (m_topics run)
  /\ List.NoDup (List.map topic_id (m_topics run))
  /\ (forall topic,
        In topic (m_topics run) ->
        0 <= topic_id topic
          < _adjust_num_topics (len news_list) min_topics max_topics).
Proof.
  cbv zeta.
  destruct (modeling_outcome self_counters news_list) as [[lda Hok] | ->].
  - destruct (perform_topic_modeling_succeeds preprocess fit weighted_sources
                min_topics max_topics self_counters news_list lda Hok)
      as (c & _ & ->).
    cbn [m_topics]. split; [apply sort_desc_sorted|]. split.
    + eapply Permutation.Permutation_NoDup.
      * apply Permutation.Permutation_map. symmetry. apply sort_desc_perm.
      * rewrite found_topic_ids. apply List.NoDup_filter, range_NoDup.
    + intros topic Hin. apply (proj1 (sort_desc_In _ _)) in Hin.
      assert (Hid : In (topic_id topic)
                      (List.map topic_id
                         (found_topics lda c (List.map id news_list)
                            (List.map (tokens_of preprocess)
                               (modeled_articles preprocess news_list))
                            (range (num_topics_of min_topics max_topics
                                      news_list)))))
        by (apply in_map; exact Hin).
      rewrite found_topic_ids in Hid. apply filter_In in Hid as [Hid _].
      apply range_In in Hid. exact Hid.
  - cbn [m_topics]. split; [constructor|]. split; [constructor|].
    intros topic [].
Qed.

(** The article [b] is [a] with, at most, other topic records. *)
Definition same_but_topics (a b : NewsArticle) : Prop :=
  id b = id a /\ title b = title a /\ summary b = summary a
  /\ url b = url a /\ source b = source a /\ category b = category a
  /\ published_at b = published_at a.

Lemma tag_article_same (mapping : gmap (option (list N)) (list pyval))
  (a : NewsArticle) :
  same_but_topics a (tag_article mapping a).
Proof.
  unfold tag_article, same_but_topics.
  destruct (mapping !! id a); simpl; repeat split.
Qed.

Lemma tag_articles_same (mapping : gmap (option (list N)) (list pyval))
  (news_list : list NewsArticle) :
  List.Forall2 same_but_topics news_list
    (List.map (tag_article mapping) news_list).
Proof.
  induction news_list as [|a rest IH]; simpl; constructor;
    [apply tag_article_same | exact IH].
Qed.

Lemma topic_hits_ids (lda : lda_model) (ids : list (option (list N)))
  (docs : list (list (list N))) (t : Z) (kws : list (list N))
  (i : option (list N)) :
  In i (List.map fst (topic_hits lda ids docs t kws)) -> In i ids.
Proof.
  intros Hin. apply in_map_iff in Hin as ([j rcd] & Hj & Hin).
  simpl in Hj. subst j. unfold topic_hits in Hin.
  apply in_flat_map in Hin as ([j doc] & Hcomb & Hin).
  apply in_flat_map in Hin as ([t' p] & _ & Hin).
  destruct ((t' =? t) && is_member p)%bool; [|destruct Hin].
  destruct Hin as [Heq | []]. injection Heq as -> _.
  apply in_combine_l in Hcomb. exact Hcomb.
Qed.

(** X16.  Whatever the model answers, a topic lists only ids of articles
    of the batch, and the articles come back in the same order with nothing
    but their topic records changed. *)
Theorem modeled_membership_within_batch (self_counters : counters)
  (news_list : list NewsArticle) :
  let run :=
    perform_topic_modeling preprocess fit weighted_sources min_topics
      max_topics self_counters news_list in
  (forall topic i,
     In topic (m_topics run) -> In i (article_ids topic) ->
     In i (List.map id news_list))
  /\ List.Forall2 same_but_topics news_list (m_news run).
Proof.
  cbv zeta.
  destruct (modeling_outcome self_counters news_list) as [[lda Hok] | ->].
  - destruct (perform_topic_modeling_succeeds preprocess fit weighted_sources
                min_topics max_topics self_counters news_list lda Hok)
      as (c & _ & ->).
    cbn [m_topics m_news]. split.
    + intros topic i Hin Hi. apply (proj1 (sort_desc_In _ _)) in Hin.
      apply found_topics_In in Hin as (t & kws & _ & _ & ->).
      cbn [article_ids topic_entry] in Hi.
      apply topic_hits_ids in Hi. exact Hi.
    + apply tag_articles_same.
  - cbn [m_topics m_news]. split; [intros topic i []|].
    induction news_list as [|a rest IH]; constructor; [|exact IH].
    repeat split.
Qed.

(** The counted pairs of the articles [arts], one unit each. *)
Definition units_of (lda : lda_model) (arts : list NewsArticle)
  : list (Z * Z) :=
  flat_map
    (fun a =>
       List.map (fun tp => (fst tp, 1%Z)) (counted_pairs preprocess lda a))
    arts.

Lemma pair_hits_le_units (t : Z) (kws : list (list N))
  (i : option (list N)) (pairs : list (Z * Q)) :
  (length
     (flat_map
        (fun tp : Z * Q =>
           let '(t_id, prob) := tp in
           if ((t_id =? t)%Z && is_member prob)%bool
           then [(i, assignment t prob kws)]
           else [])
        pairs)
   <= length
        (List.filter (fun u : Z * Z => bool_decide (fst u = t))
           (List.map (fun tp : Z * Q => (fst tp, 1%Z))
              (List.filter (fun tp => is_counted (snd tp)) pairs))))%nat.
Proof.
  induction pairs as [|[t' p] pairs IH]; simpl; [lia|].
  destruct (Z.eqb_spec t' t) as [-> | Hne]; simpl.
  - destruct (is_member p) eqn:Hm; simpl.
    + rewrite (member_is_counted p Hm). simpl.
      rewrite bool_decide_eq_true_2 by reflexivity. simpl. lia.
    + destruct (is_counted p); simpl; [|exact IH].
      destruct (bool_decide (t = t)); simpl; lia.
  - destruct (is_counted p); simpl; [|exact IH].
    rewrite bool_decide_eq_false_2 by exact Hne. exact IH.
Qed.

Lemma hits_le_units (lda : lda_model) (t : Z) (kws : list (list N))
  (arts : list NewsArticle) (ids : list (option (list N))) :
  (length
     (topic_hits lda ids (List.map (tokens_of preprocess) arts) t kws)
   <= length
        (List.filter (fun u : Z * Z => bool_decide (fst u = t))
           (units_of lda arts)))%nat.
Proof.
  revert ids. unfold topic_hits, units_of.
  induction arts as [|a arts IH]; intros ids; simpl.
  - destruct ids; simpl; lia.
  - destruct ids as [|i ids]; simpl; [lia|].
    rewrite List.length_app, List.filter_app, List.length_app.
    pose proof (pair_hits_le_units t kws i
                  (get_document_topics lda (tokens_of preprocess a))) as H1.
    specialize (IH ids). unfold counted_pairs in *. lia.
Qed.

Lemma sum_units (vs : list (Z * Z)) (z : Z) :
  Forall (fun u => snd u = 1) vs ->
  fold_left Z.add (List.map snd vs) z = z + Z.of_nat (length vs).
Proof.
  revert z. induction vs as [|v vs IH]; intros z Hall; simpl.
  - lia.
  - apply Forall_cons in Hall as [Hv Hall]. rewrite IH by exact Hall. lia.
Qed.

Lemma units_of_ones (lda : lda_model) (arts : list NewsArticle) :
  Forall (fun u : Z * Z => snd u = 1) (units_of lda arts).
Proof.
  unfold units_of. rewrite List.Forall_forall. intros u Hin.
  apply in_flat_map in Hin as (a & _ & Hin).
  apply in_map_iff in Hin as (tp & <- & _). reflexivity.
Qed.

Lemma tally_units (units : list (Z * Z)) (t : Z) :
  Forall (fun u : Z * Z => snd u = 1) units ->
  default 0 (tally 0 Z.add units t)
  = Z.of_nat
      (length (List.filter (fun u : Z * Z => bool_decide (fst u = t)) units)).
Proof.
  intros Hall. unfold tally.
  assert (Hf : Forall (fun u : Z * Z => snd u = 1)
                 (List.filter (fun u : Z * Z => bool_decide (fst u = t))
                    units)).
  { rewrite List.Forall_forall in *. intros u Hu.
    apply filter_In in Hu as [Hu _]. apply Hall. exact Hu. }
  destruct (List.filter _ units) as [|v vs]; [reflexivity|].
  change (fold_left Z.add (List.map snd (v :: vs)) 0
          = Z.of_nat (length (v :: vs))).
  rewrite (sum_units (v :: vs) 0 Hf). lia.
Qed.

(** X17.  A topic never lists more articles than its count: every pair
    that makes an article a member (probability >= 0.30) was also counted
    (probability >= 0.10), the model being read the same way both times. *)
Theorem listed_articles_within_count (self_counters : counters)
  (news_list : list NewsArticle) (topic : Topic) :
  In topic
    (m_topics
       (perform_topic_modeling preprocess fit weighted_sources min_topics
          max_topics self_counters news_list)) ->
  len (article_ids topic) <= count topic.
Proof.
  destruct (modeling_outcome self_counters news_list) as [[lda Hok] | ->];
    [|intros []].
  destruct (perform_topic_modeling_succeeds preprocess fit weighted_sources
              min_topics max_topics self_counters news_list lda Hok)
    as (c & Hfrom & ->).
  cbn [m_topics]. intros Hin. apply (proj1 (sort_desc_In _ _)) in Hin.
  apply found_topics_In in Hin as (t & kws & _ & _ & ->).
  cbn [article_ids count topic_entry].
  destruct (counters_tally preprocess weighted_sources lda news_list c Hfrom)
    as [Ht _].
  destruct (Ht t) as [-> _].
  change (topic_units preprocess lda news_list)
    with (units_of lda (modeled_articles preprocess news_list)).
  rewrite (tally_units _ t (units_of_ones lda _)).
  unfold len. rewrite List.length_map.
  apply inj_le. apply hits_le_units.
Qed.

(** X18.  One article without a summary makes the whole run come back
    empty: no topic is returned, no article is tagged and the counters of
    the modeler stay as they were. *)
Theorem empty_summary_aborts_modeling (self_counters : counters)
  (news_list : list NewsArticle) (a : NewsArticle) :
  In a news_list -> nonempty (summary a) = false ->
  perform_topic_modeling preprocess fit weighted_sources min_topics
    max_topics self_counters news_list
  = {| m_topics := []; m_news := news_list; m_counters := self_counters |}.
Proof.
  intros Hin Ha. unfold perform_topic_modeling.
  rewrite (documents_raise news_list a Hin Ha). reflexivity.
Qed.

End Runs.

Lemma listed_articles_within_count_witness :
  Forall (fun topic => len (article_ids topic) <= count topic)
    (m_topics market_and_sports_run).
Proof.
  rewrite List.Forall_forall. intros topic Hin.
  apply (listed_articles_within_count sample_preprocess
           (fun _ _ => Returns two_topic_model) wire_weights 2 2
           {| topic_counter := empty; weighted_topic_counter := empty;
              keyword_counter := empty; weighted_keyword_counter := empty |}
           market_and_sports topic).
  exact Hin.
Defined.

(** The two sample articles followed by one that has a title only. *)
Definition batch_with_untitled_summary : list NewsArticle :=
  market_and_sports
    ++ [{| id := Some (py "n3"); title := py "Late edition"; summary := [];
           url := []; source := py "wire"; category := [];
           published_at := NoDate; topics := [] |}].

Lemma empty_summary_aborts_modeling_witness :
  m_topics
    (perform_topic_modeling sample_preprocess
       (fun _ _ => Returns two_topic_model) wire_weights 2 2
       {| topic_counter := empty; weighted_topic_counter := empty;
          keyword_counter := empty; weighted_keyword_counter := empty |}
       batch_with_untitled_summary)
  = [].
Proof.
  rewrite (empty_summary_aborts_modeling sample_preprocess
             (fun _ _ => Returns two_topic_model) wire_weights 2 2
             {| topic_counter := empty; weighted_topic_counter := empty;
                keyword_counter := empty; weighted_keyword_counter := empty |}
             batch_with_untitled_summary
             {| id := Some (py "n3"); title := py "Late edition";
                summary := []; url := []; source := py "wire";
                category := []; published_at := NoDate; topics := [] |}).
  - reflexivity.
  - right. right. left. reflexivity.
  - reflexivity.
Defined.

(** *** The topic count across the 500-article boundary *)

Lemma log_growth_term_below_635 (n : Z) :
  500 < n < 635 -> log_growth_term n <= 7.
Proof.
  intros Hn. unfold log_growth_term.
  assert (Hq : n ^ 3 / 100 ^ 3 < 2 ^ 8).
  { apply Z.div_lt_upper_bound; [lia|].
    assert (n ^ 3 <= 634 ^ 3) by (apply Z.pow_le_mono_l; lia). lia. }
  assert (Hpos : 0 < n ^ 3 / 100 ^ 3).
  { apply Z.div_str_pos. split; [lia|].
    assert (500 ^ 3 <= n ^ 3) by (apply Z.pow_le_mono_l; lia). lia. }
  pose proof (proj1 (Z.log2_lt_pow2 _ 8 Hpos) Hq). lia.
Qed.

Lemma log_growth_term_from_635 (n : Z) :
  635 <= n -> 8 <= log_growth_term n.
Proof.
  intros Hn. unfold log_growth_term.
  apply Z.log2_le_pow2.
  - apply Z.div_str_pos. split; [lia|].
    assert (635 ^ 3 <= n ^ 3) by (apply Z.pow_le_mono_l; lia). lia.
  - apply Z.div_le_lower_bound; [lia|].
    assert (635 ^ 3 <= n ^ 3) by (apply Z.pow_le_mono_l; lia). lia.
Qed.

(** X19.  The topic count is not monotone across the boundary between
    linear and logarithmic growth: when the ceiling leaves room for the
    eight topics added at 500 articles, a batch of more than 500 articles
    gets fewer topics than a batch of 500 exactly when it has fewer than
    635 articles. *)
Theorem topic_count_drops_after_500 (n min_k max_k : Z) :
  min_k + 8 <= max_k -> 500 < n ->
  _adjust_num_topics n min_k max_k < _adjust_num_topics 500 min_k max_k
  <-> n < 635.
Proof.
  intros Hk Hn. unfold _adjust_num_topics.
  destruct (Z.leb_spec n 100); [lia|].
  destruct (Z.leb_spec n 500); [lia|].
  change (500 <=? 100) with false. change (500 <=? 500) with true.
  cbv iota. change ((500 - 100) / 50) with 8.
  split.
  - intros Hlt. destruct (Z_lt_le_dec n 635) as [|Hge]; [assumption|].
    pose proof (log_growth_term_from_635 n Hge). lia.
  - intros Hlt. pose proof (log_growth_term_below_635 n ltac:(lia)). lia.
Qed.

Lemma topic_count_drops_after_500_witness :
  _adjust_num_topics 501 5 20 < _adjust_num_topics 500 5 20.
Proof.
  apply (topic_count_drops_after_500 501 5 20); lia.
Defined.

End ModelingFacts.

(** ** Further properties of the quality check
    (src/reporting/validators.py) *)

Module QualityFacts.

Import Validator QualityCheck NewsFilter.

(** [min_words or self.default_min_words] and
    [max_words or self.default_max_words]. *)
Definition effective_min (min_words : Z) : Z :=
  if min_words =? 0 then 500 else min_words.

Definition effective_max (max_words : Z) : Z :=
  if max_words =? 0 then 1500 else max_words.

Lemma validate_word_count_true (s : pystr) (lo hi wc : Z) :
  validate_word_count s lo hi = (true, wc) <->
  wc = _count_words_multilingual s /\ lo <= wc <= hi.
Proof.
  unfold validate_word_count.
  destruct (Z.ltb_spec (_count_words_multilingual s) lo).
  - split; [discriminate | intros [-> ?]; lia].
  - destruct (Z.ltb_spec hi (_count_words_multilingual s)).
    + split; [discriminate | intros [-> ?]; lia].
    + split.
      * intros Heq. injection Heq as <-. lia.
      * intros [-> _]. reflexivity.
Qed.

Lemma valid_format_content (t c : pyval) :
  validate_report_format (title_content t c) = true ->
  truthy t = true /\ truthy c = true.
Proof.
  unfold validate_report_format, title_content. simpl.
  intros H. apply andb_prop in H. exact H.
Qed.

Section Verdict.

Context (E : externals).

(** X20.  A passing verdict is never given to content that fails the basic
    checks: when [validate_content] answers true, the title is a true value,
    the content is a string, the word count returned is the count of that
    string, and it lies within the limits in force (500 and 1500 standing in
    for a limit of 0). *)
Theorem passing_verdict_passed_basic_checks (content title : pyval)
  (min_words max_words : Z) (n n' : nat) (wc : Z) :
  validate_content E content title min_words max_words n
  = (Returns (true, wc), n') ->
  truthy title = true
  /\ exists s,
       content = PyStr s
       /\ nonempty s = true
       /\ wc = _count_words_multilingual s
       /\ effective_min min_words <= wc <= effective_max max_words.
Proof.
  unfold validate_content.
  destruct (validate_report_format (title_content title content)) eqn:Hf;
    cbn [negb]; [|discriminate].
  apply valid_format_content in Hf as [Ht Hc].
  fold (effective_min min_words). fold (effective_max max_words).
  unfold bind at 1. unfold lift at 1.
  destruct content as [| | | |s| |]; simpl in Hc |- *;
    try (rewrite Hc; discriminate); try discriminate.
  destruct (validate_word_count s (effective_min min_words)
              (effective_max max_words)) as [basic w] eqn:Hw.
  destruct basic; cbn [negb]; [|discriminate].
  apply validate_word_count_true in Hw as [-> Hrange].
  intros Hrun.
  assert (Hwc : wc = _count_words_multilingual s).
  { revert Hrun. unfold try_except, bind, lift, chat, ret.
    destruct (get_prompt E VALIDATION (py "system") []) as [sp|e1];
      [|intros H; injection H as <- _; reflexivity].
    destruct (get_prompt E VALIDATION (py "user") _) as [up|e2];
      [|intros H; injection H as <- _; reflexivity].
    destruct (backend E n sp up) as [response|e3]; intros H.
    - injection H as _ <- _. reflexivity.
    - injection H as <- _. reflexivity. }
  subst wc. split; [exact Ht|]. exists s. auto.
Qed.

(** The judge cannot be heard at call [n]: the request fails, or the answer
    holds no JSON that can be read. *)
Definition judge_unheard (n : nat) : Prop :=
  forall sp up,
    match backend E n sp up with
    | Raises _ => True
    | Returns response => _parse_json_response E response = None
    end.

(** X21.  The check fails open: content that passes the format and
    word-count checks is accepted whenever the judge cannot be heard, after
    at most one backend call. *)
Theorem validation_fails_open (s : pystr) (title : pyval)
  (min_words max_words : Z) (n : nat) :
  truthy title = true -> nonempty s = true ->
  effective_min min_words <= _count_words_multilingual s
    <= effective_max max_words ->
  judge_unheard n ->
  exists n',
    validate_content E (PyStr s) title min_words max_words n
    = (Returns (true, _count_words_multilingual s), n')
    /\ (n' <= n + 1)%nat.
Proof.
  intros Ht Hs Hrange Hjudge. unfold validate_content.
  assert (Hf : validate_report_format (title_content title (PyStr s)) = true).
  { unfold validate_report_format, title_content. simpl.
    rewrite Ht, Hs. reflexivity. }
  rewrite Hf. cbn [negb].
  fold (effective_min min_words). fold (effective_max max_words).
  unfold bind at 1. unfold lift at 1. cbn [validate_word_count_of].
  rewrite (proj2 (validate_word_count_true s _ _ _) (conj eq_refl Hrange)).
  cbn [negb]. unfold try_except, bind, lift, chat, ret.
  destruct (get_prompt E VALIDATION (py "system") []) as [sp|e1];
    [|exists n; split; [reflexivity | lia]].
  destruct (get_prompt E VALIDATION (py "user") _) as [up|e2];
    [|exists n; split; [reflexivity | lia]].
  specialize (Hjudge sp up).
  destruct (backend E n sp up) as [response|e3].
  - exists (S n). unfold judged. rewrite Hjudge.
    split; [reflexivity | lia].
  - exists (S n). split; [reflexivity | lia].
Qed.

End Verdict.

Lemma passing_verdict_passed_basic_checks_witness :
  exists s,
    PyStr (List.concat (List.repeat (py "word ") 600)) = PyStr s
    /\ 600 = _count_words_multilingual s.
Proof.
  destruct (passing_verdict_passed_basic_checks Orchestrator.good_second
              (PyStr (List.concat (List.repeat (py "word ") 600)))
              (PyStr (py "Good")) 500 2000 4%nat 5%nat 600)
    as (_ & s & Hs & _ & Hwc & _).
  - vm_compute. reflexivity.
  - exists s. auto.
Defined.

Lemma validation_fails_open_witness :
  exists n',
    validate_content failing_backend
      (PyStr (List.concat (List.repeat (py "word ") 600)))
      (PyStr (py "Good")) 500 2000 0%nat
    = (Returns (true,
                _count_words_multilingual
                  (List.concat (List.repeat (py "word ") 600))), n')
    /\ (n' <= 0 + 1)%nat.
Proof.
  apply (validation_fails_open failing_backend
           (List.concat (List.repeat (py "word ") 600))
           (PyStr (py "Good")) 500 2000 0%nat).
  - reflexivity.
  - reflexivity.
  - vm_compute. split; discriminate.
  - intros sp up. exact I.
Defined.

End QualityFacts.

(** ** Topic selector (src/analyzers/topic_selector.py) *)

Module TopicSelector.

(** A topic as the selector handles it: the items of a dict. *)
Abbreviation topic_dict := (list (pystr * pyval)) (only parsing).

Definition k_topic_id : pystr := Eval cbv in py "topic_id".
Definition k_selection_reason : pystr := Eval cbv in py "selection_reason".

(** [s.replace(old, new)] for a non-empty [old]: every occurrence met from
    the left, none overlapping another; [skip] counts the characters of an
    occurrence still to pass. *)
Fixpoint replace_from (old new : pystr) (skip : nat) (s : pystr) : pystr :=
  match s with
  | [] => []
  | c :: s' =>
      match skip with
      | S k => replace_from old new k s'
      | O =>
          if startswith s old
          then new ++ replace_from old new (length old - 1) s'
          else c :: replace_from old new O s'
      end
  end.

Definition replace_all (old new s : pystr) : pystr :=
  replace_from old new O s.

(** [{**d, k: v}]. *)
Fixpoint dict_set (d : topic_dict) (k : pystr) (v : pyval) : topic_dict :=
  match d with
  | [] => [(k, v)]
  | (k', v') :: d' =>
      if str_eqb k' k then (k', v) :: d' else (k', v') :: dict_set d' k v
  end.

Section Select.

Context (E : externals).

(** [str(topic.get('topic_id'))]. *)
Definition topic_id_text (topic : topic_dict) : pystr :=
  match dict_get topic k_topic_id with
  | Some (PyInt z) => str_of_Z z
  | Some v => py_str E v
  | None => py_str E PyNone
  end.

(** [line.split(',', 1)]: the first part, and the second when there is
    one. *)
Definition parts (line : pystr) : pystr * option pystr :=
  match split_once (py ",") line with
  | Some (a, b) => (a, Some b)
  | None => (line, None)
  end.

(** The topic id a line names. *)
Definition named_id (line : pystr) : pystr :=
  strip (replace_all (py "Topic ID:") [] (fst (parts line))).

(** The reason a line gives. *)
Definition given_reason (line : pystr) : pystr :=
  match snd (parts line) with
  | Some b => strip (replace_all (py "Reason:") [] b)
  | None => []
  end.

(** [next((topic for topic in topics_data if ...), None)]. *)
Definition named_topic (topics_data : list topic_dict) (line : pystr)
  : option topic_dict :=
  List.find (fun topic => str_eqb (topic_id_text topic) (named_id line))
    topics_data.

(** One pass of the loop over the lines, on [selected_topics] and
    [current_topic]. *)
Definition select_line (topics_data : list topic_dict)
  (st : list topic_dict * option topic_dict) (line : pystr)
  : list topic_dict * option topic_dict :=
  let '(selected_topics, current_topic) := st in
  if startswith line (py "Topic ID:") then
    let selected_topics :=
      match current_topic with
      | Some c =>
          if truthy (PyDict c) then selected_topics ++ [c]
          else selected_topics
      | None => selected_topics
      end in
    match named_topic topics_data line with
    | Some topic_data =>
        if truthy (PyDict topic_data)
        then (selected_topics,
              Some (dict_set topic_data k_selection_reason
                      (PyStr (given_reason line))))
        else (selected_topics, current_topic)
    | None => (selected_topics, current_topic)
    end
  else st.

(** [selected_topics] once the last topic has been added. *)
Definition collected (topics_data : list topic_dict) (lines : list pystr)
  : list topic_dict :=
  let '(selected_topics, current_topic) :=
    fold_left (select_line topics_data) lines ([], None) in
  match current_topic with
  | Some c =>
      if truthy (PyDict c) then selected_topics ++ [c] else selected_topics
  | None => selected_topics
  end.

(** [TopicSelector._parse_topic_selection]. *)
Definition _parse_topic_selection (response : pystr)
  (topics_data : list topic_dict) : list topic_dict :=
  firstn 5 (collected topics_data (split_char 0x0a%N response)).

(** [TopicSelector.select_topics]. *)
Definition select_topics (topics_data : list topic_dict)
  : comp (list topic_dict) :=
  system_prompt <- lift (get_prompt E TOPIC_SELECTION (py "system") []) ;;
  user_prompt <-
    lift (get_prompt E TOPIC_SELECTION (py "user")
            [(py "topics_data",
              PyStr (json_dumps E (PyList (List.map PyDict topics_data))))]) ;;
  response <- chat E system_prompt user_prompt ;;
  ret (_parse_topic_selection response topics_data).

(** *** What the loop keeps *)

(** [d] is a candidate with its selection reason set. *)
Definition chosen_from (topics_data : list topic_dict) (d : topic_dict)
  : Prop :=
  exists topic reason,
    In topic topics_data /\ topic <> []
    /\ d = dict_set topic k_selection_reason (PyStr reason).

(** The state of the loop holds candidates only, and nothing is selected
    before a first topic is current. *)
Definition loop_invariant (topics_data : list topic_dict)
  (st : list topic_dict * option topic_dict) : Prop :=
  Forall (chosen_from topics_data) (fst st)
  /\ match snd st with
     | Some c => chosen_from topics_data c
     | None => fst st = []
     end.

Lemma dict_set_nonempty (d : topic_dict) (k : pystr) (v : pyval) :
  dict_set d k v <> [].
Proof.
  destruct d as [|[k' v'] d']; simpl; [discriminate|].
  destruct (str_eqb k' k); discriminate.
Qed.

Lemma chosen_truthy (topics_data : list topic_dict) (d : topic_dict) :
  chosen_from topics_data d -> truthy (PyDict d) = true.
Proof.
  intros (topic & reason & _ & _ & ->).
  pose proof (dict_set_nonempty topic k_selection_reason (PyStr reason)).
  simpl. destruct (dict_set topic k_selection_reason (PyStr reason));
    [congruence | reflexivity].
Qed.

Lemma select_line_invariant (topics_data : list topic_dict)
  (st : list topic_dict * option topic_dict) (line : pystr) :
  loop_invariant topics_data st ->
  loop_invariant topics_data (select_line topics_data st line).
Proof.
  destruct st as [sel cur]. intros [Hsel Hcur]. simpl in Hsel, Hcur.
  unfold select_line.
  destruct (startswith line (py "Topic ID:")); [|split; assumption].
  assert (Hsel' :
    Forall (chosen_from topics_data)
      match cur with
      | Some c => if truthy (PyDict c) then sel ++ [c] else sel
      | None => sel
      end).
  { destruct cur as [c|]; [|exact Hsel].
    rewrite (chosen_truthy topics_data c Hcur).
    apply Forall_app. split; [exact Hsel|]. constructor; [exact Hcur|].
    constructor. }
  assert (Hkeep :
    loop_invariant topics_data
      (match cur with
       | Some c => if truthy (PyDict c) then sel ++ [c] else sel
       | None => sel
       end, cur)).
  { split; [exact Hsel'|]. simpl. destruct cur; assumption. }
  destruct (named_topic topics_data line) as [topic|] eqn:Hfind;
    [|exact Hkeep].
  destruct (truthy (PyDict topic)) eqn:Htruthy; [|exact Hkeep].
  split; [exact Hsel'|]. simpl.
  apply List.find_some in Hfind as [Hin _].
  exists topic, (given_reason line). split; [exact Hin|].
  split; [|reflexivity]. intros ->. discriminate.
Qed.

Lemma loop_keeps_invariant (topics_data : list topic_dict)
  (lines : list pystr) (st : list topic_dict * option topic_dict) :
  loop_invariant topics_data st ->
  loop_invariant topics_data (fold_left (select_line topics_data) lines st).
Proof.
  revert st. induction lines as [|line lines IH]; intros st Hst; simpl.
  - exact Hst.
  - apply IH, select_line_invariant, Hst.
Qed.

Lemma collected_chosen (topics_data : list topic_dict) (lines : list pystr) :
  Forall (chosen_from topics_data) (collected topics_data lines).
Proof.
  unfold collected.
  pose proof (loop_keeps_invariant topics_data lines ([], None)) as Hinv.
  destruct (fold_left (select_line topics_data) lines ([], None))
    as [sel cur].
  destruct Hinv as [Hsel Hcur]; [split; [constructor | reflexivity]|].
  simpl in Hsel, Hcur. destruct cur as [c|]; [|exact Hsel].
  rewrite (chosen_truthy topics_data c Hcur).
  apply Forall_app. split; [exact Hsel|]. constructor; [exact Hcur|].
  constructor.
Qed.

Lemma loop_without_marker (topics_data : list topic_dict)
  (lines : list pystr) (st : list topic_dict * option topic_dict) :
  Forall (fun line => startswith line (py "Topic ID:") = false) lines ->
  fold_left (select_line topics_data) lines st = st.
Proof.
  revert st. induction lines as [|line lines IH]; intros st Hall; simpl.
  - reflexivity.
  - apply Forall_cons in Hall as [Hline Hall].
    rewrite <- (IH st Hall) at 2. f_equal.
    unfold select_line. destruct st as [sel cur]. rewrite Hline.
    reflexivity.
Qed.

(** X22.  The selector returns at most five topics, each of them one of
    the candidates with its selection reason set (a candidate dict that is
    not empty), and none when no line of the answer starts with
    "Topic ID:". *)
Theorem selection_bounded_and_from_candidates (response : pystr)
  (topics_data : list topic_dict) :
  let selected := _parse_topic_selection response topics_data in
  (length selected <= 5)%nat
  /\ Forall (chosen_from topics_data) selected
  /\ (Forall (fun line => startswith line (py "Topic ID:") = false)
        (split_char 0x0a%N response) ->
      selected = []).
Proof.
  cbv zeta. unfold _parse_topic_selection. split; [|split].
  - rewrite List.length_firstn. lia.
  - pose proof (collected_chosen topics_data (split_char 0x0a%N response))
      as Hall.
    rewrite List.Forall_forall in *. intros d Hd. apply Hall.
    revert Hd. generalize (collected topics_data (split_char 10%N response)).
    generalize 5%nat. intros k l. revert k.
    induction l as [|x l IH]; intros [|k]; simpl; try tauto.
    intros [-> | Hd]; [left; reflexivity | right; apply (IH k Hd)].
  - intros Hall. unfold collected.
    rewrite (loop_without_marker topics_data _ ([], None) Hall).
    reflexivity.
Qed.

Lemma split_char_from_snoc (sep : N) (s line cur : pystr) :
  ~ In sep line ->
  split_char_from sep cur (s ++ sep :: line)
  = split_char_from sep cur s ++ [line].
Proof.
  intros Hno. revert cur. induction s as [|c s IH]; intros cur; simpl.
  - rewrite N.eqb_refl. f_equal.
    clear cur. assert (H : forall cur,
      split_char_from sep cur line = [rev cur ++ line]).
    { induction line as [|x line IHl]; intros cur; simpl.
      - rewrite app_nil_r. reflexivity.
      - destruct (N.eqb_spec x sep) as [-> | Hne].
        + exfalso. apply Hno. left. reflexivity.
        + rewrite IHl.
          * simpl. rewrite <- app_assoc. reflexivity.
          * intros Hin. apply Hno. right. exact Hin. }
    apply (H []).
  - destruct (N.eqb c sep).
    + rewrite IH. reflexivity.
    + apply IH.
Qed.

Lemma firstn_short {A : Type} (k : nat) (l l' : list A) :
  firstn k l = l' -> (length l' < k)%nat -> l = l'.
Proof.
  revert l l'. induction k as [|k IH]; intros l l' Heq Hlen; [lia|].
  destruct l as [|x l]; simpl in Heq; [exact Heq|].
  destruct l' as [|y l']; [discriminate|].
  injection Heq as -> Heq. simpl in Hlen.
  rewrite (IH l l' Heq ltac:(lia)). reflexivity.
Qed.

(** X23.  A line that starts with "Topic ID:" but names no candidate does
    not drop out: it selects the previous topic a second time.  When the
    topics selected so far end with [c] and leave room, adding such a line
    to the answer adds a second [c]. *)
Theorem unknown_topic_id_repeats_selection (response line : pystr)
  (topics_data : list topic_dict) (pre : list topic_dict) (c : topic_dict) :
  _parse_topic_selection response topics_data = pre ++ [c] ->
  (length pre < 4)%nat ->
  ~ In 0x0a%N line ->
  startswith line (py "Topic ID:") = true ->
  named_topic topics_data line = None ->
  _parse_topic_selection (response ++ 0x0a%N :: line) topics_data
  = pre ++ [c; c].
Proof.
  intros Hsel Hlen Hline Hmark Hnone. unfold _parse_topic_selection in *.
  apply firstn_short in Hsel; [|rewrite List.length_app; simpl; lia].
  unfold split_char. rewrite (split_char_from_snoc _ _ _ _ Hline).
  fold (split_char 0x0a%N response).
  unfold collected in *. rewrite fold_left_app. simpl fold_left.
  pose proof (loop_keeps_invariant topics_data (split_char 0x0a%N response)
                ([], None)) as Hinv.
  destruct (fold_left (select_line topics_data) (split_char 0x0a%N response)
              ([], None)) as [sel cur].
  destruct Hinv as [_ Hcur]; [split; [constructor | reflexivity]|].
  simpl in Hcur. unfold select_line. rewrite Hmark, Hnone.
  destruct cur as [c'|].
  - rewrite (chosen_truthy topics_data c' Hcur) in *.
    apply app_inj_tail in Hsel as [-> ->].
    rewrite <- app_assoc. simpl.
    rewrite List.firstn_all2; [reflexivity|].
    rewrite List.length_app. simpl. lia.
  - subst sel. destruct pre; discriminate.
Qed.

End Select.

(** Two candidates as [Topic.to_dict] writes them. *)
Definition candidate (i : Z) (label : pystr) : topic_dict :=
  [(py "topic_id", PyInt i); (py "content", PyStr label);
   (py "count", PyInt 1); (py "weighted_count", PyFloat 1)].

Definition two_candidates : list topic_dict :=
  [candidate 0 (py "market"); candidate 1 (py "sports")].

Lemma unknown_topic_id_repeats_selection_witness :
  List.map (topic_id_text NewsFilter.failing_backend)
    (_parse_topic_selection NewsFilter.failing_backend
       (py "Topic ID: 1, Reason: timely" ++ 0x0a%N
          :: py "Topic ID: 7, Reason: broad")
       two_candidates)
  = [py "1"; py "1"].
Proof.
  rewrite (unknown_topic_id_repeats_selection NewsFilter.failing_backend
             (py "Topic ID: 1, Reason: timely")
             (py "Topic ID: 7, Reason: broad") two_candidates []
             (dict_set (candidate 1 (py "sports")) k_selection_reason
                (PyStr (py "timely")))).
  - vm_compute. reflexivity.
  - vm_compute. reflexivity.
  - simpl. lia.
  - vm_compute. intuition discriminate.
  - reflexivity.
  - vm_compute. reflexivity.
Defined.

End TopicSelector.

(** ** Labelled responses (src/reporting/validators.py) *)

Module LabelledResponse.

Import Samples.

(** No whitespace at either end, and not empty. *)
Definition trimmed (s : pystr) : Prop :=
  s <> [] /\ lstrip s = s /\ rstrip s = s.

(** The two marker tests read a line as its ASCII lower-casing does. *)
Definition reads_markers (E : externals) : Prop :=
  forall line,
    startswith (str_lower E line) (py "title:")
    = startswith (ascii_lower line) (py "title:")
    /\ startswith (str_lower E line) (py "content:")
       = startswith (ascii_lower line) (py "content:").

Lemma split_char_from_nonempty (sep : N) (s cur : pystr) :
  split_char_from sep cur s <> [].
Proof.
  revert cur. induction s as [|c s IH]; intros cur; simpl.
  - discriminate.
  - destruct (N.eqb c sep); [discriminate | apply IH].
Qed.

Lemma join_split_from (sep : N) (s cur : pystr) :
  join [sep] (split_char_from sep cur s) = rev cur ++ s.
Proof.
  revert cur. induction s as [|c s IH]; intros cur.
  - simpl. rewrite app_nil_r. reflexivity.
  - cbn [split_char_from]. destruct (N.eqb_spec c sep) as [-> | Hne].
    + pose proof (split_char_from_nonempty sep s []) as Hne.
      pose proof (IH []) as Hrec.
      destruct (split_char_from sep [] s) as [|l rest]; [congruence|].
      rewrite FilterAnswer.join_cons_cons, Hrec. reflexivity.
    + rewrite IH. simpl. rewrite <- app_assoc. reflexivity.
Qed.

Lemma join_split (sep : N) (s : pystr) :
  join [sep] (split_char sep s) = s.
Proof. apply (join_split_from sep s []). Qed.

Lemma split_first_line (sep : N) (l rest : pystr) :
  ~ In sep l ->
  split_char sep (l ++ sep :: rest) = l :: split_char sep rest.
Proof.
  intros Hno. unfold split_char.
  rewrite (FilterAnswer.split_char_from_app sep l rest [] Hno).
  reflexivity.
Qed.

Lemma trimmed_strip (s : pystr) : trimmed s -> strip s = s.
Proof. intros (_ & Hl & Hr). unfold strip. rewrite Hl, Hr. reflexivity. Qed.

Lemma strip_after_space (s : pystr) :
  trimmed s -> strip (0x20%N :: s) = s.
Proof.
  intros Hs. change (strip ([0x20%N] ++ s) = s).
  rewrite <- (app_nil_r s) at 1.
  rewrite (WordCountFacts.strip_padded [0x20%N] s []).
  - apply trimmed_strip. exact Hs.
  - repeat constructor.
  - constructor.
Qed.

Lemma strip_labelled (c : N) (p s : pystr) :
  isspace c = false -> trimmed s -> strip (c :: p ++ s) = c :: p ++ s.
Proof.
  intros Hc (Hne & _ & Hr). unfold strip.
  rewrite (FilterAnswer.lstrip_nonspace_head c (p ++ s) Hc).
  apply (FilterAnswer.rstrip_app_fixed (c :: p) s Hne Hr).
Qed.

Lemma title_line_is_title (t : pystr) :
  startswith (ascii_lower (py "Title: " ++ t)) (py "title:") = true
  /\ startswith (ascii_lower (py "Title: " ++ t)) (py "content:") = false.
Proof. split; reflexivity. Qed.

Lemma content_line_is_content (c : pystr) :
  startswith (ascii_lower (py "Content: " ++ c)) (py "content:") = true.
Proof. reflexivity. Qed.

Section Labelled.

Context (E : externals).
Context (Hmarkers : reads_markers E).

(** X24.  A response in the labelled layout gives back its title, and its
    content when the content stands on the "Content:" line alone; when more
    lines follow, the content is those lines only, and what stands on the
    "Content:" line is dropped. *)
Theorem labelled_response_extracted (t c1 body : pystr) :
  trimmed t -> ~ In 0x0a%N t ->
  trimmed c1 -> ~ In 0x0a%N c1 ->
  trimmed body ->
  extract_title_content E
    (py "Title: " ++ t ++ 0x0a%N :: py "Content: " ++ c1)
  = title_content (PyStr t) (PyStr c1)
  /\ extract_title_content E
       (py "Title: " ++ t ++ 0x0a%N :: py "Content: " ++ c1
          ++ 0x0a%N :: body)
     = title_content (PyStr t) (PyStr body).
Proof using Hmarkers.
  intros Ht Hnt Hc1 Hnc1 Hbody.
  assert (Hline1 : ~ In 0x0a%N (py "Title: " ++ t)).
  { intros Hin. apply in_app_or in Hin as [Hin | Hin]; [|tauto].
    vm_compute in Hin. intuition discriminate. }
  assert (Hline2 : ~ In 0x0a%N (py "Content: " ++ c1)).
  { intros Hin. apply in_app_or in Hin as [Hin | Hin]; [|tauto].
    vm_compute in Hin. intuition discriminate. }
  assert (Hfind : forall rest,
    find_line (fun line => startswith (str_lower E line) (py "title:"))
      ((py "Title: " ++ t) :: (py "Content: " ++ c1) :: rest) = Some 0%nat
    /\ find_line (fun line => startswith (str_lower E line) (py "content:"))
         ((py "Title: " ++ t) :: (py "Content: " ++ c1) :: rest)
       = Some 1%nat).
  { intros rest. cbn [find_line].
    rewrite (proj1 (Hmarkers (py "Title: " ++ t))).
    rewrite (proj2 (Hmarkers (py "Title: " ++ t))).
    rewrite (proj2 (Hmarkers (py "Content: " ++ c1))).
    rewrite (proj1 (title_line_is_title t)).
    rewrite (proj2 (title_line_is_title t)).
    rewrite (content_line_is_content c1). split; reflexivity. }
  assert (Htitle :
    strip (replace_first (py "Title:") [] (py "Title: " ++ t)) = t).
  { change (replace_first (py "Title:") [] (py "Title: " ++ t))
      with (0x20%N :: t).
    apply strip_after_space. exact Ht. }
  assert (Hcontent :
    strip (replace_first (py "Content:") [] (py "Content: " ++ c1)) = c1).
  { change (replace_first (py "Content:") [] (py "Content: " ++ c1))
      with (0x20%N :: c1).
    apply strip_after_space. exact Hc1. }
  split.
  - unfold extract_title_content.
    assert (Hstrip :
      strip (py "Title: " ++ t ++ 0x0a%N :: py "Content: " ++ c1)
      = py "Title: " ++ t ++ 0x0a%N :: py "Content: " ++ c1).
    { assert (Hshape :
        py "Title: " ++ t ++ 0x0a%N :: py "Content: " ++ c1
        = 0x54%N :: (py "itle: " ++ t ++ 0x0a%N :: py "Content: ") ++ c1)
        by (rewrite <- !app_assoc; reflexivity).
      rewrite Hshape. apply strip_labelled; [reflexivity | exact Hc1]. }
    unfold extract_json. rewrite Hstrip.
    change (startswith (py "Title: " ++ t ++ 0x0a%N :: py "Content: " ++ c1)
              (py "{")) with false.
    cbn [andb].
    rewrite (app_assoc (py "Title: ") t).
    rewrite (split_first_line 0x0a%N (py "Title: " ++ t) _ Hline1).
    assert (Hlast :
      split_char 0x0a%N (py "Content: " ++ c1) = [py "Content: " ++ c1])
      by exact (SynthesisFacts.split_char_from_no_sep 0x0a%N
                  (py "Content: " ++ c1) [] Hline2).
    rewrite Hlast.
    destruct (Hfind []) as [-> ->].
    cbn [nth skipn join]. rewrite Htitle.
    change (strip []) with (@nil N). cbn [nonempty negb andb Nat.ltb Nat.leb].
    rewrite Hcontent. reflexivity.
  - unfold extract_title_content.
    assert (Hstrip :
      strip (py "Title: " ++ t ++ 0x0a%N :: py "Content: " ++ c1
               ++ 0x0a%N :: body)
      = py "Title: " ++ t ++ 0x0a%N :: py "Content: " ++ c1
          ++ 0x0a%N :: body).
    { assert (Hshape :
        py "Title: " ++ t ++ 0x0a%N :: py "Content: " ++ c1
          ++ 0x0a%N :: body
        = 0x54%N
            :: (py "itle: " ++ t ++ 0x0a%N :: py "Content: " ++ c1
                  ++ [0x0a%N]) ++ body)
        by (simpl; rewrite <- ?app_assoc; simpl; rewrite <- ?app_assoc;
            reflexivity).
      rewrite Hshape. apply strip_labelled; [reflexivity | exact Hbody]. }
    unfold extract_json. rewrite Hstrip.
    change (startswith
              (py "Title: " ++ t ++ 0x0a%N :: py "Content: " ++ c1
                 ++ 0x0a%N :: body) (py "{")) with false.
    cbn [andb].
    rewrite (app_assoc (py "Title: ") t).
    rewrite (split_first_line 0x0a%N (py "Title: " ++ t) _ Hline1).
    rewrite (app_assoc (py "Content: ") c1).
    rewrite (split_first_line 0x0a%N (py "Content: " ++ c1) _ Hline2).
    destruct (Hfind (split_char 0x0a%N body)) as [-> ->].
    cbn [nth skipn]. rewrite !drop_0, Htitle, join_split.
    rewrite (trimmed_strip body Hbody).
    destruct Hbody as (Hne & _).
    destruct body as [|b body]; [congruence|]. reflexivity.
Qed.

End Labelled.

Lemma labelled_response_extracted_witness :
  extract_title_content (scripted (fun _ => Returns []))
    (py "Title: Rates" ++ 0x0a%N :: py "Content: They rose."
       ++ 0x0a%N :: py "Markets fell.")
  = title_content (PyStr (py "Rates")) (PyStr (py "Markets fell.")).
Proof.
  apply (labelled_response_extracted (scripted (fun _ => Returns []))
           ltac:(intros line; split; reflexivity)
           (py "Rates") (py "They rose.") (py "Markets fell.")).
  - repeat split; discriminate.
  - vm_compute. intuition discriminate.
  - repeat split; discriminate.
  - vm_compute. intuition discriminate.
  - repeat split; discriminate.
Defined.

End LabelledResponse.

(** ** Topics that survive filtering (src/reporting/generators.py) *)

Module SurvivingTopic.

Import Orchestrator NewsFilter ContentAnalyzer.

Lemma word_count_of_string (c : pyval) (lo hi : Z) (r : bool * Z) :
  truthy c = true -> validate_word_count_of c lo hi = Returns r ->
  exists s, c = PyStr s.
Proof.
  intros Hc. destruct c as [| | | |s| |]; simpl in Hc |- *;
    try (rewrite Hc; discriminate); try discriminate.
  intros _. exists s. reflexivity.
Qed.

(** A dict with a true title and a string for content. *)
Definition titled_text (rc : pyval) : Prop :=
  validate_report_format rc = true
  /\ exists d s, rc = PyDict d /\ dict_get d k_content = Some (PyStr s).

Lemma format_and_count (d : list (pystr * pyval)) (r : bool * Z) :
  validate_report_format (PyDict d) = true ->
  validate_word_count_of (dict_get_default d k_content (PyStr [])) 500 2000
  = Returns r ->
  titled_text (PyDict d).
Proof.
  intros Hf Hw. split; [exact Hf|]. exists d.
  unfold validate_report_format in Hf. unfold dict_get_default in Hw.
  destruct (dict_get d k_title) as [t|]; [|discriminate].
  destruct (dict_get d k_content) as [c|]; [|discriminate].
  apply andb_prop in Hf as [_ Hc].
  destruct (word_count_of_string c 500 2000 r Hc Hw) as [s ->].
  exists s. auto.
Qed.

Section Synthesizer.

Context (E : externals) (source_lang : pystr).

Lemma attempt_body_titled_text (sp up : pystr) (a : Z) (n n' : nat)
  (rc : pyval) :
  attempt_body E sp up a n = (Returns (Return rc), n') -> titled_text rc.
Proof.
  unfold attempt_body, try_except, bind, chat, lift, ret, raise.
  destruct (backend E n sp up) as [response | e]; simpl.
  - destruct (validate_report_format (extract_title_content E response))
      eqn:Hf; simpl; [|discriminate].
    destruct (extract_title_content E response) as [| | | | | |d] eqn:Hx;
      simpl; try (destruct (a =? 2); discriminate).
    destruct (validate_word_count_of _ 500 2000) as [[valid wc] | e] eqn:Hw;
      simpl.
    + destruct valid; simpl.
      * intros H. injection H as <- _.
        apply (format_and_count d (true, wc) Hf Hw).
      * destruct (a =? 2); intros H; [|discriminate].
        injection H as <- _.
        apply (format_and_count d (false, wc) Hf Hw).
    + destruct (a =? 2); discriminate.
  - destruct (a =? 2); discriminate.
Qed.

Lemma attempts_titled_text (sp up : pystr) (todo : list Z) (n n' : nat)
  (rc : pyval) :
  attempts E sp up todo n = (Returns rc, n') -> titled_text rc.
Proof.
  revert n. induction todo as [|a rest IH]; intros n; simpl.
  - discriminate.
  - unfold bind.
    destruct (attempt_body E sp up a n) as [[[result|]|e] n1] eqn:Hbody.
    + intros H. injection H as <- _.
      apply (attempt_body_titled_text sp up a n n1 result Hbody).
    + apply IH.
    + discriminate.
Qed.

Lemma generate_titled_text (topic : Topic) (filtered_news : list NewsArticle)
  (n n' : nat) (rc : pyval) :
  generate_report_content E source_lang topic filtered_news n
  = (Returns rc, n') ->
  titled_text rc.
Proof.
  unfold generate_report_content, try_except, bind, lift, raise.
  destruct (get_prompt E REPORT_GENERATION (py "system") []) as [sp|e];
    cbv beta iota; [|discriminate].
  destruct (get_prompt E REPORT_GENERATION (py "user") _) as [up|e];
    cbv beta iota; [|discriminate].
  destruct (attempts E sp up [0; 1; 2] n) as [[r|e] n1] eqn:Hatt;
    [|discriminate].
  intros H. injection H as <- _.
  apply (attempts_titled_text sp up [0; 1; 2] n n1 r Hatt).
Qed.

Lemma validate_content_returns (s : pystr) (t : pyval) (lo hi : Z)
  (n : nat) :
  exists verdict n',
    QualityCheck.validate_content E (PyStr s) t lo hi n
    = (Returns verdict, n').
Proof.
  unfold QualityCheck.validate_content.
  destruct (negb (validate_report_format (title_content t (PyStr s))));
    [unfold ret; eauto|].
  unfold bind at 1. unfold lift at 1. cbn [validate_word_count_of].
  destruct (Validator.validate_word_count s _ _) as [basic wc].
  destruct (negb basic); [unfold ret; eauto|].
  unfold try_except, bind, lift, chat, ret.
  destruct (get_prompt E VALIDATION (py "system") []) as [sp|e1]; [|eauto].
  destruct (get_prompt E VALIDATION (py "user") _) as [up|e2]; [|eauto].
  destruct (backend E n sp up) as [response|e3]; eauto.
Qed.

End Synthesizer.

Lemma titled_text_has_keys (rc : pyval) :
  titled_text rc ->
  has_keys rc /\ lacks_content rc = Returns false
  /\ exists t s,
       content_get rc k_content (PyStr []) = Returns (PyStr s)
       /\ content_get rc k_title (PyStr []) = Returns t.
Proof.
  intros (Hf & d & s & -> & Hc).
  pose proof (OrchestratorFacts.valid_format_not_lacking (PyDict d) Hf)
    as Hl.
  unfold validate_report_format in Hf.
  destruct (dict_get d k_title) as [t|] eqn:Ht; [|discriminate].
  split; [exists d, t, (PyStr s); auto|]. split; [exact Hl|].
  exists t, s. unfold content_get, dict_get_default. rewrite Hc, Ht. auto.
Qed.

Lemma syntheses_return_impl (K : collaborators) (P Q : pyval -> Prop)
  (topic : Topic) (filtered_news : list NewsArticle) :
  (forall n rc n',
     generate K topic filtered_news n = (Returns rc, n') -> P rc -> Q rc) ->
  forall k n,
    syntheses_return K P topic filtered_news k n ->
    syntheses_return K Q topic filtered_news k n.
Proof.
  intros HPQ k. induction k as [|k IH]; intros n; simpl; [tauto|].
  intros (rc & n' & Hgen & HP & Hrest).
  exists rc, n'. split; [exact Hgen|]. split; [|apply IH; exact Hrest].
  apply (HPQ n rc n' Hgen HP).
Qed.

(** The synthesis calls the repository's own pipeline makes for a topic,
    the first of them being call [n], return: the first synthesis, and,
    when its content is judged negatively, the three of the retry loop. *)
Definition synthesis_calls_return (E : externals) (R : region)
  (topic : Topic) (filtered_news : list NewsArticle) (n : nat) : Prop :=
  exists rc n2,
    generate (pipeline E R) topic filtered_news n = (Returns rc, n2)
    /\ forall c t wc n3,
         content_get rc k_content (PyStr []) = Returns c ->
         content_get rc k_title (PyStr []) = Returns t ->
         validate (pipeline E R) c t 500 2000 n2 = (Returns (false, wc), n3) ->
         syntheses_return (pipeline E R) (fun _ => True) topic filtered_news
           3 n3.

(** C7, as amended.  A topic whose filtered article set is not empty
    produces a report whenever the calls made for it return: the first
    synthesis (with nothing, or with a dict holding a title and a content),
    the validation of what is kept of it, and, after a negative verdict, the
    three syntheses of the retry loop.  When every synthesis made returns
    nothing, the report carries the placeholder title "Topic <id>" and a
    placeholder body that ends by naming the topic's label.  With the
    repository's own collaborators the validation call always returns, so
    the report is produced whenever the synthesis calls made return; and
    their synthesizer never returns nothing or a dict without content, so
    with them the placeholder is never substituted. *)
Theorem surviving_topic_gets_report (E : externals) (R : region)
  (K : collaborators) (news_list : list NewsArticle) (topic : Topic)
  (filtered_news : list NewsArticle) (n1 : nat) :
  filter_news K topic news_list O = (Returns filtered_news, n1) ->
  filtered_news <> [] ->
  let refined := refine R topic filtered_news in
  let run := process_topic E R K news_list (start topic) in
  (calls_made_return K report_shaped refined filtered_news n1 ->
   exists report, fst run = Returns (Some report))
  /\ (calls_made_return K nothing refined filtered_news n1 ->
      exists report body,
        fst run = Returns (Some report)
        /\ r_title report = PyStr (py "Topic " ++ str_of_Z (topic_id topic))
        /\ r_content report
           = append_reference_news E R (PyStr body) filtered_news
        /\ names_label body topic)
  /\ (K = pipeline E R ->
      (synthesis_calls_return E R refined filtered_news n1 ->
       exists report, fst run = Returns (Some report))
      /\ (forall t l n rc n',
            generate K t l n = (Returns rc, n') ->
            truthy rc = true /\ lacks_content rc = Returns false)).
Proof.
  intros Hf Hne refined run. subst refined run.
  assert (Hshaped :
    calls_made_return K report_shaped (refine R topic filtered_news)
      filtered_news n1 ->
    exists report,
      fst (process_topic E R K news_list (start topic))
      = Returns (Some report)).
  { intros Hcalls.
    destruct (synthesize_and_assemble_returns E R K report_shaped
                filtered_news (after_filter (refine R topic filtered_news) n1)
                (fun rc H => H) Hcalls)
      as (report & st' & Hrun).
    exists report.
    apply (process_topic_after_filter E R K news_list topic filtered_news n1
             report st' Hf Hne Hrun). }
  split; [exact Hshaped|]. split.
  - intros Hnothing.
    destruct (synthesize_and_assemble_nothing E R K filtered_news
                (after_filter (refine R topic filtered_news) n1) Hnothing)
      as (body & st' & Hbody & Hrun).
    eexists. exists body. split.
    + apply (process_topic_after_filter E R K news_list topic filtered_news n1
               _ st' Hf Hne Hrun).
    + split; [reflexivity|]. split; [reflexivity|].
      cbn [topic_obj after_filter] in Hbody.
      pose proof (placeholder_bodies_name_label (refine R topic filtered_news))
        as [H1 H2].
      destruct Hbody as [-> | ->]; assumption.
  - intros HK. split.
    + intros (rc & n2 & Hgen & Hretry). apply Hshaped. subst K.
      pose proof (generate_titled_text E (source_lang R) _ _ _ _ _ Hgen)
        as Htext.
      destruct (titled_text_has_keys rc Htext)
        as (Hkeys & Hl & t & s & Hc & Ht).
      destruct (validate_content_returns E s t 500 2000 n2)
        as ([valid wc] & n3 & Hv).
      exists rc, n2. split; [exact Hgen|]. split; [right; exact Hkeys|].
      exists (PyStr s), t, (valid, wc), n3.
      unfold kept. rewrite Hl.
      split; [exact Hc|]. split; [exact Ht|]. split; [exact Hv|].
      cbn [fst]. intros ->.
      apply (syntheses_return_impl (pipeline E R) (fun _ => True)
               report_shaped).
      * intros n rc' n' Hgen' _. right.
        apply titled_text_has_keys.
        apply (generate_titled_text E (source_lang R) _ _ _ _ _ Hgen').
      * apply (Hretry (PyStr s) t wc n3 Hc Ht Hv).
    + intros t l n rc n' Hgen. subst K.
      pose proof (generate_titled_text E (source_lang R) _ _ _ _ _ Hgen)
        as Htext.
      destruct (titled_text_has_keys rc Htext) as (Hkeys & Hl & _).
      split; [apply has_keys_truthy; exact Hkeys | exact Hl].
Qed.

Lemma surviving_topic_gets_report_witness :
  (exists report,
     fst (process_topic good_second plain_region
            (pipeline good_second plain_region)
            eleven_articles (start topic_of_eleven))
     = Returns (Some report))
  /\ (exists report,
        fst (process_topic failing_backend plain_region silent_collaborators
               eleven_articles (start topic_of_eleven))
        = Returns (Some report)
        /\ r_title report = PyStr (py "Topic 0")).
Proof.
  split.
  - destruct (surviving_topic_gets_report good_second plain_region
                (pipeline good_second plain_region) eleven_articles
                topic_of_eleven [article 1] 1%nat) as (_ & _ & H).
    + vm_compute. reflexivity.
    + discriminate.
    + destruct (H eq_refl) as [Hreport _]. apply Hreport.
      eexists. exists 4%nat. split; [vm_compute; reflexivity|].
      intros c t wc n3 Hc Ht Hv.
      vm_compute in Hc. injection Hc as <-.
      vm_compute in Ht. injection Ht as <-.
      vm_compute in Hv. injection Hv as <- <-.
      eexists. exists 5%nat. split; [vm_compute; reflexivity|].
      split; [exact I|].
      eexists. exists 8%nat. split; [vm_compute; reflexivity|].
      split; [exact I|].
      eexists. exists 11%nat. split; [vm_compute; reflexivity|].
      split; exact I.
  - destruct (surviving_topic_gets_report failing_backend plain_region
                silent_collaborators eleven_articles topic_of_eleven
                (firstn 1 eleven_articles) 0%nat) as (_ & H & _).
    + reflexivity.
    + discriminate.
    + destruct H as (report & body & Hrun & Htitle & _).
      * exists PyNone, 0%nat. split; [reflexivity|].
        split; [reflexivity|].
        eexists. eexists. exists (false, 0), 0%nat.
        split; [reflexivity|]. split; [reflexivity|].
        split; [reflexivity|]. intros _.
        exists PyNone, 0%nat. split; [reflexivity|]. split; [reflexivity|].
        exists PyNone, 0%nat. split; [reflexivity|]. split; [reflexivity|].
        exists PyNone, 0%nat. split; [reflexivity|]. split; [reflexivity|].
        exact I.
      * exists report. split; [exact Hrun | exact Htitle].
Defined.

End SurvivingTopic.
